(** * jsonapi_flex: the resource schema and document codec, in Rocq

    A shallow embedding of the Python sources [utilities.py], [errors.py],
    [japi_format_validators.py], [pagination.py] and [resource.py], with the
    properties of the natural-language specification stated over it.

    Conventions of the embedding.
    - A Python [str] is a Rocq [string]; every character is a code point
      below 256.  Character-level loops run over [list ascii].
    - A Python value that has a JSON analogue is a [pyval].  JSON numbers are
      integers; floating point values are outside the model.
    - A Python [dict] keeps insertion order and is an association list with
      distinct keys; a lookup takes the first binding.
    - A call that can raise returns a [result]; the exception classes that the
      sources can raise are the constructors of [exn].
    - The backing model instance (an ORM object) is a finite map from column
      names to values; reading a column that was never set gives [None]. *)

From Stdlib Require Import ZArith Lia List Ascii String Bool Permutation.
From Stdlib Require Import DecimalString DecimalZ DecimalPos DecimalN DecimalFacts.
From stdpp Require Import gmap strings list.

Local Open Scope Z_scope.
Local Open Scope string_scope.
Local Open Scope list_scope.

(** ** utilities.py: the comma splitter *)

Module Splitter.

Definition comma : ascii := ","%char.
Definition backslash : ascii := "\"%char.

(** The three loop variables of [split_str_on_comma]. *)
Record split_state := SplitState {
  is_escaped : bool;
  result : list (list ascii);
  sub_str : list ascii
}.

(** [str[i]] for an index the loop produces. *)
Definition char_at (str : list ascii) (i : nat) : ascii :=
  nth i str "000"%char.

(** [if sub_str: result.append(sub_str)] *)
Definition append_if_nonempty (res : list (list ascii)) (sub : list ascii)
  : list (list ascii) :=
  match sub with
  | [] => res
  | _ :: _ => res ++ [sub]
  end.

(** One iteration of [for i in range(length_str)].  The assignment
    [i = i + 1] rebinds [i] for the rest of this iteration only: the next
    iteration takes the next element of the range.  [length_str - 1] is
    computed on naturals; for an empty input the loop does not run. *)
Definition loop_body (str : list ascii) (st : split_state) (i : nat)
  : split_state :=
  if Ascii.eqb (char_at str i) comma && negb (is_escaped st) then
    {| is_escaped := is_escaped st;
       result := append_if_nonempty (result st) (sub_str st);
       sub_str := [] |}
  else if is_escaped st then
    {| is_escaped := false; result := result st; sub_str := sub_str st |}
  else
    let bs := Ascii.eqb (char_at str i) backslash in
    let i' := if bs && (i <? length str - 1)%nat then (i + 1)%nat else i in
    {| is_escaped := bs;
       result := result st;
       sub_str := sub_str st ++ [char_at str i'] |}.

Definition run_loop (str : list ascii) (idx : list nat) (st : split_state)
  : split_state :=
  fold_left (loop_body str) idx st.

Definition finish (st : split_state) : list (list ascii) :=
  append_if_nonempty (result st) (sub_str st).

Definition split_chars (str : list ascii) : list (list ascii) :=
  finish (run_loop str (seq 0 (length str))
                   {| is_escaped := false; result := []; sub_str := [] |}).

Definition split_str_on_comma (str : string) : list string :=
  map string_of_list_ascii (split_chars (list_ascii_of_string str)).

(** The scanner of the specification (section 4.5), written from its words:
    an [escaped] flag; a backslash met while the flag is clear sets it and
    is not emitted; the character met while the flag is set is emitted
    literally and clears it; a comma met while the flag is clear closes the
    token.  [keep_last] says what happens to a backslash that sets the flag
    on the last character: the specification drops it ([false]). *)
Fixpoint scan (keep_last : bool) (cs : list ascii) (escaped : bool)
    (tok : list ascii) (acc : list (list ascii)) : list (list ascii) :=
  match cs with
  | [] =>
      if escaped && keep_last
      then append_if_nonempty acc (tok ++ [backslash])
      else append_if_nonempty acc tok
  | c :: rest =>
      if escaped then scan keep_last rest false (tok ++ [c]) acc
      else if Ascii.eqb c backslash then scan keep_last rest true tok acc
      else if Ascii.eqb c comma
           then scan keep_last rest false [] (append_if_nonempty acc tok)
           else scan keep_last rest false (tok ++ [c]) acc
  end.

Definition splitStr_spec (str : string) : list string :=
  map string_of_list_ascii (scan false (list_ascii_of_string str) false [] []).

Definition splitStr_keeping_last (str : string) : list string :=
  map string_of_list_ascii (scan true (list_ascii_of_string str) false [] []).

(** Does the scan end with the flag set, i.e. is the last character a
    backslash that escapes nothing? *)
Fixpoint ends_escaped (cs : list ascii) (escaped : bool) : bool :=
  match cs with
  | [] => escaped
  | c :: rest =>
      if escaped then ends_escaped rest false
      else ends_escaped rest (Ascii.eqb c backslash)
  end.

Definition dangling_escape (str : string) : bool :=
  ends_escaped (list_ascii_of_string str) false.

End Splitter.

(** ** Python values, exceptions and the built-ins the sources use *)

Module Py.

#[warnings="-register-all"] Inductive pyval : Type :=
| PNone
| PBool (b : bool)
| PInt (z : Z)
| PStr (s : string)
| PList (l : list pyval)
| PDict (d : list (string * pyval)).

(** Truth value of an object, as [if x:] and [x or y] test it. *)
Definition truthy (v : pyval) : bool :=
  match v with
  | PNone => false
  | PBool b => b
  | PInt z => negb (z =? 0)%Z
  | PStr s => negb (String.eqb s "")
  | PList l => match l with [] => false | _ => true end
  | PDict d => match d with [] => false | _ => true end
  end.

Definition is_none (v : pyval) : bool :=
  match v with PNone => true | _ => false end.

(** [v == s] and [v != s] for a [str] [s]. *)
Definition eq_str (v : pyval) (s : string) : bool :=
  match v with PStr t => String.eqb t s | _ => false end.

(** *** Dictionaries *)

Definition dict := list (string * pyval).

Fixpoint dict_lookup {A} (d : list (string * A)) (k : string) : option A :=
  match d with
  | [] => None
  | (k', v) :: rest => if String.eqb k' k then Some v else dict_lookup rest k
  end.

Definition dict_mem {A} (d : list (string * A)) (k : string) : bool :=
  match dict_lookup d k with Some _ => true | None => false end.

Definition str_in (k : string) (l : list string) : bool :=
  existsb (String.eqb k) l.

(** The keys of a dictionary, each once, in insertion order. *)
Fixpoint dedup (l : list string) : list string :=
  match l with
  | [] => []
  | k :: rest => k :: filter (fun x => negb (String.eqb k x)) (dedup rest)
  end.

Definition dict_keys {A} (d : list (string * A)) : list string :=
  dedup (map fst d).

(** [d[k] = v]: replace in place, or append a new key at the end. *)
Fixpoint dict_set {A} (d : list (string * A)) (k : string) (v : A)
  : list (string * A) :=
  match d with
  | [] => [(k, v)]
  | (k', v') :: rest =>
      if String.eqb k' k then (k', v) :: rest
      else (k', v') :: dict_set rest k v
  end.

(** [d.update(e)] *)
Definition dict_update {A} (d e : list (string * A)) : list (string * A) :=
  fold_left (fun acc kv => dict_set acc (fst kv) (snd kv)) e d.

(** Set operations on key views: [a - b] and [a & b]. *)
Definition keys_diff (a b : list string) : list string :=
  filter (fun k => negb (str_in k b)) a.
Definition keys_inter (a b : list string) : list string :=
  filter (fun k => str_in k b) a.
(** [a <= b] *)
Definition keys_subset (a b : list string) : bool :=
  forallb (fun k => str_in k b) a.

(** *** Characters and strings *)

Definition code (c : ascii) : N := N_of_ascii c.


(** The characters [int()] skips around the digits: the ASCII white space
    of C, and the non-ASCII spaces, which it first turns into blanks. *)
Definition is_int_space (c : ascii) : bool :=
  let n := code c in
  ((9 <=? n) && (n <=? 13) || (n =? 32) || (n =? 133) || (n =? 160))%N.

Fixpoint lstrip (p : ascii -> bool) (cs : list ascii) : list ascii :=
  match cs with
  | [] => []
  | c :: rest => if p c then lstrip p rest else cs
  end.

Definition strip_chars (p : ascii -> bool) (cs : list ascii) : list ascii :=
  rev (lstrip p (rev (lstrip p cs))).


Definition is_digit (c : ascii) : bool :=
  ((48 <=? code c) && (code c <=? 57))%N.

Definition digit_val (c : ascii) : Z := Z.of_N (code c) - 48.

Definition underscore : ascii := "_"%char.

(** Decimal digits with single underscores between them; [acc] is the
    value read so far and [prev_digit] says whether the previous character
    was a digit. *)
Fixpoint parse_digits (cs : list ascii) (acc : Z) (prev_digit : bool)
  : option Z :=
  match cs with
  | [] => if prev_digit then Some acc else None
  | c :: rest =>
      if is_digit c then parse_digits rest (10 * acc + digit_val c) true
      else if Ascii.eqb c underscore && prev_digit
           then match rest with
                | [] => None
                | _ => parse_digits rest acc false
                end
           else None
  end.

(** [int(s)] for a [str]: [None] stands for [ValueError]. *)
Definition parse_int (s : string) : option Z :=
  match strip_chars is_int_space (list_ascii_of_string s) with
  | [] => None
  | c :: rest =>
      if Ascii.eqb c "-"%char then
        option_map Z.opp (parse_digits rest 0 false)
      else if Ascii.eqb c "+"%char then parse_digits rest 0 false
      else parse_digits (c :: rest) 0 false
  end.

(** The value of a decimal numeral read from the left, after the value
    [acc] of the digits before it. *)
Fixpoint uint_val (d : Decimal.uint) (acc : Z) : Z :=
  match d with
  | Decimal.Nil => acc
  | Decimal.D0 l => uint_val l (10 * acc + 0)
  | Decimal.D1 l => uint_val l (10 * acc + 1)
  | Decimal.D2 l => uint_val l (10 * acc + 2)
  | Decimal.D3 l => uint_val l (10 * acc + 3)
  | Decimal.D4 l => uint_val l (10 * acc + 4)
  | Decimal.D5 l => uint_val l (10 * acc + 5)
  | Decimal.D6 l => uint_val l (10 * acc + 6)
  | Decimal.D7 l => uint_val l (10 * acc + 7)
  | Decimal.D8 l => uint_val l (10 * acc + 8)
  | Decimal.D9 l => uint_val l (10 * acc + 9)
  end.

(** [str(z)] for an [int]. *)
Definition str_of_Z (z : Z) : string := NilZero.string_of_int (Z.to_int z).

Definition str_of_nat (n : nat) : string := str_of_Z (Z.of_nat n).

(** *** [repr] and [str] *)

Definition dquote : ascii := ascii_of_N 34.
Definition squote : ascii := "'"%char.
Definition backslash : ascii := "\"%char.

Definition hex_digit (n : N) : ascii :=
  nth (N.to_nat n) (list_ascii_of_string "0123456789abcdef") "0"%char.

(** [str.isprintable] on one character, for code points below 256. *)
Definition is_printable (c : ascii) : bool :=
  let n := code c in
  ((32 <=? n) && (n <? 127) || (161 <=? n) && negb (n =? 173))%N.

Definition repr_char (quote c : ascii) : list ascii :=
  if Ascii.eqb c quote || Ascii.eqb c backslash then [backslash; c]
  else if (code c =? 9)%N then [backslash; "t"%char]
  else if (code c =? 10)%N then [backslash; "n"%char]
  else if (code c =? 13)%N then [backslash; "r"%char]
  else if is_printable c then [c]
  else [backslash; "x"%char; hex_digit (code c / 16); hex_digit (code c mod 16)].

Definition repr_str (s : string) : string :=
  let cs := list_ascii_of_string s in
  let quote :=
    if existsb (Ascii.eqb squote) cs && negb (existsb (Ascii.eqb dquote) cs)
    then dquote else squote in
  string_of_list_ascii (quote :: flat_map (repr_char quote) cs ++ [quote]).

Fixpoint repr (v : pyval) : string :=
  match v with
  | PNone => "None"
  | PBool true => "True"
  | PBool false => "False"
  | PInt z => str_of_Z z
  | PStr s => repr_str s
  | PList l => "[" +:+ String.concat ", " (map repr l) +:+ "]"
  | PDict d =>
      "{" +:+ String.concat ", "
                (map (fun '(k, x) => repr_str k +:+ ": " +:+ repr x) d)
          +:+ "}"
  end.

(** [str(v)], also what [format] puts in place of [{}]. *)
Definition py_str (v : pyval) : string :=
  match v with
  | PStr s => s
  | _ => repr v
  end.

Definition of_opt_str (o : option string) : pyval :=
  match o with Some s => PStr s | None => PNone end.

(** *** [str.replace], [str.find] and slices *)

(** [cs] starts with [p]. *)
Fixpoint starts_with (p cs : list ascii) : bool :=
  match p, cs with
  | [], _ => true
  | a :: p', c :: cs' => Ascii.eqb a c && starts_with p' cs'
  | _ :: _, [] => false
  end.

(** [s.replace(old, new)] for a non-empty [old]: the occurrences of [old]
    are taken from the left and do not overlap. [skip] counts the characters
    of the occurrence just replaced that are still to be passed. *)
Fixpoint replace_chars (old new cs : list ascii) (skip : nat) : list ascii :=
  match cs with
  | [] => []
  | c :: rest =>
      match skip with
      | S k => replace_chars old new rest k
      | O =>
          if starts_with old cs
          then new ++ replace_chars old new rest (length old - 1)
          else c :: replace_chars old new rest 0
      end
  end.

(** [s.replace(old, new)]; an empty [old] matches before every character
    and at the end. *)
Definition str_replace (s old new : string) : string :=
  let cs := list_ascii_of_string s in
  let n := list_ascii_of_string new in
  string_of_list_ascii
    match list_ascii_of_string old with
    | [] => n ++ flat_map (fun c => c :: n) cs
    | o => replace_chars o n cs 0
    end.




End Py.

(** ** errors.py *)

Module Errors.
Import Py.

(** The attributes [Error.__init__] stores. [class_name] is
    [type(self).__name__]. *)
Record Error := mkError {
  class_name : string;
  http_status : Z;
  id : option string;
  about : string;
  code : option string;
  title : string;
  detail : string;
  source_pointer : string;
  source_parameter : option string;
  meta : option dict
}.

(** The keyword arguments of [Error.__init__] other than [http_status]. *)
Record kwargs := mkKwargs {
  kw_id : option string;
  kw_about : string;
  kw_code : option string;
  kw_title : option string;
  kw_detail : string;
  kw_source_parameter : option string;
  kw_source_pointer : pyval;
  kw_meta : option dict
}.

(** The defaults of the signature. *)
Definition no_kwargs : kwargs :=
  {| kw_id := None; kw_about := ""; kw_code := None; kw_title := None;
     kw_detail := ""; kw_source_parameter := None; kw_source_pointer := PNone;
     kw_meta := None |}.

Definition with_detail (d : string) (kw : kwargs) : kwargs :=
  {| kw_id := kw_id kw; kw_about := kw_about kw; kw_code := kw_code kw;
     kw_title := kw_title kw; kw_detail := d;
     kw_source_parameter := kw_source_parameter kw;
     kw_source_pointer := kw_source_pointer kw; kw_meta := kw_meta kw |}.

Definition with_source_pointer (p : pyval) (kw : kwargs) : kwargs :=
  {| kw_id := kw_id kw; kw_about := kw_about kw; kw_code := kw_code kw;
     kw_title := kw_title kw; kw_detail := kw_detail kw;
     kw_source_parameter := kw_source_parameter kw;
     kw_source_pointer := p; kw_meta := kw_meta kw |}.

Definition with_source_parameter (p : string) (kw : kwargs) : kwargs :=
  {| kw_id := kw_id kw; kw_about := kw_about kw; kw_code := kw_code kw;
     kw_title := kw_title kw; kw_detail := kw_detail kw;
     kw_source_parameter := Some p;
     kw_source_pointer := kw_source_pointer kw; kw_meta := kw_meta kw |}.

(** [Error.__init__] for an instance of the class named [cls]. *)
Definition Error_init (cls : string) (status : Z) (kw : kwargs) : Error :=
  {| class_name := cls;
     http_status := status;
     id := kw_id kw;
     about := kw_about kw;
     code := kw_code kw;
     title := match kw_title kw with Some t => t | None => cls end;
     detail := kw_detail kw;
     source_pointer := py_str (kw_source_pointer kw);
     source_parameter := kw_source_parameter kw;
     meta := kw_meta kw |}.

(** [Error(http_status=500, ...)] and the subclasses that fix the status. *)
Definition Error_new (status : Z) (kw : kwargs) : Error :=
  Error_init "Error" status kw.
Definition BadRequest (kw : kwargs) : Error := Error_init "BadRequest" 400 kw.
Definition Forbidden (kw : kwargs) : Error := Error_init "Forbidden" 403 kw.
Definition NotFound (kw : kwargs) : Error := Error_init "NotFound" 404 kw.
Definition UnprocessableEntity (kw : kwargs) : Error :=
  Error_init "UnprocessableEntity" 422 kw.

Definition nonempty (s : string) : bool := negb (String.eqb s "").
Definition nonempty_opt (o : option string) : bool :=
  match o with Some s => nonempty s | None => false end.

(** The property [Error.json]. Every key is set once, so the dictionary is
    the concatenation of the members in the order of the assignments. *)
Definition json (e : Error) : dict :=
  (match id e with Some i => [("id", PStr i)] | None => [] end)
  ++ [("status", PInt (http_status e)); ("title", PStr (title e))]
  ++ (if nonempty (about e)
      then [("links", PDict [("about", PStr (about e))])] else [])
  ++ (match code e with
      | Some c => if nonempty c then [("code", PStr c)] else []
      | None => []
      end)
  ++ (if nonempty (detail e) then [("detail", PStr (detail e))] else [])
  ++ (if nonempty (source_pointer e) || nonempty_opt (source_parameter e)
      then [("source",
             PDict ((if nonempty (source_pointer e)
                     then [("pointer", PStr (source_pointer e))] else [])
                    ++ (match source_parameter e with
                        | Some p =>
                            if nonempty p then [("parameter", PStr p)] else []
                        | None => []
                        end)))]
      else [])
  ++ (match meta e with
      | Some ((_ :: _) as m) => [("meta", PDict m)]
      | _ => []
      end).

(** [ErrorList]: the list [self.errors]. [append] and [extend] take
    [Error]s only, so the list holds nothing else. *)
Definition ErrorList := list Error.

Definition ErrorList_append (errors : ErrorList) (error : Error) : ErrorList :=
  errors ++ [error].

Definition ErrorList_extend (errors more : ErrorList) : ErrorList :=
  errors ++ more.

(** [400 <= err.http_status < 500] *)
Definition is_client_error (err : Error) : bool :=
  (400 <=? http_status err)%Z && (http_status err <? 500)%Z.

(** The property [ErrorList.http_status]; [None] is Python's [None]. *)
Definition ErrorList_http_status (errors : ErrorList) : option Z :=
  match errors with
  | [] => None
  | first :: _ =>
      if forallb (fun err => (http_status err =? http_status first)%Z) errors
      then Some (http_status first)
      else if existsb is_client_error errors then Some 400%Z
      else Some 500%Z
  end.

(** The property [ErrorList.json] *)
Definition ErrorList_json (errors : ErrorList) : list dict :=
  map json errors.

End Errors.

(** ** Exceptions and results *)

Inductive exn : Type :=
| ApiError (e : Errors.Error)
| TypeError
| KeyError
| AttributeError
| AssertionError
| ValueError.

Inductive result (A : Type) : Type :=
| Ok (a : A)
| Raise (e : exn).
Arguments Ok {A} a.
Arguments Raise {A} e.

Definition bind {A B} (r : result A) (f : A -> result B) : result B :=
  match r with
  | Ok a => f a
  | Raise e => Raise e
  end.

Notation "'let*' x := c 'in' k" := (bind c (fun x => k))
  (at level 10, x name, c at level 200, k at level 200, only parsing).
Notation "'let*' ' pat := c 'in' k" :=
  (bind c (fun x => match x with pat => k end))
  (at level 10, pat pattern, c at level 200, k at level 200, only parsing).

Definition raised {A} (r : result A) : bool :=
  match r with Ok _ => false | Raise _ => true end.

Module PyOps.
Import Py.

(** [v[k]] for a string key. *)
Definition getitem (v : pyval) (k : string) : result pyval :=
  match v with
  | PDict d => match dict_lookup d k with
               | Some x => Ok x
               | None => Raise KeyError
               end
  | _ => Raise TypeError
  end.

(** [v.get(k)] *)
Definition get (v : pyval) (k : string) : result pyval :=
  match v with
  | PDict d => Ok (default PNone (dict_lookup d k))
  | _ => Raise AttributeError
  end.

(** [v.keys()] of a value that has just passed through [x or {}]. *)
Definition as_dict (v : pyval) : result dict :=
  match v with
  | PDict d => Ok d
  | _ => Raise AttributeError
  end.

(** [x or {}] *)
Definition or_empty_dict (v : pyval) : pyval :=
  if truthy v then v else PDict [].

(** [int(v)] *)
Definition py_int (v : pyval) : result Z :=
  match v with
  | PInt z => Ok z
  | PBool b => Ok (if b then 1 else 0)
  | PStr s => match parse_int s with
              | Some z => Ok z
              | None => Raise ValueError
              end
  | _ => Raise TypeError
  end.

End PyOps.

(** [for x in l: f(x)], stopping at the first exception. *)
Fixpoint for_each {A} (f : A -> result unit) (l : list A) : result unit :=
  match l with
  | [] => Ok tt
  | x :: rest => let* _ := f x in for_each f rest
  end.

(** [if b: body] *)
Definition when (b : bool) (body : result unit) : result unit :=
  if b then body else Ok tt.

(** ** japi_format_validators.py *)

Module Validators.
Import Py Errors.

Definition raise_BadRequest {A} (detail source_pointer : string) : result A :=
  Raise (ApiError (BadRequest (with_source_pointer (PStr source_pointer)
                                 (with_detail detail no_kwargs)))).

(** The classes an [except BadRequest] clause catches. *)
Definition BadRequest_classes : list string :=
  ["BadRequest"; "ValidationError"; "InvalidValue"; "InvalidType";
   "MissingField"; "UnresolvableIncludePath"; "UnsortableField";
   "UnsupportedFilter"].

Definition is_str (v : pyval) : bool :=
  match v with PStr _ => true | _ => false end.

Definition assert_meta_object (d : pyval) (source_pointer : string)
  : result unit :=
  match d with
  | PDict _ => Ok tt
  | _ => raise_BadRequest "A meta object must be an object." source_pointer
  end.

Definition assert_link (d : pyval) (source_pointer : string) : result unit :=
  match d with
  | PStr _ => Ok tt
  | PDict m =>
      match m with
      | [] => raise_BadRequest "A link object cannot be an empty object."
                               source_pointer
      | _ =>
          if negb (keys_subset (dict_keys m) ["href"; "meta"]) then
            raise_BadRequest
              "A link object can only contain these members: 'href', 'meta'."
              source_pointer
          else
            let* _ := match dict_lookup m "href" with
                | Some h =>
                    if negb (is_str h) then
                      raise_BadRequest "The value of 'href' must be a string."
                                       (source_pointer +:+ "href/")
                    else Ok tt
                | None => Ok tt
                end in
            match dict_lookup m "meta" with
            | Some x => assert_meta_object x (source_pointer +:+ "meta/")
            | None => Ok tt
            end
      end
  | _ => raise_BadRequest "A link object must be a string or an object."
                          source_pointer
  end.

Definition assert_links_object (d : pyval) (source_pointer : string)
  : result unit :=
  match d with
  | PDict m =>
      for_each (fun '(key, value) =>
                  assert_link value (source_pointer +:+ key +:+ "/")) m
  | _ => raise_BadRequest "A links object must be an object." source_pointer
  end.

Definition assert_resource_identifier_object (d : pyval)
    (source_pointer : string) : result unit :=
  match d with
  | PDict m =>
      if negb (keys_subset (dict_keys m) ["id"; "type"; "meta"]) then
        raise_BadRequest
          "A resource identifier object can only contain these members: 'id', 'type', 'meta'."
          source_pointer
      else
        let* _ := match dict_lookup m "meta" with
            | Some x => assert_meta_object x (source_pointer +:+ "meta/")
            | None => Ok tt
            end in
        let* _ := match dict_lookup m "type" with
            | None => raise_BadRequest "The 'type' member is not present."
                                       source_pointer
            | Some t =>
                if negb (is_str t) then
                  raise_BadRequest "The value of 'type' must be a string."
                                   (source_pointer +:+ "type/")
                else Ok tt
            end in
        match dict_lookup m "id" with
        | None => raise_BadRequest "The 'id' member is not present."
                                   source_pointer
        | Some i =>
            if negb (is_str i) then
              raise_BadRequest "The value of 'id' must be a string."
                               (source_pointer +:+ "id/")
            else Ok tt
        end
  | _ => raise_BadRequest "A resource identifier object must be an object."
                          source_pointer
  end.

Definition assert_to_one_resource_linkage (d : pyval) (source_pointer : string)
  : result unit :=
  match d with
  | PNone => Ok tt
  | PDict _ => assert_resource_identifier_object d source_pointer
  | _ =>
      raise_BadRequest
        "A resource linkage for a to-one relationship must be 'None' or a resource identifier object."
        source_pointer
  end.

(** [for i, item in enumerate(d)], from index [i]. *)
Fixpoint assert_identifiers_from (i : nat) (items : list pyval)
    (source_pointer : string) : result unit :=
  match items with
  | [] => Ok tt
  | item :: rest =>
      let* _ := assert_resource_identifier_object
            item (source_pointer +:+ str_of_nat i +:+ "/") in
      assert_identifiers_from (S i) rest source_pointer
  end.

Definition assert_to_many_resource_linkage (d : pyval)
    (source_pointer : string) : result unit :=
  match d with
  | PList items => assert_identifiers_from 0 items source_pointer
  | _ =>
      raise_BadRequest
        "A resource linkage for a to-many relationship must be an empty list or an array of resource identifier objects."
        source_pointer
  end.

(** [try: body / except BadRequest as b: exception = b]: the new value of
    [exception], or the exception that is not caught. *)
Definition except_BadRequest (body : result unit) (exception : option Error)
  : result (option Error) :=
  match body with
  | Ok _ => Ok exception
  | Raise (ApiError b) =>
      if str_in (class_name b) BadRequest_classes then Ok (Some b)
      else Raise (ApiError b)
  | Raise e => Raise e
  end.

Definition assert_relationship_object (d : pyval) (source_pointer : string)
    (to_many to_one : bool) : result unit :=
  match d with
  | PDict m =>
      match m with
      | [] =>
          raise_BadRequest
            "A relationship object must contain at least one of these members: 'data', 'links', 'meta'."
            source_pointer
      | _ =>
          if negb (keys_subset (dict_keys m) ["links"; "data"; "meta"]) then
            raise_BadRequest
              "A relationship object may only contain the followingmembers: 'links', 'data' and 'meta'."
              source_pointer
          else
            let* _ := match dict_lookup m "links" with
                | Some x => assert_links_object x (source_pointer +:+ "links/")
                | None => Ok tt
                end in
            let* _ := match dict_lookup m "meta" with
                | Some x => assert_meta_object x (source_pointer +:+ "meta/")
                | None => Ok tt
                end in
            match dict_lookup m "data" with
            | Some data =>
                let* exception :=
                  (if to_one then
                     except_BadRequest
                       (assert_to_one_resource_linkage
                          data (source_pointer +:+ "data/")) None
                   else Ok None) in
                let* exception :=
                  (if to_many then
                     except_BadRequest
                       (assert_to_many_resource_linkage
                          data (source_pointer +:+ "data/")) exception
                   else Ok exception) in
                match exception with
                | Some b => Raise (ApiError b)
                | None => Ok tt
                end
            | None => raise_BadRequest "Missing data member" source_pointer
            end
      end
  | _ => raise_BadRequest "A relationship object must be an object"
                          source_pointer
  end.

Definition assert_to_one_relationship_object (d : pyval)
    (source_pointer : string) : result unit :=
  assert_relationship_object d source_pointer false true.

Definition assert_to_many_relationship_object (d : pyval)
    (source_pointer : string) : result unit :=
  let* _ := assert_relationship_object d source_pointer true false in
  let* data := PyOps.getitem d "data" in
  assert_to_many_resource_linkage data (source_pointer +:+ "data/").

Definition assert_attributes_object (d : pyval) (source_pointer : string)
  : result unit :=
  match d with
  | PDict _ => Ok tt
  | _ => raise_BadRequest "An attributes object must be an object."
                          source_pointer
  end.

Definition assert_relationships_object (d : pyval) (source_pointer : string)
  : result unit :=
  match d with
  | PDict m =>
      for_each (fun '(key, value) =>
                  assert_relationship_object
                    value (source_pointer +:+ key +:+ "/") false false) m
  | _ => raise_BadRequest "A relationships object must be an object."
                          source_pointer
  end.

Definition assert_resource_object (d : pyval) (id_required : bool)
    (source_pointer : string) : result unit :=
  match d with
  | PDict m =>
      if negb (keys_subset (dict_keys m)
                 ["id"; "type"; "attributes"; "relationships"; "links";
                  "meta"]) then
        raise_BadRequest
          "A resource object may only contain these members: 'id', 'type', 'attributes', 'relationships', 'links','meta'."
          source_pointer
      else
        let* _ := match dict_lookup m "type" with
            | None => raise_BadRequest "The 'type' member is not present."
                                       source_pointer
            | Some t =>
                if negb (is_str t) then
                  raise_BadRequest "The value of 'type' must be a string."
                                   (source_pointer +:+ "type/")
                else Ok tt
            end in
        let* _ := match dict_lookup m "id" with
            | None =>
                if id_required then
                  raise_BadRequest "The 'id' member is not present."
                                   source_pointer
                else Ok tt
            | Some i =>
                if negb (is_str i) then
                  raise_BadRequest "The value 'id' must be a string."
                                   (source_pointer +:+ "id/")
                else Ok tt
            end in
        let* _ := match dict_lookup m "attributes" with
            | Some x =>
                assert_attributes_object x (source_pointer +:+ "attributes/")
            | None => Ok tt
            end in
        let* _ := match dict_lookup m "relationships" with
            | Some x =>
                assert_relationships_object
                  x (source_pointer +:+ "relationships/")
            | None => Ok tt
            end in
        let* _ := match dict_lookup m "links" with
            | Some x => assert_links_object x (source_pointer +:+ "links/")
            | None => Ok tt
            end in
        match dict_lookup m "meta" with
        | Some x => assert_meta_object x (source_pointer +:+ "meta/")
        | None => Ok tt
        end
  | _ => raise_BadRequest "A resource object must be an object."
                          source_pointer
  end.

(** The validator returns, or raises a [BadRequest] whose source pointer
    extends [source_pointer]. *)
Definition refuses_under (source_pointer : string) (r : result unit) : Prop :=
  r = Ok tt
  \/ exists e,
       r = Raise (ApiError e)
       /\ http_status e = 400%Z
       /\ class_name e = "BadRequest"
       /\ String.prefix source_pointer (Errors.source_pointer e) = true.

(** [k in d] for a value that may not be an object. *)
Definition has_member (d : pyval) (k : string) : bool :=
  match d with
  | PDict m => dict_mem m k
  | _ => false
  end.

End Validators.

(** [for x in l: s = f(s, x)], stopping at the first exception. *)
Fixpoint foldM {A S} (f : S -> A -> result S) (l : list A) (s : S)
  : result S :=
  match l with
  | [] => Ok s
  | x :: rest => let* s' := f s x in foldM f rest s'
  end.

(** ** utilities.py: links *)

Module Links.
Import Py.

Definition link_for_collection (link_prefix component : string) : string :=
  link_prefix +:+ "/" +:+ component.

Definition link_for_resource (link_prefix component : string) (id : pyval)
  : string :=
  link_prefix +:+ "/" +:+ component +:+ "/" +:+ py_str id.

Definition link_for_related (link_prefix component : string) (id : pyval)
    (relationship_name : string) : string :=
  link_prefix +:+ "/" +:+ component +:+ "/" +:+ py_str id
  +:+ "/" +:+ relationship_name.

Definition link_for_relationship (link_prefix component : string) (id : pyval)
    (relationship_name : string) : string :=
  link_prefix +:+ "/" +:+ component +:+ "/" +:+ py_str id
  +:+ "/relationships/" +:+ relationship_name.

End Links.

(** ** resource.py: fields *)

Module Fields.
Import Py Errors PyOps Links.

(** Modelled from the spec: the module [context] ([Context], [ALWAYS_SET]) is
    not among the sources. The specification gives the enumeration
    [{CREATE, UPDATE}] and an implicit "always" set. *)
Inductive Context : Type := CREATE | UPDATE.

Definition Context_eqb (a b : Context) : bool :=
  match a, b with
  | CREATE, CREATE | UPDATE, UPDATE => true
  | _, _ => false
  end.

Definition ALWAYS_SET : list Context := [CREATE; UPDATE].

(** [c in s] *)
Definition ctx_in (c : Context) (s : list Context) : bool :=
  existsb (Context_eqb c) s.

(** The backing model instance. *)
Abbreviation Model := (gmap string pyval).

(** [getattr(model, name)] and [setattr(model, name, value)] *)
Definition model_getattr (m : Model) (name : string) : pyval :=
  default PNone (m !! name).
Definition model_setattr (m : Model) (name : string) (v : pyval) : Model :=
  <[name := v]> m.

(** A validator: a callable with a [contexts] attribute. The field it is
    called with is fixed when the validator is attached. *)
Record Validator := mkValidator {
  contexts : list Context;
  run : Model -> result unit
}.

(** [BaseField] once its accessors are bound. *)
Record BaseField := mkBaseField {
  writable_during : list Context;
  nullable : bool;
  has_default : bool;
  _fget : Model -> result pyval;
  _fset : Model -> pyval -> result Model;
  _fvalidators : list Validator
}.

(** The accessors the metaclass and [ToOneRelationship.__init__] derive from
    a mapped name, and the poisoned setter. *)
Definition default_fget (name : string) : Model -> result pyval :=
  fun model => Ok (model_getattr model name).
Definition default_fset (name : string) : Model -> pyval -> result Model :=
  fun model value => Ok (model_setattr model name value).
Definition poisoned_fset : Model -> pyval -> result Model :=
  fun _ _ => Raise AttributeError.

(** [if val.writable_during: ... else: ...] around the two setters *)
Definition derived_fset (writable : list Context) (name : string)
  : Model -> pyval -> result Model :=
  match writable with
  | [] => poisoned_fset
  | _ :: _ => default_fset name
  end.

(** [BaseField.validate] *)
Definition validate_field (f : BaseField) (model : Model) (context : Context)
  : result unit :=
  for_each (fun v => when (ctx_in context (contexts v)) (run v model))
           (_fvalidators f).

Record Attribute := mkAttribute {
  attr_base :> BaseField;
  mapped_attribute_name : option string
}.

(** [Attribute.deserialize]: the identity. *)
Definition Attribute_deserialize (prim_value : pyval) : pyval := prim_value.

Definition Attribute_serialize (a : Attribute) (model : Model) : result pyval :=
  _fget a model.

Definition Attribute_deserialize_into_obj (a : Attribute) (model : Model)
    (prim_value : pyval) : result Model :=
  _fset a model (Attribute_deserialize prim_value).

(** A relationship is a plain [Relationship] or a [ToOneRelationship], which
    adds [mapped_fk_name] ([None] when a getter was supplied). *)
Inductive RelKind : Type :=
| PlainRelationship
| ToOne (mapped_fk_name : option string).

(** [related_type] is [related_resource_class.japi_resource_type] and
    [bound_url_component] is
    [bound_resource_class.japi_resource_url_component]. *)
Record Relationship := mkRelationship {
  rel_base :> BaseField;
  rel_japi_name : string;
  related_type : string;
  bound_url_component : string;
  rel_kind : RelKind
}.

Definition is_ToOne (r : Relationship) : bool :=
  match rel_kind r with ToOne _ => true | PlainRelationship => false end.

Definition relationship_link (r : Relationship) (link_prefix : string)
    (id : pyval) : string :=
  link_for_relationship link_prefix (bound_url_component r) id
                        (rel_japi_name r).

Definition related_link (r : Relationship) (link_prefix : string) (id : pyval)
  : string :=
  link_for_related link_prefix (bound_url_component r) id (rel_japi_name r).

(** [ToOneRelationship.serialize] *)
Definition ToOne_serialize (r : Relationship) (model : Model)
    (resource_id : pyval) (link_prefix : string) : result pyval :=
  let* related_resource_id := _fget r model in
  let data :=
    if is_none related_resource_id then PNone
    else PDict [("type", PStr (related_type r));
                ("id", PStr (py_str related_resource_id))] in
  Ok (PDict [("links",
              PDict [("self", PStr (relationship_link r link_prefix resource_id));
                     ("related", PStr (related_link r link_prefix resource_id))]);
             ("data", data)]).

Definition raise_BadRequest {A} (detail : string) : result A :=
  Raise (ApiError (BadRequest (with_detail detail no_kwargs))).
Definition raise_Forbidden {A} (detail : string) : result A :=
  Raise (ApiError (Forbidden (with_detail detail no_kwargs))).
Definition raise_UnprocessableEntity {A} (detail : string) : result A :=
  Raise (ApiError (UnprocessableEntity (with_detail detail no_kwargs))).

(** [ToOneRelationship.deserialize] *)
Definition ToOne_deserialize (r : Relationship) (value : pyval)
  : result pyval :=
  let* data := getitem value "data" in
  if is_none data then Ok PNone
  else
    let* t := getitem data "type" in
    if negb (eq_str t (related_type r)) then
      raise_BadRequest "Relationship type doesn't match definition"
    else
      let* i := getitem data "id" in
      let* n := py_int i in
      Ok (PInt n).

Definition ToOne_deserialize_into_obj (r : Relationship) (model : Model)
    (value : pyval) : result Model :=
  let* v := ToOne_deserialize r value in
  _fset r model v.

Record Id := mkId {
  id_base :> BaseField;
  mapped_pk_name : option string
}.

(** [Id.serialize] *)
Definition Id_serialize (i : Id) (model : Model) : result string :=
  let* v := _fget i model in
  Ok (py_str v).

(** [Id.deserialize] *)
Definition Id_deserialize (value : pyval) : result Z :=
  match py_int value with
  | Raise ValueError =>
      raise_BadRequest ("Could not parse " +:+ py_str value +:+ " as integer.")
  | r => r
  end.

End Fields.

(** ** resource.py: the resource class and its codec *)

Module Resource.
Import Py Errors PyOps Links Fields.

(** What [getattr(resource_class, name)] can find. *)
Inductive ClassAttr : Type :=
| CA_Attribute (a : Attribute)
| CA_Relationship (r : Relationship)
| CA_Id (i : Id)
| CA_Other.

(** A class that [ResourceMeta] has built. [model_class] is the instance that
    the call of [cls.model_class] constructs, [namespace] is what
    attribute lookup on the class resolves, by Python name. *)
Record ResourceClass := mkResourceClass {
  japi_resource_type : string;
  japi_resource_url_component : string;
  model_class : Model;
  id : Id;
  _attrs_by_japi_name : list (string * Attribute);
  _rels_by_japi_name : list (string * Relationship);
  _instantiable : bool;
  namespace : list (string * ClassAttr)
}.

(** [getattr(resource_class, name).mapped_fk_name] *)
Definition getattr_mapped_fk_name (cls : ResourceClass) (name : string)
  : result (option string) :=
  match dict_lookup (namespace cls) name with
  | Some (CA_Relationship r) =>
      match rel_kind r with
      | ToOne fk => Ok fk
      | PlainRelationship => Raise AttributeError
      end
  | _ => Raise AttributeError
  end.

(** The patch dict: [{"attributes": ..., "relationships": ...}], the values
    in their most convenient type. *)
Record PatchDict := mkPatchDict {
  pd_attributes : dict;
  pd_relationships : dict
}.

(** The record an in-place update leaves behind, and the exception that
    stopped it, if any. *)
Inductive effect : Type :=
| Done (model : Model)
| Failed (model : Model) (e : exn).

Definition final_model (e : effect) : Model :=
  match e with Done m | Failed m _ => m end.

(** [for k, v in d.items(): model = f(model, k, v)], in place. *)
Fixpoint update_each (f : Model -> string -> pyval -> result Model)
    (items : dict) (model : Model) : effect :=
  match items with
  | [] => Done model
  | (k, v) :: rest =>
      match f model k v with
      | Ok model' => update_each f rest model'
      | Raise e => Failed model e
      end
  end.

(** [isinstance(value, ToOneRelationship)] for a value of a patch dict: such
    a value is a primitive, never a field. *)
Definition isinstance_ToOneRelationship (value : pyval) : bool := false.

Section Codec.

(** The order in which a [for] loop visits a [set] of strings. *)
Context (set_iter : list string -> list string).

(** [Resource.__init__] *)
Definition Resource_init (cls : ResourceClass) (model : Model) : result Model :=
  if _instantiable cls then Ok model else Raise AssertionError.

(** [Resource.serialize] *)
Definition serialize (cls : ResourceClass) (model : Model)
    (link_prefix : string) (fields : option (list string)) : result pyval :=
  let* id_str := Id_serialize (id cls) model in
  let* self_id := _fget (id cls) model in
  let ret :=
    [("id", PStr id_str);
     ("type", PStr (japi_resource_type cls));
     ("links",
      PDict [("self",
              PStr (link_for_resource link_prefix
                      (japi_resource_url_component cls) self_id))])] in
  let wanted (name : string) : bool :=
    match fields with
    | None => true
    | Some fs => str_in name fs
    end in
  let* attributes_dict :=
    foldM (fun (acc : dict) '(attribute_name, value) =>
             if wanted attribute_name then
               let* v := Attribute_serialize value model in
               Ok (dict_set acc attribute_name v)
             else Ok acc)
          (_attrs_by_japi_name cls) [] in
  let ret :=
    match attributes_dict with
    | [] => ret
    | _ => dict_set ret "attributes" (PDict attributes_dict)
    end in
  let* relationships_dict :=
    foldM (fun (acc : dict) '(relationship_name, value) =>
             if wanted relationship_name then
               let* v := (if is_ToOne value
                    then ToOne_serialize value model (PStr id_str) link_prefix
                    else Raise TypeError) in
               Ok (dict_set acc relationship_name v)
             else Ok acc)
          (_rels_by_japi_name cls) [] in
  let ret :=
    match relationships_dict with
    | [] => ret
    | _ => dict_set ret "relationships" (PDict relationships_dict)
    end in
  Ok (PDict ret).

(** [d[k]] on one of the dictionaries of the class or of the request. *)
Definition lookup_or_KeyError {A} (d : list (string * A)) (k : string)
  : result A :=
  match dict_lookup d k with
  | Some x => Ok x
  | None => Raise KeyError
  end.

(** The checks on a provided relationship that [deserialize] and
    [create_patch_dict] share, for the context [ctx]. *)
Definition check_relationship (ctx : Context) (forbidden_detail : string)
    (field : Relationship) (input_value : pyval) : result unit :=
  let* _ := (if is_ToOne field then Ok tt else Raise AssertionError) in
  if negb (ctx_in ctx (writable_during field)) then
    raise_Forbidden forbidden_detail
  else if is_none input_value then
    if negb (nullable field) then
      raise_UnprocessableEntity "Non-nullable relationship set to None"
    else Ok tt
  else
    let* resource_identifier_obj := getitem input_value "data" in
    let* t := getitem resource_identifier_obj "type" in
    if negb (eq_str t (related_type field)) then
      raise_BadRequest "Type field does not match schema"
    else Ok tt.

(** The four steps of [Resource.deserialize], in the order of the source:
    the checks on the attribute names, the loop that writes the attributes,
    and the same two for the relationships. *)

(** [extra] and [missing] for the attributes. *)
Definition check_attribute_keys (cls : ResourceClass)
    (input_attributes_dict : dict) : result unit :=
  let request_attributes := dict_keys input_attributes_dict in
  let resource_attributes := dict_keys (_attrs_by_japi_name cls) in
  let extra := keys_diff request_attributes resource_attributes in
  let missing := keys_diff resource_attributes request_attributes in
  match extra with
  | _ :: _ => raise_UnprocessableEntity "Extra attributes"
  | [] =>
      for_each
        (fun m =>
           let* field := lookup_or_KeyError (_attrs_by_japi_name cls) m in
           if negb (has_default field || nullable field) then
             raise_UnprocessableEntity "Missing attributes"
           else Ok tt)
        (set_iter missing)
  end.

(** The body of [for attribute_name in intersection]. *)
Definition write_attribute (cls : ResourceClass) (input_attributes_dict : dict)
    (model : Model) (attribute_name : string) : result Model :=
  let* input_value :=
    lookup_or_KeyError input_attributes_dict attribute_name in
  let* field := lookup_or_KeyError (_attrs_by_japi_name cls) attribute_name in
  if is_none input_value && negb (nullable field) then
    raise_UnprocessableEntity "Non-nullable attribute set to None"
  else if negb (ctx_in CREATE (writable_during field)) then
    raise_Forbidden "Cannot write to field"
  else Attribute_deserialize_into_obj field model input_value.

Definition write_attributes (cls : ResourceClass) (input_attributes_dict : dict)
    (model : Model) : result Model :=
  let request_attributes := dict_keys input_attributes_dict in
  let resource_attributes := dict_keys (_attrs_by_japi_name cls) in
  let intersection := keys_inter request_attributes resource_attributes in
  foldM (write_attribute cls input_attributes_dict) (set_iter intersection)
        model.

(** [extra] and [missing] for the relationships. *)
Definition check_relationship_keys (cls : ResourceClass)
    (relationships_dict : dict) : result unit :=
  let request_relationships := dict_keys relationships_dict in
  let resource_relationships := dict_keys (_rels_by_japi_name cls) in
  let extra := keys_diff request_relationships resource_relationships in
  let missing := keys_diff resource_relationships request_relationships in
  match extra with
  | _ :: _ => raise_UnprocessableEntity "Extra relationships"
  | [] =>
      for_each
        (fun m =>
           let* field := lookup_or_KeyError (_rels_by_japi_name cls) m in
           if negb (nullable field || has_default field) then
             raise_UnprocessableEntity "Missing relationship"
           else Ok tt)
        (set_iter missing)
  end.

(** The body of [for relationship_name in intersection]. *)
Definition write_relationship (cls : ResourceClass) (relationships_dict : dict)
    (model : Model) (relationship_name : string) : result Model :=
  let* input_value := lookup_or_KeyError relationships_dict relationship_name in
  let* field := lookup_or_KeyError (_rels_by_japi_name cls) relationship_name in
  let* _ := check_relationship CREATE "Cannot write to field"
                               field input_value in
  ToOne_deserialize_into_obj field model input_value.

Definition write_relationships (cls : ResourceClass) (relationships_dict : dict)
    (model : Model) : result Model :=
  let request_relationships := dict_keys relationships_dict in
  let resource_relationships := dict_keys (_rels_by_japi_name cls) in
  let intersection :=
    keys_inter request_relationships resource_relationships in
  foldM (write_relationship cls relationships_dict) (set_iter intersection)
        model.

(** [Resource.deserialize] *)
Definition deserialize (cls : ResourceClass) (input_dict : pyval)
  : result Model :=
  let* model := Resource_init cls (model_class cls) in
  let* t := getitem input_dict "type" in
  if negb (eq_str t (japi_resource_type cls)) then
    raise_BadRequest "Type field does not match handler's resource"
  else
    let* a := get input_dict "attributes" in
    let* input_attributes_dict := as_dict (or_empty_dict a) in
    let* _ := check_attribute_keys cls input_attributes_dict in
    let* model := write_attributes cls input_attributes_dict model in
    let* r := get input_dict "relationships" in
    let* relationships_dict := as_dict (or_empty_dict r) in
    let* _ := check_relationship_keys cls relationships_dict in
    write_relationships cls relationships_dict model.

(** [Resource.create_patch_dict] *)
Definition create_patch_dict (cls : ResourceClass) (resource_dict : pyval)
  : result PatchDict :=
  let* t := getitem resource_dict "type" in
  if negb (eq_str t (japi_resource_type cls)) then
    raise_BadRequest "Type field does not match handler's resource"
  else
    let* a := get resource_dict "attributes" in
    let* attributes_dict := as_dict (or_empty_dict a) in
    let request_attributes := dict_keys attributes_dict in
    let resource_attributes := dict_keys (_attrs_by_japi_name cls) in
    match keys_diff request_attributes resource_attributes with
    | _ :: _ => raise_UnprocessableEntity "Extra attributes"
    | [] =>
        let* ret_attrs :=
          foldM
            (fun (ret_attrs : dict) attribute_name =>
               let* field :=
                 lookup_or_KeyError (_attrs_by_japi_name cls) attribute_name in
               if negb (ctx_in UPDATE (writable_during field)) then
                 raise_Forbidden "Cannot update attribute"
               else
                 let* value := lookup_or_KeyError attributes_dict attribute_name in
                 Ok (dict_set ret_attrs attribute_name
                              (Attribute_deserialize value)))
            (set_iter (keys_inter request_attributes resource_attributes)) [] in
        let* r := get resource_dict "relationships" in
        let* relationships_dict := as_dict (or_empty_dict r) in
        let request_relationships := dict_keys relationships_dict in
        let resource_relationships := dict_keys (_rels_by_japi_name cls) in
        match keys_diff request_relationships resource_relationships with
        | _ :: _ => raise_UnprocessableEntity "Extra relationships"
        | [] =>
            let* ret_rels :=
              foldM
                (fun (ret_rels : dict) relationship_name =>
                   let* value :=
                     lookup_or_KeyError relationships_dict relationship_name in
                   let* field :=
                     lookup_or_KeyError (_rels_by_japi_name cls)
                                        relationship_name in
                   let* _ := check_relationship UPDATE "Cannot update relationship"
                         field value in
                   let* v := ToOne_deserialize field value in
                   Ok (dict_set ret_rels relationship_name v))
                (set_iter (keys_inter request_relationships
                                      resource_relationships)) [] in
            Ok {| pd_attributes := ret_attrs; pd_relationships := ret_rels |}
        end
    end.

End Codec.

(** [Resource.apply_patch_dict] *)
Definition apply_patch_dict (cls : ResourceClass) (model : Model)
    (patch_dict : PatchDict) : effect :=
  match
    update_each
      (fun model attribute_name value =>
         let* field := lookup_or_KeyError (_attrs_by_japi_name cls) attribute_name in
         _fset field model value)
      (pd_attributes patch_dict) model
  with
  | Failed m e => Failed m e
  | Done model =>
      update_each
        (fun model relationship_name value =>
           if negb (isinstance_ToOneRelationship value) then
             Raise AssertionError
           else
             let* field :=
               lookup_or_KeyError (_rels_by_japi_name cls) relationship_name in
             _fset field model value)
        (pd_relationships patch_dict) model
  end.

(** The attributes object of a document, as [deserialize] reads it: the
    member [attributes] when it is an object, and no attribute otherwise. *)
Definition document_attributes (input_dict : pyval) : dict :=
  match input_dict with
  | PDict d =>
      match dict_lookup d "attributes" with
      | Some (PDict a) => a
      | _ => []
      end
  | _ => []
  end.

Definition document_relationships (input_dict : pyval) : dict :=
  match input_dict with
  | PDict d =>
      match dict_lookup d "relationships" with
      | Some (PDict r) => r
      | _ => []
      end
  | _ => []
  end.





(** The value that [create_patch_dict] puts in the patch for an attribute
    and for a relationship of the document: the body of each of its two
    loops, up to the assignment. *)
Definition patch_attribute (cls : ResourceClass) (attributes_dict : dict)
    (attribute_name : string) : result pyval :=
  let* field := lookup_or_KeyError (_attrs_by_japi_name cls) attribute_name in
  if negb (ctx_in UPDATE (writable_during field)) then
    raise_Forbidden "Cannot update attribute"
  else
    let* value := lookup_or_KeyError attributes_dict attribute_name in
    Ok (Attribute_deserialize value).

Definition patch_relationship (cls : ResourceClass) (relationships_dict : dict)
    (relationship_name : string) : result pyval :=
  let* value := lookup_or_KeyError relationships_dict relationship_name in
  let* field := lookup_or_KeyError (_rels_by_japi_name cls) relationship_name in
  let* _ := check_relationship UPDATE "Cannot update relationship"
                               field value in
  ToOne_deserialize field value.

(** [fields is None or name in fields] *)
Definition requested (fields : option (list string)) (name : string) : bool :=
  match fields with
  | None => true
  | Some fs => str_in name fs
  end.

(** Deserialize, serialize, deserialize again. *)
Definition round_trip (set_iter : list string -> list string)
    (cls : ResourceClass) (input_dict : pyval) (link_prefix : string)
  : result Model :=
  let* model := deserialize set_iter cls input_dict in
  let* document := serialize cls model link_prefix None in
  deserialize set_iter cls document.

(** The column behind a field with derived accessors. *)
Definition attribute_column (a : Attribute) : string :=
  default "" (mapped_attribute_name a).

Definition relationship_column (r : Relationship) : string :=
  match rel_kind r with
  | ToOne (Some fk) => fk
  | _ => ""
  end.

(** The column behind the attribute or the relationship of a given name. *)
Definition attribute_column_of (cls : ResourceClass) (name : string)
  : string :=
  match dict_lookup (_attrs_by_japi_name cls) name with
  | Some a => attribute_column a
  | None => ""
  end.

Definition relationship_column_of (cls : ResourceClass) (name : string)
  : string :=
  match dict_lookup (_rels_by_japi_name cls) name with
  | Some r => relationship_column r
  | None => ""
  end.

(** A schema whose fields all have the accessors that the metaclass and
    [ToOneRelationship.__init__] derive from a mapped name, each field on a
    column of its own. *)
Record mapped_schema (cls : ResourceClass) : Prop := {
  attribute_names_distinct : NoDup (map fst (_attrs_by_japi_name cls));
  relationship_names_distinct : NoDup (map fst (_rels_by_japi_name cls));
  attributes_mapped :
    forall (n : string) (a : Attribute), (n, a) ∈ _attrs_by_japi_name cls ->
      _fget a = default_fget (attribute_column a)
      /\ _fset a = derived_fset (writable_during a) (attribute_column a);
  relationships_mapped :
    forall (n : string) (r : Relationship),
      (n, r) ∈ _rels_by_japi_name cls ->
      is_ToOne r = true
      /\ _fget r = default_fget (relationship_column r)
      /\ _fset r = derived_fset (writable_during r) (relationship_column r);
  columns_distinct :
    NoDup (map (fun kv => attribute_column (snd kv)) (_attrs_by_japi_name cls)
           ++ map (fun kv => relationship_column (snd kv))
                  (_rels_by_japi_name cls));
  id_mapped : exists pk, _fget (id cls) = default_fget pk
}.

(** What a document gives for the attribute or the relationship of a given
    name, as the field deserializes it. *)
Definition attribute_value (attributes : dict) (name : string) : pyval :=
  default PNone (dict_lookup attributes name).

Definition relationship_value (cls : ResourceClass) (relationships : dict)
    (name : string) : pyval :=
  match dict_lookup relationships name,
        dict_lookup (_rels_by_japi_name cls) name with
  | Some v, Some r =>
      match ToOne_deserialize r v with
      | Ok x => x
      | Raise _ => PNone
      end
  | _, _ => PNone
  end.

(** What [ToOneRelationship.serialize] returns for a relationship whose
    foreign key is set. *)
Definition linkage_of (r : Relationship) (model : Model) (resource_id : pyval)
    (link_prefix : string) : pyval :=
  PDict [("links",
          PDict [("self", PStr (relationship_link r link_prefix resource_id));
                 ("related", PStr (related_link r link_prefix resource_id))]);
         ("data",
          PDict [("type", PStr (related_type r));
                 ("id", PStr (py_str (model_getattr model
                                        (relationship_column r))))])].

(** [Resource.validate] *)
Definition validate (cls : ResourceClass) (model : Model) (context : Context)
  : result unit :=
  for_each (fun f : BaseField => validate_field f model context)
           (map (fun kv => attr_base (snd kv)) (_attrs_by_japi_name cls)
            ++ map (fun kv => rel_base (snd kv)) (_rels_by_japi_name cls)).

End Resource.

(** ** utilities.py: query parameters *)

Module Utilities.
Import Py Errors PyOps Fields Resource.



(** The foreign key of a relationship, as [mapped_fk_name] holds it. *)
Definition fk_of (r : Relationship) : option string :=
  match rel_kind r with
  | ToOne fk => fk
  | PlainRelationship => None
  end.










(** [check_number]: the clause [except Exception] catches whatever [int]
    raises. *)
Definition check_number (number : pyval) (name : string) : result pyval :=
  if truthy number then
    match py_int number with
    | Raise _ =>
        Raise (ApiError (BadRequest
          (with_source_parameter name
             (with_detail ("The '" +:+ name +:+ "' must be an integer.")
                          no_kwargs))))
    | Ok n =>
        if (n <? 1)%Z then
          Raise (ApiError (BadRequest
            (with_source_parameter name
               (with_detail ("The '" +:+ name +:+ "' must be >= 1.")
                            no_kwargs))))
        else Ok (PInt n)
    end
  else Ok number.

(** *** [get_order_by_fields] *)

(** What a call returns or raises; [IndexError] is what [value[0]] raises
    on an empty string. *)
Inductive outcome (A : Type) : Type :=
| Returns (a : A)
| Raises (e : exn)
| RaisesIndexError.
Arguments Returns {A} a.
Arguments Raises {A} e.
Arguments RaisesIndexError {A}.

(** The body of [for index, value in enumerate(order_by)]: the entry that
    the list holds at [index] afterwards. An entry is a string, or [None]
    when a relationship has no [mapped_fk_name]. *)
Definition order_entry (cls : ResourceClass) (value : string)
  : outcome (option string) :=
  if negb (dict_mem (_rels_by_japi_name cls) value) then
    match value with
    | EmptyString => RaisesIndexError
    | String c field_name =>
        if Ascii.eqb c "-" then
          if dict_mem (_rels_by_japi_name cls) field_name then
            match getattr_mapped_fk_name cls field_name with
            | Ok (Some fk) =>
                Returns (Some (str_replace value field_name fk))
            | Ok None => Raises TypeError
            | Raise e => Raises e
            end
          else Returns (Some value)
        else Returns (Some value)
    end
  else
    match getattr_mapped_fk_name cls value with
    | Ok fk => Returns fk
    | Raise e => Raises e
    end.

Fixpoint order_entries (cls : ResourceClass) (values : list string)
  : outcome (list (option string)) :=
  match values with
  | [] => Returns []
  | value :: rest =>
      match order_entry cls value with
      | Returns entry =>
          match order_entries cls rest with
          | Returns entries => Returns (entry :: entries)
          | r => r
          end
      | Raises e => Raises e
      | RaisesIndexError => RaisesIndexError
      end
  end.

(** [args] is the multi-dict of the request: [args.get('sort')] is the
    first value of the key. *)
Definition sort_entries (args : list (string * string)) : list string :=
  match dict_lookup args "sort" with
  | Some sort_value =>
      if nonempty sort_value then Splitter.split_str_on_comma sort_value
      else []
  | None => []
  end.

Definition get_order_by_fields (args : list (string * string))
    (cls : ResourceClass) : outcome (list (option string)) :=
  order_entries cls (sort_entries args).

(** *** [get_filter] *)










End Utilities.

(** ** pagination.py and request.py *)

Module Pagination.
Import Py Errors PyOps Utilities.

(** The part of a [Request] that pagination reads. [query_args] is a
    multi-dict: a list of pairs in which a key can come several times. *)
Record Request := mkRequest {
  query_args : list (string * string);
  link_prefix : string
}.

(** [args.get(key)]: the first value of the key, or [None]. *)
Definition multidict_get (args : list (string * string)) (key : string)
  : pyval :=
  of_opt_str (dict_lookup args key).

(** [args.to_dict()]: the first value of every key. *)
Definition to_dict (args : list (string * string)) : list (string * string) :=
  fold_left (fun acc '(k, v) => if dict_mem acc k then acc else acc ++ [(k, v)])
            args [].

Definition DEFAULT_LIMIT : Z := 25.

Record NumberSize := mkNumberSize {
  _link_prefix : string;
  _japi_resource_url_component : string;
  _query : list (string * string);
  number : Z;
  size : Z;
  total_resources : Z
}.

(** [assert v > 0] for a value that is [None], a string or a number: the
    number, once the assertion holds. *)
Definition assert_positive (v : pyval) : result Z :=
  match v with
  | PInt n => if (n >? 0)%Z then Ok n else Raise AssertionError
  | PBool b => if b then Ok 1%Z else Raise AssertionError
  | _ => Raise TypeError
  end.

(** [NumberSize.__init__] *)
Definition NumberSize_init (link_prefix component : string)
    (args : list (string * string)) (number size : pyval)
    (total_resources : Z) : result NumberSize :=
  let* n := assert_positive number in
  let* s := assert_positive size in
  if (total_resources >=? 0)%Z then
    Ok {| _link_prefix := link_prefix;
          _japi_resource_url_component := component;
          _query := to_dict args;
          number := n; size := s; total_resources := total_resources |}
  else Raise AssertionError.

(** [v == 0] *)
Definition eq_zero (v : pyval) : bool :=
  match v with
  | PInt n => (n =? 0)%Z
  | PBool b => negb b
  | _ => false
  end.

(** [NumberSize.from_request] *)
Definition from_request (request : Request) (component : string)
    (total_resources : Z) (default_size : Z) : result NumberSize :=
  let number := multidict_get (query_args request) "page[number]" in
  let* number := check_number number "page[number]" in
  let size := multidict_get (query_args request) "page[size]" in
  let* size := check_number size "page[size]" in
  let size := if eq_zero size then PInt default_size else size in
  NumberSize_init (link_prefix request) component (query_args request)
                  number size total_resources.

(** The properties [limit] and [offset]. *)
Definition limit (p : NumberSize) : Z := size p.
Definition offset (p : NumberSize) : Z := (number p - 1) * size p.

(** What the claim calls a bad parameter: a non-empty string that is not an
    integer, or is an integer below 1. *)
Definition bad_number (s : string) : bool :=
  nonempty s
  && match parse_int s with
     | None => true
     | Some n => (n <? 1)%Z
     end.

End Pagination.

(** ** resource.py: [ResourceMeta], with objects held by reference

    Field descriptors are objects with an identity: a class reaches them
    through its two dictionaries, and [copy.deepcopy] makes new ones. The heap
    maps an identity to the object's state. Functions, classes, strings,
    numbers and enumeration members are copied by reference by [deepcopy]
    and are values here. *)

Module Meta.
Import Py.

Abbreviation loc := positive.

Inductive FieldClass : Type :=
| AttributeClass
| RelationshipClass
| ToOneRelationshipClass
| IdClass.

(** The instance dictionary of a field. [mapped_name] is
    [mapped_attribute_name], [mapped_fk_name] or [mapped_pk_name], by the
    class of the field; [_fvalidators] refers to a list object; the two
    resource classes are given by name. *)
Record FieldObj := mkFieldObj {
  field_class : FieldClass;
  writable_during : list Fields.Context;
  nullable : bool;
  has_default : bool;
  _fget : option (Fields.Model -> result pyval);
  _fset : option (Fields.Model -> pyval -> result Fields.Model);
  _fvalidators : loc;
  japi_name : option string;
  python_name : option string;
  mapped_name : option string;
  related_resource_class : option string;
  bound_resource_class : option string
}.

Inductive Obj : Type :=
| OField (f : FieldObj)
| OList (items : list Fields.Validator).

Abbreviation heap := (gmap loc Obj).

Definition set_fvalidators (f : FieldObj) (lv : loc) : FieldObj :=
  {| field_class := field_class f; writable_during := writable_during f;
     nullable := nullable f; has_default := has_default f;
     _fget := _fget f; _fset := _fset f; _fvalidators := lv;
     japi_name := japi_name f; python_name := python_name f;
     mapped_name := mapped_name f;
     related_resource_class := related_resource_class f;
     bound_resource_class := bound_resource_class f |}.

Definition set_python_name (f : FieldObj) (n : string) : FieldObj :=
  {| field_class := field_class f; writable_during := writable_during f;
     nullable := nullable f; has_default := has_default f;
     _fget := _fget f; _fset := _fset f; _fvalidators := _fvalidators f;
     japi_name := japi_name f; python_name := Some n;
     mapped_name := mapped_name f;
     related_resource_class := related_resource_class f;
     bound_resource_class := bound_resource_class f |}.

Definition set_japi_name (f : FieldObj) (n : string) : FieldObj :=
  {| field_class := field_class f; writable_during := writable_during f;
     nullable := nullable f; has_default := has_default f;
     _fget := _fget f; _fset := _fset f; _fvalidators := _fvalidators f;
     japi_name := Some n; python_name := python_name f;
     mapped_name := mapped_name f;
     related_resource_class := related_resource_class f;
     bound_resource_class := bound_resource_class f |}.

Definition set_bound_resource_class (f : FieldObj) (c : string) : FieldObj :=
  {| field_class := field_class f; writable_during := writable_during f;
     nullable := nullable f; has_default := has_default f;
     _fget := _fget f; _fset := _fset f; _fvalidators := _fvalidators f;
     japi_name := japi_name f; python_name := python_name f;
     mapped_name := mapped_name f;
     related_resource_class := related_resource_class f;
     bound_resource_class := Some c |}.

(** The default accessors for the mapped name [n]. *)
Definition set_accessors (f : FieldObj) (n : string) : FieldObj :=
  {| field_class := field_class f; writable_during := writable_during f;
     nullable := nullable f; has_default := has_default f;
     _fget := Some (Fields.default_fget n);
     _fset := Some (Fields.derived_fset (writable_during f) n);
     _fvalidators := _fvalidators f;
     japi_name := japi_name f; python_name := python_name f;
     mapped_name := Some n;
     related_resource_class := related_resource_class f;
     bound_resource_class := bound_resource_class f |}.

(** [not name] for a name that is [None] or a string. *)
Definition falsy (o : option string) : bool :=
  match o with
  | Some s => String.eqb s ""
  | None => true
  end.

(** *** The constructors of the fields

    The keyword arguments of [BaseField.__init__]. [kw_fvalidators] is the
    list object that the field keeps: the one list that the signature holds
    as the default of [fvalidators] when the caller passes none. *)
Record field_kwargs := mkFieldKwargs {
  kw_writable_during : list Fields.Context;
  kw_nullable : bool;
  kw_has_default : bool;
  kw_fget : option (Fields.Model -> result pyval);
  kw_fset : option (Fields.Model -> pyval -> result Fields.Model);
  kw_fvalidators : loc
}.

(** No keyword argument given; [default_list] is the default of
    [fvalidators]. *)
Definition no_field_kwargs (default_list : loc) : field_kwargs :=
  {| kw_writable_during := Fields.ALWAYS_SET; kw_nullable := false;
     kw_has_default := false; kw_fget := None; kw_fset := None;
     kw_fvalidators := default_list |}.

(** [BaseField.__init__] for an instance of the class [c]. The attributes
    that the subclasses and the metaclass set later are [None]. [None]: the
    assertion fails. *)
Definition BaseField_init (c : FieldClass) (kw : field_kwargs)
  : option FieldObj :=
  let new (fset : option (Fields.Model -> pyval -> result Fields.Model)) :=
    {| field_class := c; writable_during := kw_writable_during kw;
       nullable := kw_nullable kw; has_default := kw_has_default kw;
       _fget := kw_fget kw; _fset := fset;
       _fvalidators := kw_fvalidators kw;
       japi_name := None; python_name := None; mapped_name := None;
       related_resource_class := None; bound_resource_class := None |} in
  match kw_fget kw, kw_fset kw with
  | Some _, None =>
      match kw_writable_during kw with
      | [] => Some (new (Some Fields.poisoned_fset))
      | _ :: _ => None
      end
  | _, fset => Some (new fset)
  end.

Definition set_mapped_name (f : FieldObj) (n : option string) : FieldObj :=
  {| field_class := field_class f; writable_during := writable_during f;
     nullable := nullable f; has_default := has_default f;
     _fget := _fget f; _fset := _fset f; _fvalidators := _fvalidators f;
     japi_name := japi_name f; python_name := python_name f;
     mapped_name := n;
     related_resource_class := related_resource_class f;
     bound_resource_class := bound_resource_class f |}.

Definition set_initial_japi_name (f : FieldObj) (n : option string)
  : FieldObj :=
  {| field_class := field_class f; writable_during := writable_during f;
     nullable := nullable f; has_default := has_default f;
     _fget := _fget f; _fset := _fset f; _fvalidators := _fvalidators f;
     japi_name := n; python_name := python_name f;
     mapped_name := mapped_name f;
     related_resource_class := related_resource_class f;
     bound_resource_class := bound_resource_class f |}.

Definition set_related_resource_class (f : FieldObj) (c : string)
  : FieldObj :=
  {| field_class := field_class f; writable_during := writable_during f;
     nullable := nullable f; has_default := has_default f;
     _fget := _fget f; _fset := _fset f; _fvalidators := _fvalidators f;
     japi_name := japi_name f; python_name := python_name f;
     mapped_name := mapped_name f;
     related_resource_class := Some c;
     bound_resource_class := bound_resource_class f |}.

Definition set_nullable (f : FieldObj) (b : bool) : FieldObj :=
  {| field_class := field_class f; writable_during := writable_during f;
     nullable := b; has_default := has_default f;
     _fget := _fget f; _fset := _fset f; _fvalidators := _fvalidators f;
     japi_name := japi_name f; python_name := python_name f;
     mapped_name := mapped_name f;
     related_resource_class := related_resource_class f;
     bound_resource_class := bound_resource_class f |}.

(** [Attribute.__init__] *)
Definition Attribute_init (mapped_attribute_name japi_name : option string)
    (kw : field_kwargs) : option FieldObj :=
  match BaseField_init AttributeClass kw with
  | Some f =>
      Some (set_initial_japi_name (set_mapped_name f mapped_attribute_name)
                                  japi_name)
  | None => None
  end.

(** [Relationship.__init__] for an instance of the class [c] *)
Definition Relationship_init (c : FieldClass) (related : string)
    (japi_name : option string) (kw : field_kwargs) : option FieldObj :=
  match BaseField_init c kw with
  | Some f =>
      Some (set_initial_japi_name (set_related_resource_class f related)
                                  japi_name)
  | None => None
  end.

(** [getattr(model, None)] and [setattr(model, None, value)] *)
Definition set_unnamed_accessors (f : FieldObj) : FieldObj :=
  {| field_class := field_class f; writable_during := writable_during f;
     nullable := nullable f; has_default := has_default f;
     _fget := Some (fun _ => Raise TypeError);
     _fset := Some (match writable_during f with
                    | [] => Fields.poisoned_fset
                    | _ :: _ => fun _ _ => Raise TypeError
                    end);
     _fvalidators := _fvalidators f;
     japi_name := japi_name f; python_name := python_name f;
     mapped_name := None;
     related_resource_class := related_resource_class f;
     bound_resource_class := bound_resource_class f |}.

(** [ToOneRelationship.__init__]. It does not pass [japi_name] on, so the
    name is [None] until the metaclass sets it. Without a getter, the
    accessors are derived from [mapped_fk_name] here, not in the
    metaclass. *)
Definition ToOneRelationship_init (mapped_fk_name : option string)
    (related : string) (japi_name : option string) (kw : field_kwargs)
  : option FieldObj :=
  match Relationship_init ToOneRelationshipClass related None kw with
  | Some f =>
      let f := set_mapped_name f mapped_fk_name in
      match _fget f with
      | Some _ => if falsy mapped_fk_name then Some f else None
      | None =>
          match _fset f with
          | Some _ => None
          | None =>
              match mapped_fk_name with
              | Some n => Some (set_accessors f n)
              | None => Some (set_unnamed_accessors f)
              end
          end
      end
  | None => None
  end.

(** [Id.__init__]; [has_default] is [True] unless the caller says
    otherwise, so [kw_has_default] is not read. *)
Definition Id_init (mapped_pk_name : option string) (has_default : bool)
    (kw : field_kwargs) : option FieldObj :=
  match BaseField_init IdClass
          {| kw_writable_during := kw_writable_during kw;
             kw_nullable := kw_nullable kw; kw_has_default := has_default;
             kw_fget := kw_fget kw; kw_fset := kw_fset kw;
             kw_fvalidators := kw_fvalidators kw |} with
  | Some f => Some (set_mapped_name f mapped_pk_name)
  | None => None
  end.

(** *** [copy.deepcopy]

    The memo maps an object already copied to its copy. A field is rebuilt
    as a new object, entered in the memo, and then given the copy of its
    state; its validator list is copied to a new list with the same
    (function) elements. [None] is an ill-formed heap. *)

Definition deepcopy_list (h : heap) (memo : gmap loc loc) (lv : loc)
  : option (heap * gmap loc loc * loc) :=
  match memo !! lv with
  | Some lv' => Some (h, memo, lv')
  | None =>
      match h !! lv with
      | Some (OList items) =>
          let lv' := fresh (dom h) in
          Some (<[lv' := OList items]> h, <[lv := lv']> memo, lv')
      | _ => None
      end
  end.

Definition deepcopy_field (h : heap) (memo : gmap loc loc) (l : loc)
  : option (heap * gmap loc loc * loc) :=
  match memo !! l with
  | Some l' => Some (h, memo, l')
  | None =>
      match h !! l with
      | Some (OField f) =>
          let l' := fresh (dom h) in
          match deepcopy_list (<[l' := OField f]> h) (<[l := l']> memo)
                              (_fvalidators f) with
          | Some (h2, memo2, lv') =>
              Some (<[l' := OField (set_fvalidators f lv')]> h2, memo2, l')
          | None => None
          end
      | _ => None
      end
  end.

(** [copy.deepcopy(d)] for a dictionary from names to fields: a new
    dictionary, the values copied in order under one memo. *)
Fixpoint deepcopy_items (h : heap) (memo : gmap loc loc)
    (items : list (string * loc)) : option (heap * list (string * loc)) :=
  match items with
  | [] => Some (h, [])
  | (k, l) :: rest =>
      match deepcopy_field h memo l with
      | Some (h1, memo1, l') =>
          match deepcopy_items h1 memo1 rest with
          | Some (h2, rest') => Some (h2, (k, l') :: rest')
          | None => None
          end
      | None => None
      end
  end.

Definition deepcopy_dict (h : heap) (d : list (string * loc))
  : option (heap * list (string * loc)) :=
  deepcopy_items h ∅ d.

(** *** Classes *)

(** A value of the class body: a field, a class, a string, or something
    else. *)
Inductive Member : Type :=
| MField (l : loc)
| MType
| MStr (s : string)
| MOther.

(** A class that the metaclass has built: its bases, by name, and its own
    namespace, the class body, as [type] keeps them, and what
    [ResourceMeta.__init__] sets on it. Each class gets two dictionaries of
    its own, so they are held by value. *)
Record ClassObj := mkClassObj {
  __bases__ : list string;
  __dict__ : list (string * Member);
  _attrs_by_japi_name : list (string * loc);
  _rels_by_japi_name : list (string * loc);
  _instantiable : bool
}.

(** The loop [for base in reversed(bases)] for one of the two dictionaries;
    a base that is not in the table of resource classes is not a subclass of
    [Resource]. *)
Definition inherited (classes : list (string * ClassObj))
    (bases : list string) (proj : ClassObj -> list (string * loc))
  : list (string * loc) :=
  fold_left (fun acc base =>
               match dict_lookup classes base with
               | Some c => dict_update acc (proj c)
               | None => acc
               end)
            (rev bases) [].

(** The state of the loop over the class body. *)
Record binding_state := mkBindingState {
  bs_heap : heap;
  bs_attrs : list (string * loc);
  bs_rels : list (string * loc)
}.

(** The accessor part of the loop body for an attribute or an id, whose
    mapped name defaults to [fallback]. [None]: an assertion fails. *)
Definition bind_accessors (f : FieldObj) (fallback : string)
  : option FieldObj :=
  match _fget f with
  | Some _ => if falsy (mapped_name f) then Some f else None
  | None =>
      match _fset f with
      | Some _ => None
      | None =>
          let n := if falsy (mapped_name f) then fallback
                   else default "" (mapped_name f) in
          Some (set_accessors f n)
      end
  end.

(** One iteration of [for python_name, val in attrs.items()]. [None]: an
    assertion fails, or the heap is ill-formed. *)
Definition bind_member (cls : string) (st : binding_state)
    (item : string * Member) : option binding_state :=
  let '(python_name, val) := item in
  match val with
  | MField l =>
      match bs_heap st !! l with
      | Some (OField f) =>
          let f := set_python_name f python_name in
          match field_class f with
          | AttributeClass =>
              let f := if falsy (japi_name f)
                       then set_japi_name f python_name else f in
              match bind_accessors f python_name with
              | Some f' =>
                  Some {| bs_heap := <[l := OField f']> (bs_heap st);
                          bs_attrs := dict_set (bs_attrs st)
                                               (default "" (japi_name f)) l;
                          bs_rels := bs_rels st |}
              | None => None
              end
          | IdClass =>
              match bind_accessors f "id" with
              | Some f' =>
                  Some {| bs_heap := <[l := OField f']> (bs_heap st);
                          bs_attrs := bs_attrs st;
                          bs_rels := bs_rels st |}
              | None => None
              end
          | RelationshipClass | ToOneRelationshipClass =>
              let f := if falsy (japi_name f)
                       then set_japi_name f python_name else f in
              let f := set_bound_resource_class f cls in
              Some {| bs_heap := <[l := OField f]> (bs_heap st);
                      bs_attrs := bs_attrs st;
                      bs_rels := dict_set (bs_rels st)
                                          (default "" (japi_name f)) l |}
          end
      | _ => None
      end
  | _ => Some st
  end.

Fixpoint bind_members (cls : string) (st : binding_state)
    (items : list (string * Member)) : option binding_state :=
  match items with
  | [] => Some st
  | item :: rest =>
      match bind_member cls st item with
      | Some st' => bind_members cls st' rest
      | None => None
      end
  end.

(** [isinstance(attrs.get(...), ...)] for the four required members. *)
Definition is_Id (h : heap) (m : option Member) : bool :=
  match m with
  | Some (MField l) =>
      match h !! l with
      | Some (OField f) =>
          match field_class f with IdClass => true | _ => false end
      | _ => false
      end
  | _ => false
  end.
Definition is_type (m : option Member) : bool :=
  match m with Some MType => true | _ => false end.
Definition is_str (m : option Member) : bool :=
  match m with Some (MStr _) => true | _ => false end.

(** [ResourceMeta.__init__] for the class named [cls]: the new heap and what
    is set on the class. *)
Definition ResourceMeta_init (h : heap) (classes : list (string * ClassObj))
    (cls : string) (bases : list string) (attrs : list (string * Member))
  : option (heap * ClassObj) :=
  let attrs_by_japi_name := inherited classes bases _attrs_by_japi_name in
  let rels_by_japi_name := inherited classes bases _rels_by_japi_name in
  match deepcopy_dict h attrs_by_japi_name with
  | Some (h1, attrs_by_japi_name) =>
      match deepcopy_dict h1 rels_by_japi_name with
      | Some (h2, rels_by_japi_name) =>
          match bind_members cls
                  {| bs_heap := h2; bs_attrs := attrs_by_japi_name;
                     bs_rels := rels_by_japi_name |} attrs with
          | Some st =>
              Some (bs_heap st,
                    {| __bases__ := bases;
                       __dict__ := attrs;
                       _attrs_by_japi_name := bs_attrs st;
                       _rels_by_japi_name := bs_rels st;
                       _instantiable :=
                         is_Id (bs_heap st) (dict_lookup attrs "id")
                         && is_type (dict_lookup attrs "model_class")
                         && is_str (dict_lookup attrs "japi_resource_type")
                         && is_str (dict_lookup attrs
                                      "japi_resource_url_component") |})
          | None => None
          end
      | None => None
      end
  | None => None
  end.

(** *** Attribute lookup on a class

    [getattr(cls, name)] searches the namespaces of the classes of
    [cls.__mro__] in order, and [BaseField.__get__] returns the field
    itself when it is reached through a class. [__mro__] is the C3
    linearization of the bases, as [type] computes it. *)

Definition in_tail (c : string) (seq : list string) : bool :=
  match seq with
  | [] => false
  | _ :: rest => str_in c rest
  end.

(** The first head that is in the tail of no sequence. *)
Definition c3_candidate (seqs : list (list string)) : option string :=
  List.find (fun c => negb (existsb (in_tail c) seqs))
            (flat_map (fun seq => match seq with
                                  | [] => []
                                  | c :: _ => [c]
                                  end) seqs).

Definition drop_head (c : string) (seq : list string) : list string :=
  match seq with
  | x :: rest => if String.eqb x c then rest else seq
  | [] => []
  end.

Definition is_nil {A} (l : list A) : bool :=
  match l with [] => true | _ :: _ => false end.

(** The merge of C3; every step takes one class, so [fuel] bounds the
    number of classes. [None]: no consistent order ([TypeError] in
    Python). *)
Fixpoint c3_merge (fuel : nat) (seqs : list (list string))
  : option (list string) :=
  match List.filter (fun seq => negb (is_nil seq)) seqs with
  | [] => Some []
  | seqs' =>
      match fuel with
      | O => None
      | S k =>
          match c3_candidate seqs' with
          | Some c =>
              match c3_merge k (map (drop_head c) seqs') with
              | Some rest => Some (c :: rest)
              | None => None
              end
          | None => None
          end
      end
  end.

Fixpoint all_Some {A} (l : list (option A)) : option (list A) :=
  match l with
  | [] => Some []
  | Some x :: rest =>
      match all_Some rest with
      | Some xs => Some (x :: xs)
      | None => None
      end
  | None :: _ => None
  end.

(** [cls.__mro__] for a class of the table, without [Resource] and
    [object], which hold no field and are not in the table. [fuel] bounds
    the depth of the hierarchy. [None]: a base is not in the table, or
    there is no consistent order. *)
Fixpoint mro (fuel : nat) (classes : list (string * ClassObj)) (cls : string)
  : option (list string) :=
  match fuel with
  | O => None
  | S k =>
      match dict_lookup classes cls with
      | Some c =>
          match all_Some (map (mro k classes) (__bases__ c)) with
          | Some seqs =>
              match c3_merge (length (concat seqs) + length (__bases__ c))
                             (seqs ++ [__bases__ c]) with
              | Some rest => Some (cls :: rest)
              | None => None
              end
          | None => None
          end
      | None => None
      end
  end.

(** The first of the classes [order] that has [name] in its namespace. *)
Fixpoint lookup_along (classes : list (string * ClassObj))
    (order : list string) (name : string) : option Member :=
  match order with
  | [] => None
  | c :: rest =>
      match dict_lookup classes c with
      | Some C =>
          match dict_lookup (__dict__ C) name with
          | Some m => Some m
          | None => lookup_along classes rest name
          end
      | None => lookup_along classes rest name
      end
  end.

(** [getattr(cls, name)] for a name of a class body. *)
Definition class_getattr (classes : list (string * ClassObj))
    (cls name : string) : option Member :=
  match mro (S (length classes)) classes cls with
  | Some order => lookup_along classes order name
  | None => None
  end.

(** The field object that [getattr(cls, name)] is. *)
Definition class_field (classes : list (string * ClassObj))
    (cls name : string) : option loc :=
  match class_getattr classes cls name with
  | Some (MField l) => Some l
  | _ => None
  end.

(** [getattr(cls, name).nullable = b] *)
Definition assign_nullable (h : heap) (classes : list (string * ClassObj))
    (cls name : string) (b : bool) : option heap :=
  match class_field classes cls name with
  | Some l =>
      match h !! l with
      | Some (OField f) => Some (<[l := OField (set_nullable f b)]> h)
      | _ => None
      end
  | None => None
  end.

(** [field._fvalidators.append(v)] for the field object [l] *)
Definition append_validator (h : heap) (l : loc) (v : Fields.Validator)
  : option heap :=
  match h !! l with
  | Some (OField f) =>
      match h !! _fvalidators f with
      | Some (OList items) =>
          Some (<[_fvalidators f := OList (items ++ [v])]> h)
      | _ => None
      end
  | _ => None
  end.

(** *** What a class sees *)

(** A descriptor as a class reaches it: the field and the elements of its
    validator list. *)
Definition descriptor (h : heap) (l : loc)
  : option (FieldObj * list Fields.Validator) :=
  match h !! l with
  | Some (OField f) =>
      match h !! _fvalidators f with
      | Some (OList items) => Some (f, items)
      | _ => None
      end
  | _ => None
  end.

Definition fields_of (c : ClassObj) : list (string * loc) :=
  _attrs_by_japi_name c ++ _rels_by_japi_name c.

(** The field maps of a class with every descriptor read from the heap. *)
Definition class_view (h : heap) (c : ClassObj)
  : list (string * loc * option (FieldObj * list Fields.Validator)) :=
  map (fun '(n, l) => (n, l, descriptor h l)) (fields_of c).

(** The objects a class reaches: its fields and their validator lists. *)
Definition reaches (h : heap) (c : ClassObj) (p : loc) : Prop :=
  exists n l, (n, l) ∈ fields_of c /\
    (p = l \/ exists f, h !! l = Some (OField f) /\ p = _fvalidators f).

(** Every field of every class of the table is in the heap, with its
    validator list. *)
Definition heap_closed (h : heap) (classes : list (string * ClassObj))
  : Prop :=
  forall cn c n l, (cn, c) ∈ classes -> (n, l) ∈ fields_of c ->
    is_Some (descriptor h l).

(** The fields of the class body. *)
Definition declared (attrs : list (string * Member)) (l : loc) : Prop :=
  exists n, (n, MField l) ∈ attrs.

(** [f] is a copy of [f0]: the same state, but for the identity of the
    validator list. *)
Definition same_state (f f0 : FieldObj) : Prop :=
  set_fvalidators f (_fvalidators f0) = f0.

(** [h1] holds every object of [h], unchanged. *)
Definition preserves (h h1 : heap) : Prop :=
  forall p, p ∈ dom h -> h1 !! p = h !! p.

(** In [h], [l'] is a copy of the field [f0] of [h0]: a new object with the
    state of [f0] and a new validator list with the same elements. *)
Definition field_copy (h0 h : heap) (f0 : FieldObj) (l' : loc) : Prop :=
  exists lv' vs,
    h !! l' = Some (OField (set_fvalidators f0 lv'))
    /\ (l' ∉ dom h0)
    /\ (lv' ∉ dom h0)
    /\ h0 !! _fvalidators f0 = Some (OList vs)
    /\ h !! lv' = Some (OList vs).

(** The memo during a copy of objects of [h0] into [h]: the lists and the
    fields it holds are copies. *)
Definition memo_lists (h0 h : heap) (memo : gmap loc loc) : Prop :=
  forall p p' vs,
    memo !! p = Some p' -> h0 !! p = Some (OList vs) ->
    (p' ∉ dom h0) /\ h !! p' = Some (OList vs).

Definition memo_fields (h0 h : heap) (memo : gmap loc loc) : Prop :=
  forall p p' f0,
    memo !! p = Some p' -> h0 !! p = Some (OField f0) ->
    field_copy h0 h f0 p'.

(** Every field of the dictionary is in the heap, with its validator
    list. *)
Definition fields_allocated (h : heap) (items : list (string * loc)) : Prop :=
  forall n l, (n, l) ∈ items ->
    exists f0 vs,
      h !! l = Some (OField f0) /\ h !! _fvalidators f0 = Some (OList vs).

(** What the loop over the class body does to the heap: it writes only the
    fields of the class body, and no field changes its validator list. *)
Definition rebinds (attrs : list (string * Member)) (h h' : heap) : Prop :=
  (forall p, ~ declared attrs p -> h' !! p = h !! p)
  /\ (forall p vs, h !! p = Some (OList vs) -> h' !! p = Some (OList vs))
  /\ (forall p f, h !! p = Some (OField f) ->
        exists f', h' !! p = Some (OField f')
                   /\ _fvalidators f' = _fvalidators f).

(** What it does to the two dictionaries: every entry is an old one or a
    field of the class body. *)
Definition binds (attrs : list (string * Member)) (st st' : binding_state)
  : Prop :=
  rebinds attrs (bs_heap st) (bs_heap st')
  /\ (forall kv, kv ∈ bs_attrs st' ->
        kv ∈ bs_attrs st \/ declared attrs kv.2)
  /\ (forall kv, kv ∈ bs_rels st' ->
        kv ∈ bs_rels st \/ declared attrs kv.2).

End Meta.

(** ** Example schemas and documents *)

Module Examples.
Import Py Errors PyOps Fields Resource.

(** The order in which the examples visit a set: the order of the keys. *)
Definition in_order (keys : list string) : list string := keys.

(** An attribute, a to-one relationship and an id with the accessors the
    metaclass derives from the mapped name. *)
Definition mapped_attribute (writable : list Context) (nullable has_default : bool)
    (column : string) : Attribute :=
  {| attr_base :=
       {| writable_during := writable; nullable := nullable;
          has_default := has_default;
          _fget := default_fget column;
          _fset := derived_fset writable column;
          _fvalidators := [] |};
     mapped_attribute_name := Some column |}.

Definition mapped_to_one (writable : list Context) (nullable has_default : bool)
    (name related component fk : string) : Relationship :=
  {| rel_base :=
       {| writable_during := writable; nullable := nullable;
          has_default := has_default;
          _fget := default_fget fk;
          _fset := derived_fset writable fk;
          _fvalidators := [] |};
     rel_japi_name := name;
     related_type := related;
     bound_url_component := component;
     rel_kind := ToOne (Some fk) |}.

Definition mapped_id (pk : string) : Id :=
  {| id_base :=
       {| writable_during := ALWAYS_SET; nullable := false;
          has_default := true;
          _fget := default_fget pk;
          _fset := default_fset pk;
          _fvalidators := [] |};
     mapped_pk_name := Some pk |}.

Definition author : Relationship :=
  mapped_to_one ALWAYS_SET true false "author" "person" "articles" "author_id".

(** An article: a required title, an optional body, a creation date that
    only the server writes, and a nullable author. *)
Definition article : ResourceClass :=
  {| japi_resource_type := "article";
     japi_resource_url_component := "articles";
     model_class := ∅;
     id := mapped_id "id";
     _attrs_by_japi_name :=
       [("title", mapped_attribute ALWAYS_SET false false "title");
        ("body", mapped_attribute ALWAYS_SET true false "body");
        ("created", mapped_attribute [] true true "created")];
     _rels_by_japi_name := [("author", author)];
     _instantiable := true;
     namespace := [("author", CA_Relationship author)] |}.

(** The same without the server-side attribute. *)
Definition note : ResourceClass :=
  {| japi_resource_type := "note";
     japi_resource_url_component := "notes";
     model_class := ∅;
     id := mapped_id "id";
     _attrs_by_japi_name :=
       [("title", mapped_attribute ALWAYS_SET false false "title");
        ("body", mapped_attribute ALWAYS_SET true false "body")];
     _rels_by_japi_name :=
       [("author",
         mapped_to_one ALWAYS_SET true false "author" "person" "notes"
                       "author_id")];
     _instantiable := true;
     namespace := [] |}.

Definition person_9 : pyval :=
  PDict [("data", PDict [("type", PStr "person"); ("id", PStr "9")])].

Definition article_doc : pyval :=
  PDict [("type", PStr "article");
         ("attributes", PDict [("title", PStr "T")]);
         ("relationships", PDict [("author", person_9)])].

(** A create document that gives the nullable author as a null linkage. *)
Definition null_author_doc : pyval :=
  PDict [("type", PStr "article");
         ("attributes", PDict [("title", PStr "T")]);
         ("relationships", PDict [("author", PDict [("data", PNone)])])].



(** A patch document for an article, and a stored article. *)
Definition patch_doc : pyval :=
  PDict [("type", PStr "article"); ("id", PStr "1");
         ("attributes", PDict [("title", PStr "U")]);
         ("relationships", PDict [("author", person_9)])].

Definition stored_article : Model :=
  {[ "id" := PInt 1; "title" := PStr "T"; "author_id" := PInt 4 ]}.

Definition note_doc : pyval :=
  PDict [("type", PStr "note");
         ("attributes", PDict [("title", PStr "T"); ("body", PNone)]);
         ("relationships", PDict [("author", person_9)])].

(** A validator for both contexts: the title is not empty. *)
Definition title_not_empty : Validator :=
  {| contexts := ALWAYS_SET;
     run := fun model =>
              if truthy (model_getattr model "title") then Ok tt
              else raise_UnprocessableEntity "Empty title" |}.

(** A class with the validator on its title, and one on its author that
    runs on create only and always refuses. *)
Definition titled : ResourceClass :=
  {| japi_resource_type := "titled";
     japi_resource_url_component := "titled";
     model_class := ∅;
     id := mapped_id "id";
     _attrs_by_japi_name :=
       [("title",
         {| attr_base :=
              {| writable_during := ALWAYS_SET; nullable := false;
                 has_default := false;
                 _fget := default_fget "title";
                 _fset := default_fset "title";
                 _fvalidators := [title_not_empty] |};
            mapped_attribute_name := Some "title" |})];
     _rels_by_japi_name :=
       [("author",
         {| rel_base :=
              {| writable_during := ALWAYS_SET; nullable := true;
                 has_default := false;
                 _fget := default_fget "author_id";
                 _fset := default_fset "author_id";
                 _fvalidators :=
                   [{| contexts := [CREATE];
                       run := fun _ => raise_Forbidden "No author" |}] |};
            rel_japi_name := "author";
            related_type := "person";
            bound_url_component := "titled";
            rel_kind := ToOne (Some "author_id") |})];
     _instantiable := true;
     namespace := [] |}.

End Examples.

(** A class body for a parent and one for a child, on a heap that holds the
    fields of the two bodies. Every field was built with the default
    [fvalidators], which is one list for all of them. *)
Module MetaExamples.
Import Meta.

(** The default list of [fvalidators] is the object 1; the four fields of
    the two class bodies are built without validators, so each of them
    keeps that list. *)
Definition default_list : loc := 1%positive.

(** [Attribute()] *)
Definition new_attribute : option FieldObj :=
  Attribute_init None None (no_field_kwargs default_list).

(** [Id()] *)
Definition new_id : option FieldObj :=
  Id_init None true (no_field_kwargs default_list).

(** [ToOneRelationship("author_id", Person)] *)
Definition new_author : option FieldObj :=
  ToOneRelationship_init (Some "author_id") "Person" None
                         (no_field_kwargs default_list).

Definition alloc (h : heap) (l : loc) (o : option FieldObj) : heap :=
  match o with
  | Some f => <[l := OField f]> h
  | None => h
  end.

(** [title], [id] and [author] of [Parent], and [summary] of [Child]. *)
Definition body_heap : heap :=
  alloc (alloc (alloc (alloc {[ default_list := OList [] ]}
                             2%positive new_attribute)
                      3%positive new_id)
               4%positive new_author)
        5%positive new_attribute.

Definition parent_body : list (string * Member) :=
  [("id", MField 3); ("title", MField 2); ("author", MField 4);
   ("model_class", MType); ("japi_resource_type", MStr "parent");
   ("japi_resource_url_component", MStr "parents")].

Definition child_body : list (string * Member) :=
  [("summary", MField 5)].

Definition no_class : ClassObj :=
  {| __bases__ := []; __dict__ := [];
     _attrs_by_japi_name := []; _rels_by_japi_name := [];
     _instantiable := false |}.

(** [class Parent(Resource)], then [class Child(Parent)]. *)
Definition parent_heap : heap :=
  Eval vm_compute in
    from_option fst body_heap
      (ResourceMeta_init body_heap [] "Parent" [] parent_body).

Definition Parent : ClassObj :=
  Eval vm_compute in
    from_option snd no_class
      (ResourceMeta_init body_heap [] "Parent" [] parent_body).

Definition child_heap : heap :=
  Eval vm_compute in
    from_option fst parent_heap
      (ResourceMeta_init parent_heap [("Parent", Parent)] "Child" ["Parent"]
                         child_body).

Definition Child : ClassObj :=
  Eval vm_compute in
    from_option snd no_class
      (ResourceMeta_init parent_heap [("Parent", Parent)] "Child" ["Parent"]
                         child_body).

(** The two classes, once both are built. *)
Definition classes : list (string * ClassObj) :=
  [("Parent", Parent); ("Child", Child)].

(** [Child.title.nullable = True] *)
Definition child_heap_title_nullable : heap :=
  Eval vm_compute in
    default child_heap
            (assign_nullable child_heap classes "Child" "title" true).

(** [Child.summary._fvalidators.append(title_not_empty)] *)
Definition child_heap_summary_validated : heap :=
  Eval vm_compute in
    default child_heap
            (append_validator child_heap 5%positive
                              Examples.title_not_empty).

End MetaExamples.

(** * Properties *)

(** ** The splitter *)

Section SplitterFacts.
Import Splitter.

Lemma drop_nth (str : list ascii) (k : nat) :
  (k < length str)%nat ->
  drop k str = char_at str k :: drop (S k) str.
Proof.
  intros Hk. destruct (lookup_lt_is_Some_2 str k Hk) as [c Hc].
  unfold char_at. rewrite (nth_lookup_Some _ _ _ _ Hc).
  by apply drop_S.
Qed.

Lemma comma_not_backslash : Ascii.eqb comma backslash = false.
Proof. reflexivity. Qed.

Lemma run_loop_cons (str : list ascii) (k : nat) (idx : list nat)
    (st : split_state) :
  run_loop str (k :: idx) st = run_loop str idx (loop_body str st k).
Proof. reflexivity. Qed.

(** The loop, started at index [k] in any state, computes the scan of the
    rest of the input; a set flag means that the character at [k] has been
    emitted already. *)
Lemma run_loop_scan (str : list ascii) (m : nat) :
  forall k esc res sub,
    (k + m = length str)%nat ->
    finish (run_loop str (seq k m) (SplitState esc res sub))
    = scan true (drop (if esc then S k else k) str) false sub res.
Proof.
  induction m as [|m IH]; intros k esc res sub Hlen.
  - assert (Hk : k = length str) by lia. subst k.
    destruct esc; rewrite drop_ge by lia; reflexivity.
  - assert (Hk : (k < length str)%nat) by lia.
    cbn [seq]. rewrite run_loop_cons.
    unfold loop_body; cbn [is_escaped result sub_str].
    destruct esc; cbn [negb].
    + rewrite andb_false_r. rewrite IH by lia. reflexivity.
    + rewrite andb_true_r. rewrite (drop_nth str k Hk).
      cbn [scan]. destruct (Ascii.eqb (char_at str k) comma) eqn:Hc.
      * apply Ascii.eqb_eq in Hc. rewrite Hc, comma_not_backslash.
        rewrite IH by lia. reflexivity.
      * destruct (Ascii.eqb (char_at str k) backslash) eqn:Hb.
        -- cbn [andb]. destruct (k <? length str - 1)%nat eqn:Hlast.
           ++ apply Nat.ltb_lt in Hlast.
              rewrite IH by lia. rewrite (drop_nth str (S k)) by lia.
              cbn [scan]. by rewrite Nat.add_1_r.
           ++ apply Nat.ltb_ge in Hlast.
              rewrite IH by lia. rewrite !drop_ge by lia.
              apply Ascii.eqb_eq in Hb. rewrite Hb. reflexivity.
        -- cbn [andb]. rewrite IH by lia. reflexivity.
Qed.

Lemma split_chars_scan (str : list ascii) :
  split_chars str = scan true str false [] [].
Proof.
  unfold split_chars. by rewrite (run_loop_scan str (length str) 0).
Qed.

(** Keeping the last backslash is scanning the input with that backslash
    doubled. *)
Lemma scan_keep_last (cs : list ascii) :
  forall esc tok acc,
    scan true cs esc tok acc
    = scan false (if ends_escaped cs esc then cs ++ [backslash] else cs)
           esc tok acc.
Proof.
  induction cs as [|c cs IH]; intros esc tok acc.
  - destruct esc; reflexivity.
  - cbn [scan ends_escaped]. destruct esc.
    + rewrite IH. by destruct (ends_escaped cs false).
    + destruct (Ascii.eqb c backslash) eqn:Hb.
      * rewrite IH. destruct (ends_escaped cs true); cbn [app scan];
          by rewrite Hb.
      * destruct (Ascii.eqb c comma) eqn:Hc; rewrite IH;
          destruct (ends_escaped cs false); cbn [app scan];
          by rewrite Hb, Hc.
Qed.

Lemma append_if_nonempty_Forall (acc : list (list ascii)) (tok : list ascii) :
  Forall (fun t => t <> []) acc ->
  Forall (fun t => t <> []) (append_if_nonempty acc tok).
Proof.
  intros H. destruct tok; [done|]. cbn. apply Forall_app; split; [done|].
  by constructor.
Qed.

Lemma scan_no_empty (keep : bool) (cs : list ascii) :
  forall esc tok acc,
    Forall (fun t => t <> []) acc ->
    Forall (fun t => t <> []) (scan keep cs esc tok acc).
Proof.
  induction cs as [|c cs IH]; intros esc tok acc Hacc; cbn [scan].
  - destruct (esc && keep); by apply append_if_nonempty_Forall.
  - destruct esc; [by apply IH|].
    destruct (Ascii.eqb c backslash); [by apply IH|].
    destruct (Ascii.eqb c comma); apply IH; [|done].
    by apply append_if_nonempty_Forall.
Qed.

Lemma list_ascii_of_string_app (s t : string) :
  list_ascii_of_string (s +:+ t)
  = list_ascii_of_string s ++ list_ascii_of_string t.
Proof. induction s as [|c s IH]; simpl; [done|]. by f_equal. Qed.

Lemma string_of_list_ascii_nil (l : list ascii) :
  string_of_list_ascii l = "" -> l = [].
Proof. by destruct l. Qed.

End SplitterFacts.

(** C6, as the code has it. [split_str_on_comma] is the scanner of the
    specification: it splits on the commas that no backslash escapes, drops
    one escaping backslash for every escaped character and never returns an
    empty token. A backslash that is the last character and escapes nothing
    is not dropped: the result is that of the specification's scanner on the
    input with this backslash doubled. On the example of the docstring the
    result is the three tokens given there. *)
Theorem split_str_on_comma_scan (str : string) :
  Splitter.split_str_on_comma str
  = Splitter.splitStr_spec
      (if Splitter.dangling_escape str then str +:+ "\" else str)
  /\ ~ In "" (Splitter.split_str_on_comma str)
  /\ Splitter.split_str_on_comma "hello,world\,hello\\,again\\\,world"
     = ["hello"; "world,hello\"; "again\,world"].
Proof.
  split; [|split; [|reflexivity]].
  - unfold Splitter.split_str_on_comma, Splitter.splitStr_spec.
    rewrite split_chars_scan, scan_keep_last.
    unfold Splitter.dangling_escape.
    destruct (Splitter.ends_escaped (list_ascii_of_string str) false);
      [|done].
    by rewrite list_ascii_of_string_app.
  - unfold Splitter.split_str_on_comma. rewrite split_chars_scan.
    intros Hin. apply in_map_iff in Hin as (t & Ht & Hin).
    apply string_of_list_ascii_nil in Ht. subst t.
    pose proof (scan_no_empty true (list_ascii_of_string str) false [] []
                  (List.Forall_nil _)) as Hall.
    rewrite Forall_forall in Hall. apply list_elem_of_In in Hin.
    by apply (Hall [] Hin).
Qed.

(** C6 as stated fails on a backslash at the end of the input: the scanner
    of the specification drops it, the code returns it. *)
Lemma split_str_on_comma_keeps_last_backslash :
  Splitter.split_str_on_comma "a\" = ["a\"]
  /\ Splitter.splitStr_spec "a\" = ["a"]
  /\ Splitter.split_str_on_comma "a\" <> Splitter.splitStr_spec "a\".
Proof. repeat split; [reflexivity..|discriminate]. Qed.

(** ** Errors *)

(** C8 fails on the code: an [Error] built with neither a source pointer
    nor a source parameter serializes a [source] member. [__init__] stores
    [str(None)], the string [None], which is true. *)
Theorem error_without_source_has_source_member :
  Errors.json (Errors.Error_new 500 Errors.no_kwargs)
  = [("status", Py.PInt 500); ("title", Py.PStr "Error");
     ("source", Py.PDict [("pointer", Py.PStr "None")])].
Proof. reflexivity. Qed.

(** The same for every class and status: the member is there whatever the
    other arguments are. *)
Lemma json_source_always_present (cls : string) (status : Z)
    (kw : Errors.kwargs) :
  Errors.kw_source_pointer kw = Py.PNone ->
  Errors.kw_source_parameter kw = None ->
  In ("source", Py.PDict [("pointer", Py.PStr "None")])
     (Errors.json (Errors.Error_init cls status kw)).
Proof.
  intros Hp Hq. unfold Errors.json, Errors.Error_init.
  cbn [Errors.id Errors.http_status Errors.title Errors.about Errors.code
       Errors.detail Errors.source_pointer Errors.source_parameter
       Errors.meta].
  rewrite Hp, Hq. cbn [Py.py_str Py.repr].
  apply in_or_app; right. right; right.
  do 4 (apply in_or_app; right).
  apply in_or_app; left. simpl. left. reflexivity.
Qed.

(** ** Document structure *)

(** C4 as stated fails: a relationship object with only [links], or only
    [meta], checked with neither discipline, is refused for its missing
    [data] member. *)
Lemma relationship_object_without_data_is_refused :
  Validators.assert_relationship_object
    (Py.PDict [("links", Py.PDict [])]) "/" false false
  = Validators.raise_BadRequest "Missing data member" "/"
  /\ Validators.assert_relationship_object
       (Py.PDict [("meta", Py.PDict [])]) "/" false false
     = Validators.raise_BadRequest "Missing data member" "/".
Proof. split; reflexivity. Qed.

(** No relationship object without [data] passes, with or without a
    discipline. *)
Lemma relationship_object_needs_data (d : Py.pyval) (source_pointer : string)
    (to_many to_one : bool) :
  Validators.has_member d "data" = false ->
  raised (Validators.assert_relationship_object d source_pointer
                                                to_many to_one) = true.
Proof.
  intros Hd. unfold Validators.assert_relationship_object.
  destruct d as [| | | |l|m]; try reflexivity.
  destruct m as [|kv m]; [reflexivity|].
  destruct (negb _); [reflexivity|].
  unfold Validators.has_member, Py.dict_mem in Hd.
  destruct (Py.dict_lookup (kv :: m) "data"); [discriminate|].
  repeat (match goal with
          | |- context [bind ?r _] => destruct r; cbn [bind]
          end; try reflexivity).
Qed.

(** C4, as the code has it. Checked with neither discipline, a value is
    accepted exactly when it is an object whose keys are among [links],
    [data] and [meta], that holds the member [data], and whose [links] and
    [meta] members, when it has them, are a links object and a meta object;
    the value of [data] is not looked at. The member [data] is mandatory
    with or without a discipline: an object that is well formed but for its
    missing [data] is refused for it, and nothing without [data] passes. *)
Theorem relationship_object_accepted_iff (d : Py.pyval)
    (source_pointer : string) :
  (Validators.assert_relationship_object d source_pointer false false = Ok tt
   <->
   exists m,
     d = Py.PDict m
     /\ Py.keys_subset (Py.dict_keys m) ["links"; "data"; "meta"] = true
     /\ Py.dict_mem m "data" = true
     /\ (forall x, Py.dict_lookup m "links" = Some x ->
                   Validators.assert_links_object
                     x (source_pointer +:+ "links/") = Ok tt)
     /\ (forall x, Py.dict_lookup m "meta" = Some x ->
                   Validators.assert_meta_object
                     x (source_pointer +:+ "meta/") = Ok tt))
  /\ (forall to_many to_one,
        Validators.assert_relationship_object d source_pointer
                                              to_many to_one = Ok tt ->
        Validators.has_member d "data" = true)
  /\ (forall to_many to_one m,
        d = Py.PDict m ->
        m <> [] ->
        Py.keys_subset (Py.dict_keys m) ["links"; "data"; "meta"] = true ->
        Py.dict_mem m "data" = false ->
        (forall x, Py.dict_lookup m "links" = Some x ->
                   Validators.assert_links_object
                     x (source_pointer +:+ "links/") = Ok tt) ->
        (forall x, Py.dict_lookup m "meta" = Some x ->
                   Validators.assert_meta_object
                     x (source_pointer +:+ "meta/") = Ok tt) ->
        Validators.assert_relationship_object d source_pointer
                                              to_many to_one
        = Validators.raise_BadRequest "Missing data member" source_pointer).
Proof.
  split_and!.
  - split.
    + destruct d as [| | | |l|m]; try discriminate.
      unfold Validators.assert_relationship_object.
      destruct m as [|kv m]; [discriminate|].
      destruct (Py.keys_subset _ _) eqn:Hk; cbn [negb]; [|discriminate].
      intros H. exists (kv :: m). split_and!; [done..| | |].
      * unfold Py.dict_mem.
        destruct (Py.dict_lookup (kv :: m) "links") as [x|];
          [destruct (Validators.assert_links_object x _);
           [|discriminate]|]; cbn [bind] in H;
          (destruct (Py.dict_lookup (kv :: m) "meta") as [y|];
           [destruct (Validators.assert_meta_object y _);
            [|discriminate]|]); cbn [bind] in H;
          by destruct (Py.dict_lookup (kv :: m) "data").
      * intros x Hx. rewrite Hx in H.
        by destruct (Validators.assert_links_object x _) as [[]|].
      * intros y Hy. rewrite Hy in H.
        destruct (match Py.dict_lookup (kv :: m) "links" with
                  | Some x => _ | None => _ end); [|discriminate].
        cbn [bind] in H.
        by destruct (Validators.assert_meta_object y _) as [[]|].
    + intros (m & -> & Hk & Hd & Hl & Hm).
      unfold Validators.assert_relationship_object.
      destruct m as [|kv m]; [discriminate|].
      rewrite Hk. cbn [negb].
      unfold Py.dict_mem in Hd.
      destruct (Py.dict_lookup (kv :: m) "links") as [x|];
        [rewrite (Hl x eq_refl)|]; cbn [bind];
        (destruct (Py.dict_lookup (kv :: m) "meta") as [y|];
         [rewrite (Hm y eq_refl)|]); cbn [bind];
        by destruct (Py.dict_lookup (kv :: m) "data").
  - intros to_many to_one H.
    destruct (Validators.has_member d "data") eqn:Hd; [done|].
    pose proof (relationship_object_needs_data d source_pointer
                  to_many to_one Hd) as Hr.
    by rewrite H in Hr.
  - intros to_many to_one m -> Hne Hk Hd Hl Hm.
    unfold Validators.assert_relationship_object.
    destruct m as [|kv m]; [done|].
    rewrite Hk. cbn [negb]. unfold Py.dict_mem in Hd.
    destruct (Py.dict_lookup (kv :: m) "links") as [x|];
      [rewrite (Hl x eq_refl)|]; cbn [bind];
      (destruct (Py.dict_lookup (kv :: m) "meta") as [y|];
       [rewrite (Hm y eq_refl)|]); cbn [bind];
      by destruct (Py.dict_lookup (kv :: m) "data").
Qed.

(** An object with a link and a [data] member that is no linkage at all
    passes; the same object without [data] is refused. *)
Lemma relationship_object_accepted_iff_witness :
  Validators.assert_relationship_object
    (Py.PDict [("links", Py.PDict [("self", Py.PStr "/articles/1")]);
               ("data", Py.PInt 3)]) "/" false false = Ok tt
  /\ Validators.assert_relationship_object
       (Py.PDict [("links", Py.PDict [("self", Py.PStr "/articles/1")])])
       "/" false true
     = Validators.raise_BadRequest "Missing data member" "/".
Proof.
  split.
  - apply (proj1 (relationship_object_accepted_iff _ "/")).
    eexists. split_and!; [reflexivity..| |].
    + intros x [= <-]. reflexivity.
    + intros x [=].
  - apply (proj2 (proj2 (relationship_object_accepted_iff _ "/"))
             false true _ eq_refl); [done|reflexivity..| |].
    + intros x [= <-]. reflexivity.
    + intros x [=].
Defined.

(** ** Pagination *)

Section PaginationFacts.
Import Py Errors PyOps Utilities Pagination.

Lemma check_number_bad (s name : string) :
  bad_number s = true ->
  exists e, check_number (PStr s) name = Raise (ApiError e)
    /\ http_status e = 400 /\ class_name e = "BadRequest"
    /\ source_parameter e = Some name.
Proof.
  unfold bad_number, check_number. intros [Hne Hbad]%andb_true_iff.
  cbn [truthy py_int]. unfold nonempty in Hne. rewrite Hne.
  destruct (parse_int s) as [n|].
  - rewrite Hbad. eexists; repeat split.
  - eexists; repeat split.
Qed.

(** [check_number] returns or raises a [BadRequest] that names the
    parameter. *)
Lemma check_number_cases (v : pyval) (name : string) :
  (exists w, check_number v name = Ok w)
  \/ (exists e, check_number v name = Raise (ApiError e)
        /\ http_status e = 400 /\ class_name e = "BadRequest"
        /\ source_parameter e = Some name).
Proof.
  unfold check_number. destruct (truthy v); [|left; eauto].
  destruct (py_int v) as [n|x].
  - destruct (n <? 1)%Z; [right|left; eauto].
    eexists; repeat split.
  - right. eexists; repeat split.
Qed.

End PaginationFacts.

(** C10. A [page[number]] or [page[size]] value that is a non-empty string
    and is not an integer, or is an integer below 1, makes
    [NumberSize.from_request] raise a [BadRequest] (status 400) whose source
    parameter names that parameter; no paginator is returned. When both are
    bad the error names [page[number]], which is checked first. *)
Theorem from_request_rejects_bad_page_parameter
    (request : Pagination.Request) (component : string)
    (total_resources default_size : Z) :
  (forall s,
      Py.dict_lookup (Pagination.query_args request) "page[number]" = Some s ->
      Pagination.bad_number s = true ->
      exists e,
        Pagination.from_request request component total_resources default_size
        = Raise (ApiError e)
        /\ Errors.http_status e = 400
        /\ Errors.class_name e = "BadRequest"
        /\ Errors.source_parameter e = Some "page[number]")
  /\ (forall s,
      Py.dict_lookup (Pagination.query_args request) "page[size]" = Some s ->
      Pagination.bad_number s = true ->
      exists e,
        Pagination.from_request request component total_resources default_size
        = Raise (ApiError e)
        /\ Errors.http_status e = 400
        /\ Errors.class_name e = "BadRequest"
        /\ (Errors.source_parameter e = Some "page[size]"
            \/ Errors.source_parameter e = Some "page[number]"
               /\ exists n,
                    Py.dict_lookup (Pagination.query_args request)
                                   "page[number]" = Some n
                    /\ Pagination.bad_number n = true)).
Proof.
  split; intros s Hs Hbad; unfold Pagination.from_request,
    Pagination.multidict_get.
  - rewrite Hs; cbn [Py.of_opt_str].
    destruct (check_number_bad s "page[number]" Hbad) as (e & -> & H).
    exists e. by split.
  - rewrite Hs; cbn [Py.of_opt_str].
    destruct (check_number_bad s "page[size]" Hbad) as (e & He & H1 & H2 & H3).
    destruct (Py.dict_lookup _ "page[number]") as [n|] eqn:Hn;
      cbn [Py.of_opt_str].
    + destruct (check_number_cases (Py.PStr n) "page[number]")
        as [[w Hw]|(e' & He' & H1' & H2' & H3')].
      * rewrite Hw; cbn [bind]. rewrite He; cbn [bind].
        exists e. repeat split; auto.
      * rewrite He'; cbn [bind]. exists e'. repeat split; auto.
        right. split; [done|]. exists n. split; [done|].
        unfold Pagination.bad_number, Utilities.check_number in *.
        cbn [Py.truthy PyOps.py_int] in He'. unfold Errors.nonempty.
        destruct (negb (String.eqb n "")); [|discriminate].
        destruct (Py.parse_int n) as [z|]; [|done].
        by destruct (z <? 1)%Z.
    + cbn [Utilities.check_number Py.truthy bind]. rewrite He; cbn [bind].
      exists e. repeat split; auto.
Qed.

Lemma from_request_rejects_bad_page_parameter_witness :
  exists e,
    Pagination.from_request
      {| Pagination.query_args := [("page[number]", "2"); ("page[size]", "0")];
         Pagination.link_prefix := "/api" |} "articles" 10 25
    = Raise (ApiError e)
    /\ Errors.http_status e = 400.
Proof.
  destruct (from_request_rejects_bad_page_parameter
              {| Pagination.query_args :=
                   [("page[number]", "2"); ("page[size]", "0")];
                 Pagination.link_prefix := "/api" |} "articles" 10 25)
    as [_ H].
  destruct (H "0" eq_refl eq_refl) as (e & He & Hs & _).
  exists e. split; assumption.
Defined.

(** ** Sparse fields *)

Section SparseFieldsFacts.
Import Py Errors PyOps Fields Resource Utilities.

Variable cls : ResourceClass.

(** Attribute lookup on the class finds each relationship under its wire
    name. *)
Hypothesis relationships_by_name :
  forall name r,
    dict_lookup (_rels_by_japi_name cls) name = Some r ->
    getattr_mapped_fk_name cls name = Ok (fk_of r).



End SparseFieldsFacts.




(** ** Dictionaries, key sets and loops *)

Section DictFacts.
Import Py.

Lemma str_in_elem_of (k : string) (l : list string) :
  str_in k l = true <-> k ∈ l.
Proof.
  unfold str_in. rewrite existsb_exists. split.
  - intros (x & Hx & Hk). apply String.eqb_eq in Hk. subst.
    by apply list_elem_of_In.
  - intros H. exists k. split; [by apply list_elem_of_In|].
    apply String.eqb_refl.
Qed.

Lemma elem_of_dedup (x : string) (l : list string) :
  x ∈ dedup l <-> x ∈ l.
Proof.
  induction l as [|k l IH]; cbn [dedup]; [done|].
  rewrite !elem_of_cons, list_elem_of_filter, IH.
  destruct (String.eqb k x) eqn:E.
  - apply String.eqb_eq in E. subst. split; intros _; by left.
  - assert (x <> k) by (intros ->; by rewrite String.eqb_refl in E).
    cbn. split; [intros [?|[_ ?]]|intros [?|?]]; auto; done.
Qed.

Lemma NoDup_dedup (l : list string) : NoDup (dedup l).
Proof.
  induction l as [|k l IH]; cbn [dedup]; [constructor|].
  constructor.
  - rewrite list_elem_of_filter. intros [H _].
    by rewrite String.eqb_refl in H.
  - by apply NoDup_filter.
Qed.

Lemma dict_lookup_Some_elem_of {A} (d : list (string * A)) (k : string)
    (v : A) :
  dict_lookup d k = Some v -> (k, v) ∈ d.
Proof.
  induction d as [|[k' v'] d IH]; cbn [dict_lookup]; [done|].
  destruct (String.eqb k' k) eqn:E.
  - apply String.eqb_eq in E. intros [= ->]. subst. left.
  - intros H. right. by apply IH.
Qed.

Lemma dict_lookup_None {A} (d : list (string * A)) (k : string) :
  dict_lookup d k = None <-> k ∉ map fst d.
Proof.
  induction d as [|[k' v'] d IH]; cbn [dict_lookup map fst].
  - split; [intros _; apply not_elem_of_nil|done].
  - rewrite not_elem_of_cons. destruct (String.eqb k' k) eqn:E.
    + apply String.eqb_eq in E. subst. split; [done|]. by intros [? _].
    + rewrite IH. split; [|tauto]. intros H. split; [|done].
      intros ->. by rewrite String.eqb_refl in E.
Qed.

Lemma dict_mem_elem_of {A} (d : list (string * A)) (k : string) :
  dict_mem d k = true <-> k ∈ map fst d.
Proof.
  unfold dict_mem. destruct (dict_lookup d k) eqn:E.
  - split; [intros _|done].
    apply dict_lookup_Some_elem_of in E.
    apply list_elem_of_fmap. by exists (k, a).
  - apply dict_lookup_None in E. split; [done|]. intros H. by destruct E.
Qed.

Lemma elem_of_dict_keys {A} (d : list (string * A)) (k : string) :
  k ∈ dict_keys d <-> k ∈ map fst d.
Proof. unfold dict_keys. apply elem_of_dedup. Qed.

Lemma dict_keys_lookup {A} (d : list (string * A)) (k : string) :
  k ∈ dict_keys d -> exists v, dict_lookup d k = Some v.
Proof.
  rewrite elem_of_dict_keys. intros H.
  destruct (dict_lookup d k) eqn:E; [eauto|].
  apply dict_lookup_None in E. by destruct E.
Qed.

Lemma elem_of_keys_diff (a b : list string) (k : string) :
  k ∈ keys_diff a b <-> k ∈ a /\ k ∉ b.
Proof.
  unfold keys_diff. rewrite list_elem_of_filter.
  pose proof (str_in_elem_of k b) as Hb.
  destruct (str_in k b); cbn; split.
  - intros [[] _].
  - intros [_ H]. destruct H. by apply Hb.
  - intros [_ H]. split; [done|]. intros Hk. by apply Hb in Hk.
  - intros [H _]. done.
Qed.

Lemma elem_of_keys_inter (a b : list string) (k : string) :
  k ∈ keys_inter a b <-> k ∈ a /\ k ∈ b.
Proof.
  unfold keys_inter. rewrite list_elem_of_filter.
  pose proof (str_in_elem_of k b) as Hb.
  destruct (str_in k b); cbn; split.
  - intros [_ H]. split; [done|]. by apply Hb.
  - intros [H _]. done.
  - intros [[] _].
  - intros [_ H]. by apply Hb in H.
Qed.



End DictFacts.

(** ** Deserializing a create document *)

Section DeserializeFacts.
Import Py Errors PyOps Fields Resource.


(** The value that [input_dict.get(k) or {}] hands to [.keys()]. *)
Lemma or_empty_dict_member (d : dict) (k : string) :
  dict_lookup d k = None \/ (exists a, dict_lookup d k = Some (PDict a)) ->
  as_dict (or_empty_dict (default PNone (dict_lookup d k)))
  = Ok (match dict_lookup d k with Some (PDict a) => a | _ => [] end).
Proof.
  intros [->|[x ->]]; [reflexivity|]. by destruct x.
Qed.



Variable set_iter : list string -> list string.
Hypothesis set_iter_permutation : forall l, Permutation (set_iter l) l.

Lemma elem_of_set_iter (l : list string) (k : string) :
  k ∈ set_iter l <-> k ∈ l.
Proof using set_iter_permutation.
  split; intros H.
  - by rewrite <- (set_iter_permutation l).
  - by rewrite (set_iter_permutation l).
Qed.




End DeserializeFacts.

Section DeserializeErrors.
Import Py Errors PyOps Fields Resource.










End DeserializeErrors.




(** C3 fails on the code: a create document that gives the nullable
    relationship [author] as the linkage [{"data": null}] passes the
    structural validation, and [deserialize] raises [TypeError] when it
    subscripts the null linkage to read its type. The field's own
    [deserialize] takes the same linkage and returns [None]. *)
Theorem deserialize_null_linkage_raises :
  Validators.assert_resource_object Examples.null_author_doc false "/data/"
  = Ok tt
  /\ Fields.nullable (Fields.rel_base Examples.author) = true
  /\ Resource.deserialize Examples.in_order Examples.article
                          Examples.null_author_doc
     = Raise TypeError
  /\ Fields.ToOne_deserialize Examples.author
                              (Py.PDict [("data", Py.PNone)])
     = Ok Py.PNone.
Proof. repeat split; reflexivity. Qed.

(** C2 fails on the code: the patch dict that [create_patch_dict] makes
    from a patch document with a writable to-one relationship is not
    applied. [apply_patch_dict] writes the attributes and then asserts that
    the relationship's value, a foreign key, is a [ToOneRelationship]: it
    raises [AssertionError] with the attribute written and the foreign key
    unchanged. *)
Theorem apply_patch_dict_relationship_raises :
  Resource.create_patch_dict Examples.in_order Examples.article
                             Examples.patch_doc
  = Ok {| Resource.pd_attributes := [("title", Py.PStr "U")];
          Resource.pd_relationships := [("author", Py.PInt 9)] |}
  /\ Resource.apply_patch_dict Examples.article Examples.stored_article
       {| Resource.pd_attributes := [("title", Py.PStr "U")];
          Resource.pd_relationships := [("author", Py.PInt 9)] |}
     = Resource.Failed
         (<["title" := Py.PStr "U"]> Examples.stored_article)
         AssertionError.
Proof. split; reflexivity. Qed.

(** No patch dict with a relationship entry is applied, whatever the class
    and the record. *)
Lemma apply_patch_dict_needs_no_relationship (cls : Resource.ResourceClass)
    (model : Fields.Model) (pd : Resource.PatchDict) :
  Resource.pd_relationships pd <> [] ->
  exists model' e, Resource.apply_patch_dict cls model pd
                   = Resource.Failed model' e.
Proof.
  intros Hne. unfold Resource.apply_patch_dict.
  destruct (Resource.update_each _ (Resource.pd_attributes pd) model)
    as [m|m e]; [|eauto].
  destruct (Resource.pd_relationships pd) as [|[k v] rest]; [done|].
  cbn. eauto.
Qed.

(** ** Integers and their decimal form *)

Section IntFacts.
Import Py.

Lemma lstrip_head (p : ascii -> bool) (cs : list ascii) :
  Forall (fun c => p c = false) cs -> lstrip p cs = cs.
Proof. intros H. destruct H as [|c cs Hc _]; cbn; [done|]. by rewrite Hc. Qed.

Lemma strip_chars_none (p : ascii -> bool) (cs : list ascii) :
  Forall (fun c => p c = false) cs -> strip_chars p cs = cs.
Proof.
  intros H. unfold strip_chars. rewrite (lstrip_head p cs H).
  rewrite lstrip_head; [apply rev_involutive|].
  apply Forall_forall. intros c Hc. rewrite Forall_forall in H.
  apply H. apply list_elem_of_In. apply list_elem_of_In in Hc.
  by apply in_rev.
Qed.

Lemma digit_not_space (c : ascii) :
  is_digit c = true -> is_int_space c = false.
Proof.
  unfold is_digit, is_int_space.
  intros [H1 H2]%andb_true_iff.
  apply N.leb_le in H1. apply N.leb_le in H2.
  repeat (apply orb_false_intro).
  - apply andb_false_iff. right. apply N.leb_gt. lia.
  - apply N.eqb_neq. lia.
  - apply N.eqb_neq. lia.
  - apply N.eqb_neq. lia.
Qed.

Lemma string_of_uint_digits (d : Decimal.uint) :
  Forall (fun c => is_digit c = true)
         (list_ascii_of_string (NilEmpty.string_of_uint d)).
Proof. induction d; cbn; constructor; done. Qed.

Lemma parse_digits_string_of_uint (d : Decimal.uint) :
  forall acc prev_digit,
    d <> Decimal.Nil \/ prev_digit = true ->
    parse_digits (list_ascii_of_string (NilEmpty.string_of_uint d))
                 acc prev_digit
    = Some (uint_val d acc).
Proof.
  induction d; intros acc prev_digit Hd;
    try (cbn; apply IHd; by right).
  destruct Hd as [Hd| ->]; [done|reflexivity].
Qed.

Lemma of_uint_acc_val (d : Decimal.uint) :
  forall acc, Z.pos (Pos.of_uint_acc d acc) = uint_val d (Z.pos acc).
Proof.
  induction d; intros acc; cbn [Pos.of_uint_acc uint_val];
    try rewrite IHd; try (f_equal; lia).
Qed.

Lemma of_uint_val (d : Decimal.uint) : Z.of_N (Pos.of_uint d) = uint_val d 0.
Proof.
  induction d; cbn [Pos.of_uint uint_val Z.of_N];
    try rewrite of_uint_acc_val; done.
Qed.

Lemma parse_uint (d : Decimal.uint) :
  d <> Decimal.Nil ->
  parse_digits (list_ascii_of_string (NilEmpty.string_of_uint d)) 0 false
  = Some (Z.of_uint d).
Proof.
  intros Hd. rewrite parse_digits_string_of_uint by auto.
  unfold Z.of_uint. by rewrite of_uint_val.
Qed.

(** [int(str(z)) == z] *)
Lemma parse_int_str_of_Z (z : Z) : parse_int (str_of_Z z) = Some z.
Proof.
  unfold parse_int, str_of_Z.
  destruct z as [|p|p]; [reflexivity|..]; cbn [Z.to_int NilZero.string_of_int].
  - pose proof (DecimalPos.Unsigned.to_uint_nonnil p) as Hnil.
    pose proof (DecimalPos.Unsigned.of_to p) as Hp.
    pose proof (parse_uint (Pos.to_uint p) Hnil) as Hparse.
    pose proof (string_of_uint_digits (Pos.to_uint p)) as Hdig.
    unfold NilZero.string_of_uint.
    destruct (Pos.to_uint p) eqn:E; [done|..];
      (rewrite strip_chars_none;
       [|eapply Forall_impl; [exact Hdig|]; apply digit_not_space]);
      cbn [list_ascii_of_string NilEmpty.string_of_uint Ascii.eqb
           Bool.eqb] in *;
      rewrite Hparse; unfold Z.of_uint; rewrite Hp; reflexivity.
  - pose proof (DecimalPos.Unsigned.to_uint_nonnil p) as Hnil.
    pose proof (DecimalPos.Unsigned.of_to p) as Hp.
    pose proof (parse_uint (Pos.to_uint p) Hnil) as Hparse.
    pose proof (string_of_uint_digits (Pos.to_uint p)) as Hdig.
    assert (Hs : NilZero.string_of_uint (Pos.to_uint p)
                 = NilEmpty.string_of_uint (Pos.to_uint p))
      by (unfold NilZero.string_of_uint; by destruct (Pos.to_uint p)).
    rewrite Hs. cbn [list_ascii_of_string].
    rewrite strip_chars_none.
    2:{ constructor; [reflexivity|].
        eapply Forall_impl; [exact Hdig|]. apply digit_not_space. }
    cbn [Ascii.eqb Bool.eqb andb]. rewrite Hparse. cbn [option_map].
    unfold Z.of_uint. rewrite Hp. reflexivity.
Qed.

Lemma py_int_py_str (z : Z) : PyOps.py_int (PStr (py_str (PInt z))) = Ok z.
Proof. cbn [py_str repr PyOps.py_int]. by rewrite parse_int_str_of_Z. Qed.

End IntFacts.

(** ** Loops that write a record *)

Section WriteLoops.
Import Py Fields.

Variable f : Model -> string -> result Model.
Variable col : string -> string.
Variable val : string -> pyval.

(** A loop over distinct names, each step of which writes one column, the
    columns distinct too: what the record holds at the end. *)
Lemma foldM_inserts_inv (P : string -> Prop) (l : list string) :
  NoDup l ->
  (forall x y, x ∈ l -> y ∈ l -> col x = col y -> x = y) ->
  (forall m x m', x ∈ l -> f m x = Ok m' ->
                  P x /\ m' = <[col x := val x]> m) ->
  forall m0 m,
    foldM f l m0 = Ok m ->
    (forall x, x ∈ l -> P x /\ m !! col x = Some (val x))
    /\ (forall c, (forall x, x ∈ l -> col x <> c) -> m !! c = m0 !! c).
Proof using Type.
  induction l as [|x l IH]; intros Hnd Hinj Hstep m0 m Hm.
  - cbn in Hm. injection Hm as <-. split; [|done].
    intros x Hx. by apply elem_of_nil in Hx.
  - apply NoDup_cons in Hnd as [Hx Hnd]. cbn [foldM] in Hm.
    destruct (f m0 x) as [m1|] eqn:Hf; [|discriminate]. cbn [bind] in Hm.
    destruct (Hstep m0 x m1 ltac:(left) Hf) as [HP ->].
    destruct (IH Hnd
                (fun a b Ha Hb => Hinj a b ltac:(by right) ltac:(by right))
                (fun m a m' Ha => Hstep m a m' ltac:(by right))
                _ _ Hm) as [Hin Hout].
    split.
    + intros y [->|Hy]%elem_of_cons; [|by apply Hin].
      split; [done|]. rewrite Hout.
      * apply lookup_insert_eq.
      * intros z Hz Hc. apply Hx.
        rewrite <- (Hinj z x ltac:(by right) ltac:(left) Hc). done.
    + intros c Hc. rewrite Hout.
      * apply lookup_insert_ne. apply Hc. left.
      * intros z Hz. apply Hc. by right.
Qed.

Lemma foldM_inserts_ok (l : list string) :
  (forall m x, x ∈ l -> f m x = Ok (<[col x := val x]> m)) ->
  forall m0, exists m, foldM f l m0 = Ok m.
Proof using Type.
  induction l as [|x l IH]; intros Hstep m0; cbn [foldM]; [eauto|].
  rewrite (Hstep m0 x) by left. cbn [bind].
  apply IH. intros m y Hy. apply Hstep. by right.
Qed.

End WriteLoops.

(** ** Dictionaries built in order *)

Section BuildFacts.
Import Py.

Lemma dict_set_fresh {A} (d : list (string * A)) (k : string) (v : A) :
  k ∉ map fst d -> dict_set d k v = d ++ [(k, v)].
Proof.
  induction d as [|[k' v'] d IH]; cbn [dict_set map fst app]; [done|].
  intros [Hne Hk]%not_elem_of_cons.
  destruct (String.eqb k' k) eqn:E.
  - apply String.eqb_eq in E. congruence.
  - by rewrite IH.
Qed.

(** The loops of [serialize]: every key is new, so every value is
    appended. *)
Lemma foldM_dict_set {X} (g : X -> result pyval) (h : X -> pyval)
    (l : list (string * X)) :
  forall acc : dict,
    NoDup (map fst acc ++ map fst l) ->
    (forall n x, (n, x) ∈ l -> g x = Ok (h x)) ->
    foldM (fun (acc : dict) '(n, x) =>
             let* v := g x in Ok (dict_set acc n v)) l acc
    = Ok (acc ++ map (fun '(n, x) => (n, h x)) l).
Proof.
  induction l as [|[n x] l IH]; intros acc Hnd Hg; cbn [foldM map].
  - by rewrite app_nil_r.
  - rewrite (Hg n x) by left. cbn [bind].
    cbn [map fst] in Hnd.
    assert (Hn : n ∉ map fst acc).
    { apply NoDup_app in Hnd as (_ & Hd & _). intros Hc.
      apply (Hd n Hc). left. }
    rewrite (dict_set_fresh acc n (h x) Hn), IH.
    + by rewrite <- app_assoc.
    + rewrite map_app. cbn [map fst]. rewrite <- app_assoc. exact Hnd.
    + intros n' x' H'. apply (Hg n'). by right.
Qed.

Lemma dict_lookup_map {X Y} (h : X -> Y) (l : list (string * X))
    (k : string) :
  dict_lookup (map (fun '(n, x) => (n, h x)) l) k
  = option_map h (dict_lookup l k).
Proof.
  induction l as [|[n x] l IH]; cbn [map dict_lookup]; [done|].
  by destruct (String.eqb n k).
Qed.

Lemma map_fst_map {X Y} (h : X -> Y) (l : list (string * X)) :
  map fst (map (fun '(n, x) => (n, h x)) l) = map fst l.
Proof. induction l as [|[n x] l IH]; cbn [map fst]; by f_equal. Qed.

Lemma dict_lookup_elem_of {A} (d : list (string * A)) (k : string) (v : A) :
  NoDup (map fst d) -> (k, v) ∈ d -> dict_lookup d k = Some v.
Proof.
  induction d as [|[k' v'] d IH]; cbn [map fst dict_lookup].
  - intros _ H. by apply elem_of_nil in H.
  - intros [Hk Hnd]%NoDup_cons [H|H]%elem_of_cons.
    + injection H as -> ->. by rewrite String.eqb_refl.
    + destruct (String.eqb k' k) eqn:E; [|by apply IH].
      apply String.eqb_eq in E. subst. destruct Hk.
      apply list_elem_of_fmap. by exists (k, v).
Qed.

Lemma NoDup_map_inj {X Y} (g : X -> Y) (l : list X) (x y : X) :
  NoDup (map g l) -> x ∈ l -> y ∈ l -> g x = g y -> x = y.
Proof.
  induction l as [|z l IH]; cbn [map].
  - intros _ H. by apply elem_of_nil in H.
  - intros [Hz Hnd]%NoDup_cons [->|Hx]%elem_of_cons [->|Hy]%elem_of_cons Hg.
    + done.
    + destruct Hz. rewrite Hg. apply list_elem_of_fmap. by exists y.
    + destruct Hz. rewrite <- Hg. apply list_elem_of_fmap. by exists x.
    + by apply IH.
Qed.

Lemma keys_diff_nil (a b : list string) :
  (forall k, k ∈ a -> k ∈ b) -> keys_diff a b = [].
Proof.
  intros H. destruct (keys_diff a b) as [|k rest] eqn:E; [done|].
  assert (Hk : k ∈ keys_diff a b) by (rewrite E; left).
  apply elem_of_keys_diff in Hk as [Hk Hn]. destruct Hn. by apply H.
Qed.

End BuildFacts.

(** ** The round trip *)

Section RoundTripFacts.
Import Py Errors PyOps Fields Resource.

Variable set_iter : list string -> list string.
Hypothesis set_iter_permutation : forall l, Permutation (set_iter l) l.

Variable cls : ResourceClass.
Hypothesis schema : mapped_schema cls.

Lemma attribute_lookup (n : string) (a : Attribute) :
  dict_lookup (_attrs_by_japi_name cls) n = Some a ->
  _fget a = default_fget (attribute_column_of cls n)
  /\ _fset a = derived_fset (writable_during a) (attribute_column_of cls n).
Proof using schema.
  intros H. unfold attribute_column_of. rewrite H.
  apply (attributes_mapped cls schema n).
  by apply dict_lookup_Some_elem_of.
Qed.

Lemma relationship_lookup (n : string) (r : Relationship) :
  dict_lookup (_rels_by_japi_name cls) n = Some r ->
  is_ToOne r = true
  /\ _fget r = default_fget (relationship_column_of cls n)
  /\ _fset r = derived_fset (writable_during r) (relationship_column_of cls n).
Proof using schema.
  intros H. unfold relationship_column_of. rewrite H.
  apply (relationships_mapped cls schema n).
  by apply dict_lookup_Some_elem_of.
Qed.

Lemma attribute_column_inj (n1 n2 : string) :
  n1 ∈ dict_keys (_attrs_by_japi_name cls) ->
  n2 ∈ dict_keys (_attrs_by_japi_name cls) ->
  attribute_column_of cls n1 = attribute_column_of cls n2 -> n1 = n2.
Proof using schema.
  intros [a1 H1]%dict_keys_lookup [a2 H2]%dict_keys_lookup.
  unfold attribute_column_of. rewrite H1, H2. intros Hc.
  pose proof (columns_distinct cls schema) as Hnd.
  apply NoDup_app in Hnd as (Hnd & _ & _).
  apply dict_lookup_Some_elem_of in H1, H2.
  pose proof (NoDup_map_inj (fun kv : string * Attribute =>
                               attribute_column (snd kv))
                _ (n1, a1) (n2, a2) Hnd H1 H2 Hc) as Heq.
  by injection Heq.
Qed.

Lemma relationship_column_inj (n1 n2 : string) :
  n1 ∈ dict_keys (_rels_by_japi_name cls) ->
  n2 ∈ dict_keys (_rels_by_japi_name cls) ->
  relationship_column_of cls n1 = relationship_column_of cls n2 -> n1 = n2.
Proof using schema.
  intros [r1 H1]%dict_keys_lookup [r2 H2]%dict_keys_lookup.
  unfold relationship_column_of. rewrite H1, H2. intros Hc.
  pose proof (columns_distinct cls schema) as Hnd.
  apply NoDup_app in Hnd as (_ & _ & Hnd).
  apply dict_lookup_Some_elem_of in H1, H2.
  pose proof (NoDup_map_inj (fun kv : string * Relationship =>
                               relationship_column (snd kv))
                _ (n1, r1) (n2, r2) Hnd H1 H2 Hc) as Heq.
  by injection Heq.
Qed.

Lemma attribute_relationship_columns (n1 n2 : string) :
  n1 ∈ dict_keys (_attrs_by_japi_name cls) ->
  n2 ∈ dict_keys (_rels_by_japi_name cls) ->
  attribute_column_of cls n1 <> relationship_column_of cls n2.
Proof using schema.
  intros [a H1]%dict_keys_lookup [r H2]%dict_keys_lookup.
  unfold attribute_column_of, relationship_column_of. rewrite H1, H2.
  intros Hc.
  pose proof (columns_distinct cls schema) as Hnd.
  apply NoDup_app in Hnd as (_ & Hno & _).
  apply dict_lookup_Some_elem_of in H1, H2.
  apply (Hno (attribute_column a)).
  - apply list_elem_of_fmap. by exists (n1, a).
  - rewrite Hc. apply list_elem_of_fmap. by exists (n2, r).
Qed.

Lemma derived_fset_writable (w : list Context) (c : Context) (col : string) :
  ctx_in c w = true -> derived_fset w col = default_fset col.
Proof using Type. by destruct w. Qed.

(** One step of the attribute loop. *)
Lemma write_attribute_inv (attributes : dict) (m m' : Model) (n : string) :
  write_attribute cls attributes m n = Ok m' ->
  (exists v a,
      dict_lookup attributes n = Some v
      /\ dict_lookup (_attrs_by_japi_name cls) n = Some a
      /\ (is_none v = false \/ nullable a = true)
      /\ ctx_in CREATE (writable_during a) = true)
  /\ m' = <[attribute_column_of cls n := attribute_value attributes n]> m.
Proof using schema.
  unfold write_attribute, lookup_or_KeyError, attribute_value.
  destruct (dict_lookup attributes n) as [v|]; [|discriminate].
  destruct (dict_lookup (_attrs_by_japi_name cls) n) as [a|] eqn:Ha;
    [|discriminate].
  cbn [bind default].
  destruct (is_none v && negb (nullable a)) eqn:Hnull; [discriminate|].
  destruct (ctx_in CREATE (writable_during a)) eqn:Hw; [|discriminate].
  cbn [negb]. unfold Attribute_deserialize_into_obj, Attribute_deserialize.
  destruct (attribute_lookup n a Ha) as [_ ->].
  rewrite (derived_fset_writable _ _ _ Hw). intros [= <-].
  split; [|done]. exists v, a. repeat split; try done.
  apply andb_false_iff in Hnull as [?|Hn]; [by left|right].
  by destruct (nullable a).
Qed.

Lemma write_attribute_ok (attributes : dict) (m : Model) (n : string)
    (v : pyval) (a : Attribute) :
  dict_lookup attributes n = Some v ->
  dict_lookup (_attrs_by_japi_name cls) n = Some a ->
  is_none v = false \/ nullable a = true ->
  ctx_in CREATE (writable_during a) = true ->
  write_attribute cls attributes m n
  = Ok (<[attribute_column_of cls n := v]> m).
Proof using schema.
  intros Hv Ha Hnull Hw.
  unfold write_attribute, lookup_or_KeyError. rewrite Hv, Ha. cbn [bind].
  assert (is_none v && negb (nullable a) = false) as ->.
  { destruct Hnull as [->| ->]; [done|]. apply andb_false_r. }
  rewrite Hw. cbn [negb].
  unfold Attribute_deserialize_into_obj, Attribute_deserialize.
  destruct (attribute_lookup n a Ha) as [_ ->].
  by rewrite (derived_fset_writable _ _ _ Hw).
Qed.

(** What the checks on a provided relationship establish. *)
Lemma check_relationship_inv (ctx : Context) (detail : string)
    (r : Relationship) (v : pyval) :
  check_relationship ctx detail r v = Ok tt ->
  is_ToOne r = true
  /\ ctx_in ctx (writable_during r) = true
  /\ forall x, ToOne_deserialize r v = Ok x -> exists k, x = PInt k.
Proof using Type.
  unfold check_relationship.
  destruct (is_ToOne r); [|discriminate]. cbn [bind].
  destruct (ctx_in ctx (writable_during r)); [|discriminate]. cbn [negb].
  intros H. repeat split. intros x Hx. unfold ToOne_deserialize in Hx.
  destruct (is_none v) eqn:Hv.
  { destruct v; try discriminate. }
  destruct (getitem v "data") as [data|]; [|discriminate].
  cbn [bind] in H, Hx.
  destruct (getitem data "type") as [t|] eqn:Ht; [|discriminate].
  assert (Hd : is_none data = false) by (by destruct data).
  rewrite Hd in Hx. cbn [bind] in Hx.
  destruct (negb (eq_str t (related_type r))); [discriminate|].
  destruct (getitem data "id") as [i|]; [|discriminate]. cbn [bind] in Hx.
  destruct (py_int i) as [k|]; [|discriminate]. cbn [bind] in Hx.
  injection Hx as <-. eauto.
Qed.

(** One step of the relationship loop: the linkage holds an identifier of
    the related type whose id is an integer. *)
Lemma write_relationship_inv (relationships : dict) (m m' : Model)
    (n : string) :
  write_relationship cls relationships m n = Ok m' ->
  (exists v r k,
      dict_lookup relationships n = Some v
      /\ dict_lookup (_rels_by_japi_name cls) n = Some r
      /\ ctx_in CREATE (writable_during r) = true
      /\ ToOne_deserialize r v = Ok (PInt k))
  /\ m' = <[relationship_column_of cls n
            := relationship_value cls relationships n]> m.
Proof using schema.
  unfold write_relationship, lookup_or_KeyError, relationship_value.
  destruct (dict_lookup relationships n) as [v|]; [|discriminate].
  destruct (dict_lookup (_rels_by_japi_name cls) n) as [r|] eqn:Hr;
    [|discriminate].
  cbn [bind].
  destruct (relationship_lookup n r Hr) as (_ & _ & Hset).
  destruct (check_relationship CREATE "Cannot write to field" r v)
    as [[]|] eqn:Hchk; [|discriminate].
  destruct (check_relationship_inv _ _ _ _ Hchk) as (_ & Hw & Hint).
  cbn [bind]. unfold ToOne_deserialize_into_obj.
  destruct (ToOne_deserialize r v) as [x|] eqn:Hdes; [|discriminate].
  destruct (Hint x eq_refl) as [k ->]. cbn [bind].
  rewrite Hset, (derived_fset_writable _ _ _ Hw). intros [= <-].
  split; [|done]. by exists v, r, k.
Qed.

End RoundTripFacts.

Section DeserializeChain.
Import Py Errors PyOps Fields Resource.

Variable set_iter : list string -> list string.

Lemma as_dict_or_empty (d : dict) (k : string) (x : dict) :
  as_dict (or_empty_dict (default PNone (dict_lookup d k))) = Ok x ->
  x = match dict_lookup d k with Some (PDict a) => a | _ => [] end.
Proof using Type.
  destruct (dict_lookup d k) as [v|]; simpl.
  - unfold or_empty_dict. destruct v as [|b|z|s|l|a]; simpl.
    + by intros [= <-].
    + destruct b; [discriminate|]. by intros [= <-].
    + destruct (negb _); cbn; [discriminate|]. by intros [= <-].
    + destruct (negb _); cbn; [discriminate|]. by intros [= <-].
    + destruct l; [|discriminate]. by intros [= <-].
    + destruct a; by intros [= <-].
  - by intros [= <-].
Qed.

(** A [deserialize] that returns has gone through the four steps. *)
Lemma deserialize_Ok_inv (cls : ResourceClass) (doc : pyval) (model : Model) :
  deserialize set_iter cls doc = Ok model ->
  exists m1,
    check_attribute_keys set_iter cls (document_attributes doc) = Ok tt
    /\ write_attributes set_iter cls (document_attributes doc)
                        (model_class cls) = Ok m1
    /\ check_relationship_keys set_iter cls (document_relationships doc)
       = Ok tt
    /\ write_relationships set_iter cls (document_relationships doc) m1
       = Ok model.
Proof using Type.
  unfold deserialize, Resource_init.
  destruct (_instantiable cls); [|discriminate]. cbn [bind].
  destruct doc as [| | | | |d]; try discriminate. cbn [getitem].
  destruct (dict_lookup d "type") as [t|]; [|discriminate]. cbn [bind].
  destruct (negb (eq_str t (japi_resource_type cls))); [discriminate|].
  cbn [get bind document_attributes document_relationships].
  destruct (as_dict (or_empty_dict (default PNone
              (dict_lookup d "attributes")))) as [da|] eqn:Ha;
    [|discriminate].
  apply as_dict_or_empty in Ha. subst da. cbn [bind].
  destruct (check_attribute_keys _ _ _) as [[]|]; [|discriminate].
  cbn [bind].
  destruct (write_attributes _ _ _ _) as [m1|]; [|discriminate].
  cbn [bind].
  destruct (as_dict (or_empty_dict (default PNone
              (dict_lookup d "relationships")))) as [dr|] eqn:Hr;
    [|discriminate].
  apply as_dict_or_empty in Hr. subst dr. cbn [bind].
  destruct (check_relationship_keys _ _ _) as [[]|] eqn:Hc; [|discriminate].
  cbn [bind]. intros H. exists m1. done.
Qed.

(** The four steps, for a document with a type, an attributes object and a
    relationships object. *)
Lemma deserialize_of_members (cls : ResourceClass) (d : dict) :
  _instantiable cls = true ->
  dict_lookup d "type" = Some (PStr (japi_resource_type cls)) ->
  (dict_lookup d "attributes" = None
   \/ exists a, dict_lookup d "attributes" = Some (PDict a)) ->
  (dict_lookup d "relationships" = None
   \/ exists r, dict_lookup d "relationships" = Some (PDict r)) ->
  deserialize set_iter cls (PDict d)
  = (let* _ := check_attribute_keys set_iter cls
                 (document_attributes (PDict d)) in
     let* model := write_attributes set_iter cls
                     (document_attributes (PDict d)) (model_class cls) in
     let* _ := check_relationship_keys set_iter cls
                 (document_relationships (PDict d)) in
     write_relationships set_iter cls (document_relationships (PDict d))
                         model).
Proof using Type.
  intros Hinst Htype Ha Hr.
  unfold deserialize, Resource_init. rewrite Hinst. cbn [bind getitem].
  rewrite Htype. cbn [bind eq_str]. rewrite String.eqb_refl. cbn [negb].
  cbn [get bind]. rewrite (or_empty_dict_member d "attributes" Ha).
  cbn [bind document_attributes].
  destruct (check_attribute_keys _ _ _); [|done]. cbn [bind].
  destruct (write_attributes _ _ _ _); [|done]. cbn [bind].
  rewrite (or_empty_dict_member d "relationships" Hr). reflexivity.
Qed.

End DeserializeChain.

Section RoundTrip.
Import Py Errors PyOps Fields Resource.

Variable set_iter : list string -> list string.
Hypothesis set_iter_permutation : forall l, Permutation (set_iter l) l.

Variable cls : ResourceClass.
Hypothesis schema : mapped_schema cls.

Local Abbreviation attrs := (_attrs_by_japi_name cls).
Local Abbreviation rels := (_rels_by_japi_name cls).
Local Abbreviation acol := (attribute_column_of cls).
Local Abbreviation rcol := (relationship_column_of cls).

Lemma NoDup_set_iter (l : list string) : NoDup l -> NoDup (set_iter l).
Proof using set_iter_permutation.
  intros H. by rewrite (set_iter_permutation l).
Qed.

Lemma set_iter_nil : set_iter [] = [].
Proof using set_iter_permutation.
  apply Permutation_nil. symmetry. apply set_iter_permutation.
Qed.

Lemma elem_of_iter_inter (a b : list string) (n : string) :
  n ∈ set_iter (keys_inter a b) <-> n ∈ a /\ n ∈ b.
Proof using set_iter_permutation.
  rewrite (elem_of_set_iter set_iter set_iter_permutation).
  apply elem_of_keys_inter.
Qed.

Lemma NoDup_iter_inter {A B} (a : list (string * A)) (b : list (string * B)) :
  NoDup (set_iter (keys_inter (dict_keys a) (dict_keys b))).
Proof using set_iter_permutation.
  apply NoDup_set_iter. unfold keys_inter. apply NoDup_filter.
  apply NoDup_dedup.
Qed.

Lemma keys_diff_nil_inv (a b : list string) (n : string) :
  keys_diff a b = [] -> n ∈ a -> n ∈ b.
Proof using Type.
  intros Hnil Ha. destruct (decide (n ∈ b)) as [|Hb]; [done|].
  assert (H : n ∈ keys_diff a b) by (by apply elem_of_keys_diff).
  rewrite Hnil in H. by apply elem_of_nil in H.
Qed.

Lemma check_attribute_keys_no_extra (attributes : dict) (n : string) :
  check_attribute_keys set_iter cls attributes = Ok tt ->
  n ∈ dict_keys attributes -> n ∈ dict_keys attrs.
Proof using Type.
  unfold check_attribute_keys.
  destruct (keys_diff (dict_keys attributes) (dict_keys attrs)) eqn:E;
    [|discriminate].
  intros _. by apply keys_diff_nil_inv.
Qed.

Lemma check_relationship_keys_no_extra (relationships : dict) (n : string) :
  check_relationship_keys set_iter cls relationships = Ok tt ->
  n ∈ dict_keys relationships -> n ∈ dict_keys rels.
Proof using Type.
  unfold check_relationship_keys.
  destruct (keys_diff (dict_keys relationships) (dict_keys rels)) eqn:E;
    [|discriminate].
  intros _. by apply keys_diff_nil_inv.
Qed.

(** The attribute loop, when it returns: every provided attribute passed
    the checks and is in its column; the other columns are untouched. *)
Lemma write_attributes_inv (attributes : dict) (m0 m1 : Model) :
  write_attributes set_iter cls attributes m0 = Ok m1 ->
  (forall n, n ∈ dict_keys attributes -> n ∈ dict_keys attrs ->
     (exists v a,
         dict_lookup attributes n = Some v
         /\ dict_lookup attrs n = Some a
         /\ (is_none v = false \/ nullable a = true)
         /\ ctx_in CREATE (writable_during a) = true)
     /\ m1 !! acol n = Some (attribute_value attributes n))
  /\ (forall c,
        (forall n, n ∈ dict_keys attributes -> n ∈ dict_keys attrs ->
                   acol n <> c) ->
        m1 !! c = m0 !! c).
Proof using set_iter_permutation schema.
  unfold write_attributes. intros H.
  eapply (foldM_inserts_inv _ acol (attribute_value attributes)
            (fun n => exists v a,
                 dict_lookup attributes n = Some v
                 /\ dict_lookup attrs n = Some a
                 /\ (is_none v = false \/ nullable a = true)
                 /\ ctx_in CREATE (writable_during a) = true)) in H.
  - destruct H as [Hin Hout]. split.
    + intros n Ha Hb. apply Hin. by apply elem_of_iter_inter.
    + intros c Hc. apply Hout. intros n [Ha Hb]%elem_of_iter_inter.
      by apply Hc.
  - apply NoDup_iter_inter.
  - intros x y [_ Hx]%elem_of_iter_inter [_ Hy]%elem_of_iter_inter.
    by apply attribute_column_inj.
  - intros m x m' _ Hf. by apply (write_attribute_inv cls schema) in Hf.
Qed.

Lemma write_relationships_inv (relationships : dict) (m0 m1 : Model) :
  write_relationships set_iter cls relationships m0 = Ok m1 ->
  (forall n, n ∈ dict_keys relationships -> n ∈ dict_keys rels ->
     (exists v r k,
         dict_lookup relationships n = Some v
         /\ dict_lookup rels n = Some r
         /\ ctx_in CREATE (writable_during r) = true
         /\ ToOne_deserialize r v = Ok (PInt k))
     /\ m1 !! rcol n = Some (relationship_value cls relationships n))
  /\ (forall c,
        (forall n, n ∈ dict_keys relationships -> n ∈ dict_keys rels ->
                   rcol n <> c) ->
        m1 !! c = m0 !! c).
Proof using set_iter_permutation schema.
  unfold write_relationships. intros H.
  eapply (foldM_inserts_inv _ rcol (relationship_value cls relationships)
            (fun n => exists v r k,
                 dict_lookup relationships n = Some v
                 /\ dict_lookup rels n = Some r
                 /\ ctx_in CREATE (writable_during r) = true
                 /\ ToOne_deserialize r v = Ok (PInt k))) in H.
  - destruct H as [Hin Hout]. split.
    + intros n Ha Hb. apply Hin. by apply elem_of_iter_inter.
    + intros c Hc. apply Hout. intros n [Ha Hb]%elem_of_iter_inter.
      by apply Hc.
  - apply NoDup_iter_inter.
  - intros x y [_ Hx]%elem_of_iter_inter [_ Hy]%elem_of_iter_inter.
    by apply relationship_column_inj.
  - intros m x m' _ Hf. by apply (write_relationship_inv cls schema) in Hf.
Qed.

Lemma write_attributes_ok (attributes : dict) (m0 : Model) :
  (forall n, n ∈ dict_keys attributes -> n ∈ dict_keys attrs ->
     exists v a,
       dict_lookup attributes n = Some v
       /\ dict_lookup attrs n = Some a
       /\ (is_none v = false \/ nullable a = true)
       /\ ctx_in CREATE (writable_during a) = true) ->
  exists m1, write_attributes set_iter cls attributes m0 = Ok m1.
Proof using set_iter_permutation schema.
  intros H. unfold write_attributes.
  apply (foldM_inserts_ok _ acol (attribute_value attributes)).
  intros m n [Ha Hb]%elem_of_iter_inter.
  destruct (H n Ha Hb) as (v & a & Hv & Hf & Hnull & Hw).
  rewrite (write_attribute_ok cls schema attributes m n v a Hv Hf Hnull Hw).
  unfold attribute_value. by rewrite Hv.
Qed.

Lemma write_relationship_ok (relationships : dict) (m : Model) (n : string)
    (v : pyval) (r : Relationship) (k : Z) :
  dict_lookup relationships n = Some v ->
  dict_lookup rels n = Some r ->
  check_relationship CREATE "Cannot write to field" r v = Ok tt ->
  ToOne_deserialize r v = Ok (PInt k) ->
  write_relationship cls relationships m n
  = Ok (<[rcol n := relationship_value cls relationships n]> m).
Proof using schema.
  intros Hv Hr Hchk Hdes.
  unfold write_relationship, lookup_or_KeyError, relationship_value.
  rewrite Hv, Hr. cbn [bind]. rewrite Hchk. cbn [bind].
  unfold ToOne_deserialize_into_obj. rewrite Hdes. cbn [bind].
  destruct (relationship_lookup cls schema n r Hr) as (_ & _ & ->).
  destruct (check_relationship_inv _ _ _ _ Hchk) as (_ & Hw & _).
  by rewrite (derived_fset_writable _ _ _ Hw).
Qed.

Lemma write_relationships_ok (relationships : dict) (m0 : Model) :
  (forall n, n ∈ dict_keys relationships -> n ∈ dict_keys rels ->
     exists v r k,
       dict_lookup relationships n = Some v
       /\ dict_lookup rels n = Some r
       /\ check_relationship CREATE "Cannot write to field" r v = Ok tt
       /\ ToOne_deserialize r v = Ok (PInt k)) ->
  exists m1, write_relationships set_iter cls relationships m0 = Ok m1.
Proof using set_iter_permutation schema.
  intros H. unfold write_relationships.
  apply (foldM_inserts_ok _ rcol (relationship_value cls relationships)).
  intros m n [Ha Hb]%elem_of_iter_inter.
  destruct (H n Ha Hb) as (v & r & k & Hv & Hr & Hchk & Hdes).
  by apply (write_relationship_ok relationships m n v r k).
Qed.

(** The checks on the names pass when the document names exactly the fields
    of the schema. *)
Lemma check_attribute_keys_same (attributes : dict) :
  map fst attributes = map fst attrs ->
  check_attribute_keys set_iter cls attributes = Ok tt.
Proof using set_iter_permutation.
  intros Hk. unfold check_attribute_keys, dict_keys. rewrite Hk.
  rewrite !keys_diff_nil by done. by rewrite set_iter_nil.
Qed.

Lemma check_relationship_keys_same (relationships : dict) :
  map fst relationships = map fst rels ->
  check_relationship_keys set_iter cls relationships = Ok tt.
Proof using set_iter_permutation.
  intros Hk. unfold check_relationship_keys, dict_keys. rewrite Hk.
  rewrite !keys_diff_nil by done. by rewrite set_iter_nil.
Qed.

(** What [serialize] returns for a record whose foreign keys are all set:
    every attribute with the value of its column and every relationship
    with the linkage of its foreign key. *)
Lemma serialize_members (model : Model) (link_prefix : string) :
  (forall n r, (n, r) ∈ rels ->
     is_none (model_getattr model (relationship_column r)) = false) ->
  exists d resource_id,
    serialize cls model link_prefix None = Ok (PDict d)
    /\ dict_lookup d "type" = Some (PStr (japi_resource_type cls))
    /\ (dict_lookup d "attributes" = None
        \/ exists a, dict_lookup d "attributes" = Some (PDict a))
    /\ (dict_lookup d "relationships" = None
        \/ exists r, dict_lookup d "relationships" = Some (PDict r))
    /\ document_attributes (PDict d)
       = map (fun '(n, a) => (n, model_getattr model (attribute_column a)))
             attrs
    /\ document_relationships (PDict d)
       = map (fun '(n, r) => (n, linkage_of r model resource_id link_prefix))
             rels.
Proof using schema.
  intros Hfk. destruct (id_mapped cls schema) as [pk Hid].
  unfold serialize, Id_serialize. rewrite Hid.
  cbn [default_fget bind].
  match goal with
  | |- context [foldM ?f attrs []] =>
      assert (Ha : foldM f attrs []
                   = Ok ([] ++ map (fun '(n, a) =>
                                      (n, model_getattr model
                                            (attribute_column a))) attrs))
  end.
  { apply (foldM_dict_set (fun a : Attribute => Attribute_serialize a model)
             (fun a => model_getattr model (attribute_column a))).
    - apply (attribute_names_distinct cls schema).
    - intros n a Hin. unfold Attribute_serialize.
      by destruct (attributes_mapped cls schema n a Hin) as [-> _]. }
  rewrite Ha. clear Ha. cbn [bind app].
  match goal with
  | |- context [foldM ?f rels []] =>
      assert (Hr : foldM f rels []
                   = Ok ([] ++ map (fun '(n, r) =>
                                      (n, linkage_of r model
                                            (PStr (py_str (model_getattr
                                                             model pk)))
                                            link_prefix)) rels))
  end.
  { match goal with
    | |- foldM ?f rels [] = _ =>
        assert (Hext : forall l acc,
                  (forall n r, (n, r) ∈ l -> (n, r) ∈ rels) ->
                  foldM f l acc
                  = foldM (fun (acc : dict) '(n, x) =>
                             let* v := ToOne_serialize x model
                                         (PStr (py_str (model_getattr
                                                          model pk)))
                                         link_prefix in
                             Ok (dict_set acc n v)) l acc)
    end.
    { induction l as [|[n r] l IH]; intros acc Hsub; [done|].
      cbn [foldM].
      destruct (relationships_mapped cls schema n r (Hsub n r ltac:(left)))
        as (-> & _ & _).
      destruct (ToOne_serialize r model _ link_prefix); [|done].
      cbn [bind]. apply IH. intros n' r' H'. apply Hsub. by right. }
    rewrite Hext by done.
    apply (foldM_dict_set
             (fun r : Relationship =>
                ToOne_serialize r model
                  (PStr (py_str (model_getattr model pk))) link_prefix)
             (fun r => linkage_of r model
                         (PStr (py_str (model_getattr model pk)))
                         link_prefix)).
    - apply (relationship_names_distinct cls schema).
    - intros n r Hin. unfold ToOne_serialize, linkage_of.
      destruct (relationships_mapped cls schema n r Hin) as (_ & -> & _).
      cbn [default_fget bind]. by rewrite (Hfk n r Hin). }
  rewrite Hr. clear Hr. cbn [bind app].
  eexists _, (PStr (py_str (model_getattr model pk))).
  split; [reflexivity|].
  destruct attrs as [|[n1 a1] attrs']; destruct rels as [|[n2 r2] rels'];
    cbn [map]; repeat split; try reflexivity; cbn; eauto.
Qed.

Variable doc : pyval.
Variable model : Model.
Hypothesis first : deserialize set_iter cls doc = Ok model.

Local Abbreviation da := (document_attributes doc).
Local Abbreviation dr := (document_relationships doc).
Local Abbreviation m0 := (model_class cls).

(** What the first [deserialize] leaves in the record. *)
Lemma first_record :
  (forall n, n ∈ dict_keys da -> n ∈ dict_keys attrs)
  /\ (forall n, n ∈ dict_keys dr -> n ∈ dict_keys rels)
  /\ (forall n, n ∈ dict_keys da ->
        exists v a,
          dict_lookup da n = Some v
          /\ dict_lookup attrs n = Some a
          /\ (is_none v = false \/ nullable a = true)
          /\ model !! acol n = Some v)
  /\ (forall n, n ∈ dict_keys attrs -> n ∉ dict_keys da ->
        model !! acol n = m0 !! acol n)
  /\ (forall n, n ∈ dict_keys dr ->
        exists v r k,
          dict_lookup dr n = Some v
          /\ dict_lookup rels n = Some r
          /\ ctx_in CREATE (writable_during r) = true
          /\ ToOne_deserialize r v = Ok (PInt k)
          /\ model !! rcol n = Some (PInt k))
  /\ (forall c,
        (forall n, n ∈ dict_keys attrs -> acol n <> c) ->
        (forall n, n ∈ dict_keys rels -> rcol n <> c) ->
        model !! c = m0 !! c).
Proof using set_iter_permutation schema first.
  destruct (deserialize_Ok_inv set_iter cls doc model first)
    as (m1 & Hca & Hwa & Hcr & Hwr).
  destruct (write_attributes_inv _ _ _ Hwa) as [Ain Aout].
  destruct (write_relationships_inv _ _ _ Hwr) as [Rin Rout].
  assert (Hsa : forall n, n ∈ dict_keys da -> n ∈ dict_keys attrs)
    by (intros n; by apply check_attribute_keys_no_extra).
  assert (Hsr : forall n, n ∈ dict_keys dr -> n ∈ dict_keys rels)
    by (intros n; by apply check_relationship_keys_no_extra).
  assert (Hkeep : forall n, n ∈ dict_keys attrs ->
                            model !! acol n = m1 !! acol n).
  { intros n Hn. apply Rout. intros n' _ Hn' Hc.
    by apply (attribute_relationship_columns cls schema n n'). }
  repeat split; try done.
  - intros n Hn. destruct (Ain n Hn (Hsa n Hn))
      as ((v & a & Hv & Ha & Hnull & _) & Hm).
    exists v, a. repeat split; try done.
    rewrite (Hkeep n (Hsa n Hn)), Hm. unfold attribute_value.
    by rewrite Hv.
  - intros n Hn Hno. rewrite (Hkeep n Hn). apply Aout.
    intros n' Hd Hn' Hc.
    apply (attribute_column_inj cls schema) in Hc; [|done..].
    by subst.
  - intros n Hn. destruct (Rin n Hn (Hsr n Hn))
      as ((v & r & k & Hv & Hr & Hw & Hdes) & Hm).
    exists v, r, k. repeat split; try done.
    rewrite Hm. unfold relationship_value. by rewrite Hv, Hr, Hdes.
  - intros c Hca' Hcr'. rewrite Rout, Aout; [done|..].
    + intros n _ Hn. by apply Hca'.
    + intros n _ Hn. by apply Hcr'.
Qed.

Hypothesis attributes_writable :
  forall (n : string) (a : Attribute),
    (n, a) ∈ attrs -> ctx_in CREATE (writable_during a) = true.
Hypothesis absent_attributes :
  forall (n : string) (a : Attribute),
    (n, a) ∈ attrs -> dict_mem da n = false ->
    nullable a = true
    \/ is_none (model_getattr m0 (attribute_column a)) = false.
Hypothesis relationships_provided :
  forall (n : string) (r : Relationship),
    (n, r) ∈ rels -> dict_mem dr n = true.

Lemma lookup_attrs (n : string) (a : Attribute) :
  (n, a) ∈ attrs <-> dict_lookup attrs n = Some a.
Proof using schema.
  split; [|apply dict_lookup_Some_elem_of].
  apply dict_lookup_elem_of, (attribute_names_distinct cls schema).
Qed.

Lemma lookup_rels (n : string) (r : Relationship) :
  (n, r) ∈ rels <-> dict_lookup rels n = Some r.
Proof using schema.
  split; [|apply dict_lookup_Some_elem_of].
  apply dict_lookup_elem_of, (relationship_names_distinct cls schema).
Qed.

Lemma elem_of_keys_lookup {A} (d : list (string * A)) (n : string) (x : A) :
  dict_lookup d n = Some x -> n ∈ dict_keys d.
Proof using Type.
  intros H. apply elem_of_dict_keys. apply dict_lookup_Some_elem_of in H.
  apply list_elem_of_fmap. by exists (n, x).
Qed.

(** Every foreign key of the record is an integer. *)
Lemma first_foreign_keys (n : string) (r : Relationship) :
  (n, r) ∈ rels ->
  exists k,
    model_getattr model (relationship_column r) = PInt k
    /\ ctx_in CREATE (writable_during r) = true.
Proof using set_iter_permutation schema first relationships_provided.
  intros Hin. destruct first_record as (_ & _ & _ & _ & Fr & _).
  pose proof (relationships_provided n r Hin) as Hmem.
  apply dict_mem_elem_of, elem_of_dict_keys in Hmem.
  destruct (Fr n Hmem) as (v & r' & k & _ & Hr' & Hw & _ & Hm).
  apply lookup_rels in Hin. rewrite Hin in Hr'. injection Hr' as <-.
  exists k. split; [|done]. unfold model_getattr.
  unfold relationship_column_of in Hm. rewrite Hin in Hm. by rewrite Hm.
Qed.

(** The linkage that [serialize] writes passes the checks of
    [deserialize] and gives the foreign key back. *)
Lemma linkage_round_trip (r : Relationship) (resource_id : pyval)
    (link_prefix : string) (k : Z) :
  is_ToOne r = true ->
  ctx_in CREATE (writable_during r) = true ->
  model_getattr model (relationship_column r) = PInt k ->
  check_relationship CREATE "Cannot write to field" r
    (linkage_of r model resource_id link_prefix) = Ok tt
  /\ ToOne_deserialize r (linkage_of r model resource_id link_prefix)
     = Ok (PInt k).
Proof using Type.
  intros Hto Hw Hk.
  unfold check_relationship, ToOne_deserialize, linkage_of.
  rewrite Hto, Hw, Hk. cbn -[py_str py_int].
  rewrite String.eqb_refl. cbn -[py_str py_int].
  split; [done|]. by rewrite py_int_py_str.
Qed.

Lemma round_trip_record (link_prefix : string) :
  exists model',
    round_trip set_iter cls doc link_prefix = Ok model'
    /\ forall c, model_getattr model' c = model_getattr model c.
Proof using set_iter_permutation schema first attributes_writable
  absent_attributes relationships_provided.
  destruct first_record as (Hsa & Hsr & Fa & Fo & Fr & Fc).
  assert (Hinst : _instantiable cls = true).
  { pose proof first as H. unfold deserialize, Resource_init in H.
    by destruct (_instantiable cls). }
  destruct (serialize_members model link_prefix)
    as (d & rid & Hser & Htype & Ha & Hr & Hda & Hdr).
  { intros n r Hin. destruct (first_foreign_keys n r Hin) as (k & -> & _).
    done. }
  unfold round_trip. rewrite first. cbn [bind]. rewrite Hser. cbn [bind].
  rewrite (deserialize_of_members set_iter cls d Hinst Htype Ha Hr).
  rewrite Hda, Hdr. clear Hser Htype Ha Hr Hda Hdr d.
  set (da' := map (fun '(n, a) =>
                     (n, model_getattr model (attribute_column a))) attrs).
  set (dr' := map (fun '(n, r) => (n, linkage_of r model rid link_prefix))
                  rels).
  assert (Hka : forall n, n ∈ dict_keys da' <-> n ∈ dict_keys attrs).
  { intros n. unfold dict_keys, da'. by rewrite map_fst_map. }
  assert (Hkr : forall n, n ∈ dict_keys dr' <-> n ∈ dict_keys rels).
  { intros n. unfold dict_keys, dr'. by rewrite map_fst_map. }
  assert (Hla : forall n a, dict_lookup attrs n = Some a ->
                  dict_lookup da' n
                  = Some (model_getattr model (acol n))).
  { intros n a Hn. unfold da'.
    rewrite (dict_lookup_map (fun a => model_getattr model
                                         (attribute_column a))), Hn.
    unfold attribute_column_of. by rewrite Hn. }
  assert (Hlr : forall n r, dict_lookup rels n = Some r ->
                  dict_lookup dr' n
                  = Some (linkage_of r model rid link_prefix)).
  { intros n r Hn. unfold dr'.
    by rewrite (dict_lookup_map (fun r => linkage_of r model rid
                                            link_prefix)), Hn. }
  rewrite check_attribute_keys_same by (unfold da'; apply map_fst_map).
  cbn [bind].
  destruct (write_attributes_ok da' m0) as [m1' Hwa'].
  { intros n _ Hn. destruct (dict_keys_lookup _ _ Hn) as [a Hf].
    exists (model_getattr model (acol n)), a.
    repeat split; [by apply (Hla n a)|done| |].
    - destruct (dict_mem da n) eqn:Hmem.
      + apply dict_mem_elem_of, elem_of_dict_keys in Hmem.
        destruct (Fa n Hmem) as (v & a' & _ & Ha' & Hnull & Hm).
        rewrite Hf in Ha'. injection Ha' as <-.
        unfold model_getattr. by rewrite Hm.
      + assert (Hno : n ∉ dict_keys da).
        { intros Hc. apply elem_of_dict_keys, dict_mem_elem_of in Hc.
          congruence. }
        destruct (absent_attributes n a ltac:(by apply lookup_attrs) Hmem)
          as [?|Hnn]; [by right|left].
        unfold model_getattr. rewrite (Fo n Hn Hno).
        unfold attribute_column_of. by rewrite Hf.
    - apply (attributes_writable n). by apply lookup_attrs. }
  rewrite Hwa'. cbn [bind].
  rewrite check_relationship_keys_same by (unfold dr'; apply map_fst_map).
  cbn [bind].
  assert (Hlink : forall n r, dict_lookup rels n = Some r ->
            exists k,
              model !! rcol n = Some (PInt k)
              /\ check_relationship CREATE "Cannot write to field" r
                   (linkage_of r model rid link_prefix) = Ok tt
              /\ ToOne_deserialize r (linkage_of r model rid link_prefix)
                 = Ok (PInt k)).
  { intros n r Hn.
    destruct (relationship_lookup cls schema n r Hn) as (Hto & _ & _).
    destruct (first_foreign_keys n r ltac:(by apply lookup_rels))
      as (k & Hk & Hw).
    exists k. split.
    - pose proof (relationships_provided n r ltac:(by apply lookup_rels))
        as Hmem.
      apply dict_mem_elem_of, elem_of_dict_keys in Hmem.
      destruct (Fr n Hmem) as (_ & r' & k' & _ & Hr' & _ & _ & Hm).
      rewrite Hn in Hr'. injection Hr' as <-.
      rewrite Hm. f_equal. unfold model_getattr in Hk.
      unfold relationship_column_of in Hm. rewrite Hn in Hm.
      rewrite Hm in Hk. exact Hk.
    - by apply linkage_round_trip. }
  destruct (write_relationships_ok dr' m1') as [model' Hwr'].
  { intros n _ Hn. destruct (dict_keys_lookup _ _ Hn) as [r Hf].
    destruct (Hlink n r Hf) as (k & _ & Hchk & Hdes).
    exists (linkage_of r model rid link_prefix), r, k.
    repeat split; try done. by apply (Hlr n r). }
  exists model'. split; [exact Hwr'|].
  destruct (write_attributes_inv _ _ _ Hwa') as [Ain' Aout'].
  destruct (write_relationships_inv _ _ _ Hwr') as [Rin' Rout'].
  intros c.
  destruct (decide (c ∈ map rcol (dict_keys rels))) as [Hc|Hc].
  { apply list_elem_of_fmap in Hc as (n & -> & Hn).
    destruct (dict_keys_lookup _ _ Hn) as [r Hf].
    destruct (Hlink n r Hf) as (k & Hm & _ & Hdes).
    destruct (Rin' n ltac:(by apply Hkr) Hn) as [_ Hm'].
    unfold model_getattr. rewrite Hm, Hm'.
    unfold relationship_value. by rewrite (Hlr n r Hf), Hf, Hdes. }
  assert (Hrc : forall n, n ∈ dict_keys rels -> rcol n <> c).
  { intros n Hn Heq. apply Hc. apply list_elem_of_fmap. by exists n. }
  assert (Hm1 : model' !! c = m1' !! c).
  { apply Rout'. intros n _ Hn. by apply Hrc. }
  destruct (decide (c ∈ map acol (dict_keys attrs))) as [Hd|Hd].
  { apply list_elem_of_fmap in Hd as (n & -> & Hn).
    destruct (dict_keys_lookup _ _ Hn) as [a Hf].
    destruct (Ain' n ltac:(by apply Hka) Hn) as [_ Hm'].
    unfold model_getattr at 1. rewrite Hm1, Hm'.
    unfold attribute_value. by rewrite (Hla n a Hf). }
  assert (Hac : forall n, n ∈ dict_keys attrs -> acol n <> c).
  { intros n Hn Heq. apply Hd. apply list_elem_of_fmap. by exists n. }
  unfold model_getattr. rewrite Hm1, Aout', (Fc c Hac Hrc); [done|].
  intros n _ Hn. by apply Hac.
Qed.

End RoundTrip.

(** C1, as the code has it. Take a schema whose fields have the accessors
    derived from their mapped names, each on a column of its own, and a
    document that [deserialize] accepts. If every attribute of the schema
    is writable on create, every attribute that the document leaves out is
    nullable or has a value in the new record, and the document gives every
    relationship of the schema, then serializing the record and
    deserializing the result succeeds and gives a record with the same
    value in every column: every attribute value and every foreign key of
    the document is read back through the field's getter. *)
Theorem round_trip_preserves_fields
    (set_iter : list string -> list string) (cls : Resource.ResourceClass)
    (doc : Py.pyval) (link_prefix : string) (model : Fields.Model) :
  (forall l, Permutation (set_iter l) l) ->
  Resource.mapped_schema cls ->
  Resource.deserialize set_iter cls doc = Ok model ->
  (forall (n : string) (a : Fields.Attribute),
      (n, a) ∈ Resource._attrs_by_japi_name cls ->
      Fields.ctx_in Fields.CREATE
        (Fields.writable_during (Fields.attr_base a)) = true) ->
  (forall (n : string) (a : Fields.Attribute),
      (n, a) ∈ Resource._attrs_by_japi_name cls ->
      Py.dict_mem (Resource.document_attributes doc) n = false ->
      Fields.nullable (Fields.attr_base a) = true
      \/ Py.is_none (Fields.model_getattr (Resource.model_class cls)
                       (Resource.attribute_column a)) = false) ->
  (forall (n : string) (r : Fields.Relationship),
      (n, r) ∈ Resource._rels_by_japi_name cls ->
      Py.dict_mem (Resource.document_relationships doc) n = true) ->
  exists model',
    Resource.round_trip set_iter cls doc link_prefix = Ok model'
    /\ (forall c, Fields.model_getattr model' c = Fields.model_getattr model c)
    /\ (forall n v a,
          Py.dict_lookup (Resource.document_attributes doc) n = Some v ->
          Py.dict_lookup (Resource._attrs_by_japi_name cls) n = Some a ->
          Fields._fget (Fields.attr_base a) model' = Ok v)
    /\ (forall n v r,
          Py.dict_lookup (Resource.document_relationships doc) n = Some v ->
          Py.dict_lookup (Resource._rels_by_japi_name cls) n = Some r ->
          exists k,
            Fields.ToOne_deserialize r v = Ok (Py.PInt k)
            /\ Fields._fget (Fields.rel_base r) model' = Ok (Py.PInt k)).
Proof.
  intros Hperm Hschema Hfirst Hw Habs Hrels.
  destruct (round_trip_record set_iter Hperm cls Hschema doc model Hfirst
              Hw Habs Hrels link_prefix) as (model' & Hrt & Hsame).
  destruct (first_record set_iter Hperm cls Hschema doc model Hfirst)
    as (_ & _ & Fa & _ & Fr & _).
  exists model'. repeat split; [done..| |].
  - intros n v a Hv Ha.
    destruct (attribute_lookup cls Hschema n a Ha) as [-> _].
    unfold Fields.default_fget. rewrite Hsame.
    destruct (Fa n (elem_of_keys_lookup _ _ _ Hv))
      as (v' & _ & Hv' & _ & _ & Hm).
    rewrite Hv in Hv'. injection Hv' as <-.
    unfold Fields.model_getattr. by rewrite Hm.
  - intros n v r Hv Hr.
    destruct (relationship_lookup cls Hschema n r Hr) as (_ & -> & _).
    unfold Fields.default_fget. rewrite Hsame.
    destruct (Fr n (elem_of_keys_lookup _ _ _ Hv))
      as (v' & r' & k & Hv' & Hr' & _ & Hdes & Hm).
    rewrite Hv in Hv'. injection Hv' as <-.
    rewrite Hr in Hr'. injection Hr' as <-.
    exists k. split; [done|].
    unfold Fields.model_getattr. by rewrite Hm.
Qed.

Ltac distinct_strings :=
  repeat (apply NoDup_cons; split;
          [rewrite ?elem_of_cons, elem_of_nil; intuition discriminate|]);
  apply NoDup_nil_2.

Lemma note_mapped_schema : Resource.mapped_schema Examples.note.
Proof.
  split; cbn.
  - distinct_strings.
  - distinct_strings.
  - intros n a H. repeat (apply elem_of_cons in H as [H|H];
      [injection H as -> ->; by split|]). by apply elem_of_nil in H.
  - intros n r H. repeat (apply elem_of_cons in H as [H|H];
      [injection H as -> ->; by repeat split|]). by apply elem_of_nil in H.
  - distinct_strings.
  - by exists "id".
Qed.

Lemma round_trip_preserves_fields_witness :
  exists model',
    Resource.round_trip Examples.in_order Examples.note Examples.note_doc
                        "/api" = Ok model'
    /\ Fields.model_getattr model' "title" = Py.PStr "T"
    /\ Fields.model_getattr model' "author_id" = Py.PInt 9.
Proof.
  destruct (round_trip_preserves_fields Examples.in_order Examples.note
              Examples.note_doc "/api"
              {[ "title" := Py.PStr "T"; "body" := Py.PNone;
                 "author_id" := Py.PInt 9 ]}
              (fun l => Permutation_refl l) note_mapped_schema eq_refl)
    as (model' & Hrt & Hsame & _).
  - intros n a H. cbn in H.
    repeat (apply elem_of_cons in H as [H|H];
            [injection H as -> ->; reflexivity|]).
    by apply elem_of_nil in H.
  - intros n a H. cbn in H.
    repeat (apply elem_of_cons in H as [H|H];
            [injection H as -> ->; discriminate|]).
    by apply elem_of_nil in H.
  - intros n r H. cbn in H.
    repeat (apply elem_of_cons in H as [H|H];
            [injection H as -> ->; reflexivity|]).
    by apply elem_of_nil in H.
  - exists model'. split; [exact Hrt|]. rewrite !Hsame. split; reflexivity.
Defined.

(** C1 as stated fails on a schema with an attribute that only the server
    writes: [deserialize] accepts the document, [serialize] returns the
    attribute with the others, and the second [deserialize] refuses to
    write it. *)
Lemma round_trip_refused_for_read_only_attribute :
  Resource.deserialize Examples.in_order Examples.article
                       Examples.article_doc
  = Ok {[ "title" := Py.PStr "T"; "author_id" := Py.PInt 9 ]}
  /\ Resource.round_trip Examples.in_order Examples.article
                         Examples.article_doc "/api"
     = Fields.raise_Forbidden "Cannot write to field"
  /\ ~ (exists model',
         Resource.round_trip Examples.in_order Examples.article
                             Examples.article_doc "/api" = Ok model').
Proof.
  assert (H : Resource.round_trip Examples.in_order Examples.article
                                  Examples.article_doc "/api"
              = Fields.raise_Forbidden "Cannot write to field")
    by reflexivity.
  split; [reflexivity|]. split; [exact H|].
  intros [model' Hm]. rewrite H in Hm. discriminate.
Qed.

(** ** The metaclass: copies and their independence *)

Section MetaFacts.
Import Py Meta.

Lemma preserves_refl (h : heap) : preserves h h.
Proof. by intros p _. Qed.

Lemma preserves_dom (h h1 : heap) (p : loc) :
  preserves h h1 -> p ∈ dom h -> p ∈ dom h1.
Proof.
  intros H Hp. apply elem_of_dom. rewrite (H p Hp). by apply elem_of_dom.
Qed.

Lemma preserves_trans (h0 h h1 : heap) :
  preserves h0 h -> preserves h h1 -> preserves h0 h1.
Proof.
  intros H0 H1 p Hp. rewrite (H1 p), (H0 p); [done..|].
  by apply (preserves_dom h0 h).
Qed.

Lemma preserves_insert_fresh (h : heap) (p : loc) (o : Obj) :
  p ∉ dom h -> preserves h (<[p := o]> h).
Proof.
  intros Hp q Hq. apply lookup_insert_ne. intros ->. by apply Hp.
Qed.

Lemma lookup_Some_dom (h : heap) (p : loc) (o : Obj) :
  h !! p = Some o -> p ∈ dom h.
Proof. intros H. apply elem_of_dom. by exists o. Qed.

Lemma fresh_not_in (h0 h : heap) :
  preserves h0 h -> fresh (dom h) ∉ dom h0.
Proof.
  intros H Hc. apply (is_fresh (dom h)). by apply (preserves_dom h0 h).
Qed.

Lemma field_copy_preserved (h0 h h1 : heap) (f0 : FieldObj) (l' : loc) :
  preserves h h1 -> field_copy h0 h f0 l' -> field_copy h0 h1 f0 l'.
Proof.
  intros H (lv' & vs & Hl & Hn & Hnv & Hv & Hlv).
  exists lv', vs. split_and!; try done.
  - rewrite (H l'); [done|]. by eapply lookup_Some_dom.
  - rewrite (H lv'); [done|]. by eapply lookup_Some_dom.
Qed.

Lemma memo_lists_preserved (h0 h h1 : heap) (memo : gmap loc loc) :
  preserves h h1 -> memo_lists h0 h memo -> memo_lists h0 h1 memo.
Proof.
  intros H Hm p p' vs Hp Hv. destruct (Hm p p' vs Hp Hv) as [Hn Hl].
  split; [done|]. rewrite (H p'); [done|]. by eapply lookup_Some_dom.
Qed.

Lemma memo_fields_preserved (h0 h h1 : heap) (memo : gmap loc loc) :
  preserves h h1 -> memo_fields h0 h memo -> memo_fields h0 h1 memo.
Proof.
  intros H Hm p p' f0 Hp Hf. by eapply field_copy_preserved, Hm.
Qed.

(** Copying a validator list. *)
Lemma deepcopy_list_spec (h0 h h1 : heap) (memo memo1 : gmap loc loc)
    (lv lv' : loc) (vs : list Fields.Validator) :
  preserves h0 h ->
  memo_lists h0 h memo ->
  h0 !! lv = Some (OList vs) ->
  deepcopy_list h memo lv = Some (h1, memo1, lv') ->
  preserves h h1
  /\ memo_lists h0 h1 memo1
  /\ (lv' ∉ dom h0)
  /\ h1 !! lv' = Some (OList vs)
  /\ (forall p, p <> lv -> memo1 !! p = memo !! p).
Proof.
  intros Hpres Hml Hlv. unfold deepcopy_list.
  destruct (memo !! lv) as [x|] eqn:Hmemo.
  - intros [= <- <- <-]. destruct (Hml lv x vs Hmemo Hlv) as [Hn Hx].
    split_and!; try done.
  - rewrite (Hpres lv) by (by eapply lookup_Some_dom). rewrite Hlv.
    intros [= <- <- <-].
    assert (Hfresh : fresh (dom h) ∉ dom h) by apply is_fresh.
    assert (Hp1 : preserves h (<[fresh (dom h) := OList vs]> h))
      by (by apply preserves_insert_fresh).
    split_and!.
    + done.
    + intros p p' ws Hp Hw.
      destruct (decide (p = lv)) as [->|Hne].
      * rewrite lookup_insert_eq in Hp. injection Hp as <-.
        rewrite Hlv in Hw. injection Hw as <-.
        split; [by apply fresh_not_in|]. apply lookup_insert_eq.
      * rewrite lookup_insert_ne in Hp by done.
        by apply (memo_lists_preserved h0 h _ memo Hp1 Hml p p' ws).
    + by apply fresh_not_in.
    + apply lookup_insert_eq.
    + intros p Hne. by apply lookup_insert_ne.
Qed.

(** Copying a field. *)
Lemma deepcopy_field_spec (h0 h h1 : heap) (memo memo1 : gmap loc loc)
    (l l' : loc) (f0 : FieldObj) (vs : list Fields.Validator) :
  preserves h0 h ->
  memo_lists h0 h memo ->
  memo_fields h0 h memo ->
  h0 !! l = Some (OField f0) ->
  h0 !! _fvalidators f0 = Some (OList vs) ->
  deepcopy_field h memo l = Some (h1, memo1, l') ->
  preserves h h1
  /\ memo_lists h0 h1 memo1
  /\ memo_fields h0 h1 memo1
  /\ field_copy h0 h1 f0 l'.
Proof.
  intros Hpres Hml Hmf Hl Hv. unfold deepcopy_field.
  destruct (memo !! l) as [x|] eqn:Hmemo.
  - intros [= <- <- <-]. split_and!; try done.
    by apply (Hmf l x f0).
  - rewrite (Hpres l) by (by eapply lookup_Some_dom). rewrite Hl.
    set (n := fresh (dom h)).
    assert (Hfresh : n ∉ dom h) by apply is_fresh.
    assert (Hn0 : n ∉ dom h0) by (by apply fresh_not_in).
    assert (Hpa : preserves h (<[n := OField f0]> h))
      by (by apply preserves_insert_fresh).
    destruct (deepcopy_list (<[n := OField f0]> h) (<[l := n]> memo)
                            (_fvalidators f0))
      as [[[h2 memo2] lv']|] eqn:Hdl; [|discriminate].
    intros [= <- <- <-].
    assert (Hmla : memo_lists h0 (<[n := OField f0]> h) (<[l := n]> memo)).
    { intros p p' ws Hp Hw. destruct (decide (p = l)) as [->|Hne].
      - rewrite Hl in Hw. discriminate.
      - rewrite lookup_insert_ne in Hp by done.
        by apply (memo_lists_preserved h0 h _ memo Hpa Hml p p' ws). }
    destruct (deepcopy_list_spec h0 _ h2 _ memo2 _ lv' vs
                (preserves_trans _ _ _ Hpres Hpa) Hmla Hv Hdl)
      as (Hp2 & Hml2 & Hlv0 & Hlv2 & Hsame).
    assert (Hn2 : h2 !! n = Some (OField f0)).
    { rewrite (Hp2 n); [apply lookup_insert_eq|].
      eapply lookup_Some_dom. apply lookup_insert_eq. }
    assert (Hne : lv' <> n) by (intros ->; congruence).
    assert (Hfin : forall p, p <> n ->
                     (<[n := OField (set_fvalidators f0 lv')]> h2) !! p
                     = h2 !! p)
      by (intros p Hp; by apply lookup_insert_ne).
    assert (Hcopy : field_copy h0
                      (<[n := OField (set_fvalidators f0 lv')]> h2) f0 n).
    { exists lv', vs. split_and!; try done.
      - apply lookup_insert_eq.
      - by rewrite Hfin. }
    split_and!.
    + intros p Hp. rewrite Hfin by (intros ->; by apply Hfresh).
      rewrite (Hp2 p); [by apply Hpa|]. by apply (preserves_dom h).
    + intros p p' ws Hp Hw. destruct (Hml2 p p' ws Hp Hw) as [Hp0 Hp'].
      split; [done|]. rewrite Hfin; [done|]. intros ->. congruence.
    + intros p p' g0 Hp Hg.
      destruct (decide (p = l)) as [->|Hpl].
      * rewrite Hl in Hg. injection Hg as <-.
        assert (Hlv : l <> _fvalidators f0) by (intros E; congruence).
        rewrite (Hsame l Hlv), lookup_insert_eq in Hp.
        by injection Hp as <-.
      * assert (Hpv : p <> _fvalidators f0) by (intros ->; congruence).
        rewrite (Hsame p Hpv), lookup_insert_ne in Hp by done.
        destruct (Hmf p p' g0 Hp Hg) as (lw & ws & Hp' & H1 & H2 & H3 & H4).
        exists lw, ws. split_and!; try done.
        -- rewrite Hfin by (intros ->; apply Hfresh;
                            by eapply lookup_Some_dom).
           rewrite (Hp2 p'); [by rewrite (Hpa p')
                                by (by eapply lookup_Some_dom)|].
           apply (preserves_dom h); [done|]. by eapply lookup_Some_dom.
        -- rewrite Hfin by (intros ->; apply Hfresh;
                            by eapply lookup_Some_dom).
           rewrite (Hp2 lw); [by rewrite (Hpa lw)
                                by (by eapply lookup_Some_dom)|].
           apply (preserves_dom h); [done|]. by eapply lookup_Some_dom.
    + done.
Qed.

(** Copying a dictionary of fields. *)
Lemma deepcopy_items_spec (h0 : heap) (items : list (string * loc)) :
  forall (h h1 : heap) (memo : gmap loc loc) (items' : list (string * loc)),
    preserves h0 h ->
    memo_lists h0 h memo ->
    memo_fields h0 h memo ->
    fields_allocated h0 items ->
    deepcopy_items h memo items = Some (h1, items') ->
    preserves h h1
    /\ forall n l', (n, l') ∈ items' ->
         exists l0 f0,
           (n, l0) ∈ items /\ h0 !! l0 = Some (OField f0)
           /\ field_copy h0 h1 f0 l'.
Proof.
  induction items as [|[k l] rest IH]; intros h h1 memo items' Hp Hml Hmf Hal;
    cbn [deepcopy_items].
  - intros [= <- <-]. split; [apply preserves_refl|].
    intros n l' H. by apply elem_of_nil in H.
  - destruct (deepcopy_field h memo l) as [[[ha memoa] la]|] eqn:Hf;
      [|discriminate].
    destruct (deepcopy_items ha memoa rest) as [[hb rest']|] eqn:Hr;
      [|discriminate].
    intros [= <- <-].
    destruct (Hal k l) as (f0 & vs & Hl & Hv); [left|].
    destruct (deepcopy_field_spec h0 h ha memo memoa l la f0 vs
                Hp Hml Hmf Hl Hv Hf) as (Hpa & Hmla & Hmfa & Hcopy).
    destruct (IH ha hb memoa rest' (preserves_trans _ _ _ Hp Hpa) Hmla Hmfa)
      as [Hpb Hrest]; [|done|].
    { intros n l0 H. apply (Hal n l0). by right. }
    split; [by eapply preserves_trans|].
    intros n l' [[= -> ->]|H]%elem_of_cons.
    + exists l, f0. split_and!; [left|done|].
      by apply (field_copy_preserved h0 ha hb).
    + destruct (Hrest n l' H) as (l0 & g0 & Hin & Hg & Hc).
      exists l0, g0. split_and!; [by right|done..].
Qed.

Lemma deepcopy_dict_spec (h0 h h1 : heap) (d d' : list (string * loc)) :
  preserves h0 h ->
  fields_allocated h0 d ->
  deepcopy_dict h d = Some (h1, d') ->
  preserves h h1
  /\ forall n l', (n, l') ∈ d' ->
       exists l0 f0,
         (n, l0) ∈ d /\ h0 !! l0 = Some (OField f0)
         /\ field_copy h0 h1 f0 l'.
Proof.
  intros Hp Hal. apply deepcopy_items_spec; [done| | |done].
  - intros p p' vs H. by rewrite lookup_empty in H.
  - intros p p' f0 H. by rewrite lookup_empty in H.
Qed.

(** The inherited dictionaries. *)
Lemma elem_of_dict_set {A} (d : list (string * A)) (k k' : string)
    (v v' : A) :
  (k', v') ∈ dict_set d k v -> (k', v') = (k, v) \/ (k', v') ∈ d.
Proof.
  induction d as [|[k0 v0] d IH]; cbn [dict_set].
  - intros H%list_elem_of_singleton. by left.
  - destruct (String.eqb k0 k) eqn:E.
    + apply String.eqb_eq in E. subst k0.
      intros [->|H]%elem_of_cons; [by left|]. right. by right.
    + intros [->|H]%elem_of_cons; [right; left|].
      destruct (IH H) as [->|Hin]; [by left|]. right. by right.
Qed.

Lemma elem_of_dict_update {A} (e : list (string * A)) :
  forall (d : list (string * A)) (kv : string * A),
    kv ∈ dict_update d e -> kv ∈ d \/ kv ∈ e.
Proof.
  unfold dict_update.
  induction e as [|[k v] e IH]; intros d [k' v']; cbn [fold_left fst snd].
  - by left.
  - intros H. destruct (IH _ _ H) as [Hd|He].
    + destruct (elem_of_dict_set _ _ _ _ _ Hd) as [->|Hin];
        [right; left|by left].
    + right. by right.
Qed.

Lemma elem_of_inherited (classes : list (string * ClassObj))
    (bases : list string) (proj : ClassObj -> list (string * loc))
    (kv : string * loc) :
  kv ∈ inherited classes bases proj ->
  exists base P,
    base ∈ bases /\ dict_lookup classes base = Some P /\ kv ∈ proj P.
Proof.
  unfold inherited.
  assert (Hgen : forall (bs : list string) (acc : list (string * loc)),
             kv ∈ fold_left
                    (fun acc base =>
                       match dict_lookup classes base with
                       | Some c => dict_update acc (proj c)
                       | None => acc
                       end) bs acc ->
             kv ∈ acc
             \/ exists base P,
                  base ∈ bs /\ dict_lookup classes base = Some P
                  /\ kv ∈ proj P).
  { induction bs as [|b bs IH]; intros acc; cbn [fold_left]; [by left|].
    intros H. destruct (IH _ H) as [Hacc|(base & P & Hb & HP & Hin)].
    - destruct (dict_lookup classes b) as [c|] eqn:Hc; [|by left].
      destruct (elem_of_dict_update _ _ _ Hacc) as [Hd|He]; [by left|].
      right. exists b, c. split_and!; [left|done..].
    - right. exists base, P. split_and!; [by right|done..]. }
  intros H. destruct (Hgen _ _ H) as [Hnil|(base & P & Hb & HP & Hin)].
  - by apply elem_of_nil in Hnil.
  - exists base, P. split_and!; [|done..].
    apply list_elem_of_In, in_rev. by apply list_elem_of_In.
Qed.

(** The loop over the class body. *)
Lemma rebinds_refl (attrs : list (string * Member)) (h : heap) :
  rebinds attrs h h.
Proof. split_and!; [done..|]. intros p f H. by exists f. Qed.

Lemma rebinds_trans (attrs : list (string * Member)) (h1 h2 h3 : heap) :
  rebinds attrs h1 h2 -> rebinds attrs h2 h3 -> rebinds attrs h1 h3.
Proof.
  intros (Ha & Hb & Hc) (Ha' & Hb' & Hc'). split_and!.
  - intros p Hp. by rewrite Ha', Ha.
  - intros p vs H. by apply Hb', Hb.
  - intros p f H. destruct (Hc p f H) as (f' & H' & E).
    destruct (Hc' p f' H') as (f'' & H'' & E').
    exists f''. split; [done|]. by rewrite E'.
Qed.

Lemma rebinds_insert (attrs : list (string * Member)) (h : heap)
    (n : string) (l : loc) (f f' : FieldObj) :
  (n, MField l) ∈ attrs ->
  h !! l = Some (OField f) ->
  _fvalidators f' = _fvalidators f ->
  rebinds attrs h (<[l := OField f']> h).
Proof.
  intros Hin Hl E. split_and!.
  - intros p Hp. apply lookup_insert_ne. intros <-. apply Hp. by exists n.
  - intros p vs H. rewrite lookup_insert_ne; [done|]. intros <-. congruence.
  - intros p g H. destruct (decide (p = l)) as [->|Hne].
    + rewrite lookup_insert_eq. exists f'. split; [done|]. congruence.
    + rewrite lookup_insert_ne by done. by exists g.
Qed.

Lemma bind_accessors_fvalidators (f f' : FieldObj) (fallback : string) :
  bind_accessors f fallback = Some f' -> _fvalidators f' = _fvalidators f.
Proof.
  unfold bind_accessors.
  destruct (_fget f); [destruct (falsy _); [by intros [= <-]|done]|].
  destruct (_fset f); [done|]. by intros [= <-].
Qed.

Lemma binds_refl (attrs : list (string * Member)) (st : binding_state) :
  binds attrs st st.
Proof. split_and!; [apply rebinds_refl|intros kv H; by left..]. Qed.

Lemma binds_trans (attrs : list (string * Member))
    (st1 st2 st3 : binding_state) :
  binds attrs st1 st2 -> binds attrs st2 st3 -> binds attrs st1 st3.
Proof.
  intros (Hh & Ha & Hr) (Hh' & Ha' & Hr'). split_and!.
  - by eapply rebinds_trans.
  - intros kv H. destruct (Ha' kv H) as [H2|Hd]; [by apply Ha|by right].
  - intros kv H. destruct (Hr' kv H) as [H2|Hd]; [by apply Hr|by right].
Qed.

Lemma bind_member_binds (attrs : list (string * Member)) (cls : string)
    (st st' : binding_state) (item : string * Member) :
  item ∈ attrs ->
  bind_member cls st item = Some st' ->
  binds attrs st st'.
Proof.
  destruct item as [python_name [l| |s|]]; cbn [bind_member]; intros Hin;
    try (intros [= <-]; apply binds_refl).
  destruct (bs_heap st !! l) as [[f|vs]|] eqn:Hl; [|discriminate..].
  assert (Hdecl : declared attrs l) by (by exists python_name).
  assert (Hset : forall (d : list (string * loc)) (k : string)
                        (kv : string * loc),
             kv ∈ dict_set d k l -> kv ∈ d \/ declared attrs kv.2).
  { intros d k [k' v'] [[= -> ->]|H]%elem_of_dict_set; [by right|by left]. }
  destruct (field_class (set_python_name f python_name)).
  - destruct (bind_accessors _ python_name) as [f'|] eqn:Hacc; [|discriminate].
    intros [= <-]. apply bind_accessors_fvalidators in Hacc.
    split_and!; cbn [bs_heap bs_attrs bs_rels].
    + eapply rebinds_insert; [done..|]. rewrite Hacc. cbn.
      by destruct (falsy _).
    + apply Hset.
    + intros kv H. by left.
  - intros [= <-]. split_and!; cbn [bs_heap bs_attrs bs_rels].
    + eapply rebinds_insert; [done..|]. cbn. by destruct (falsy _).
    + intros kv H. by left.
    + apply Hset.
  - intros [= <-]. split_and!; cbn [bs_heap bs_attrs bs_rels].
    + eapply rebinds_insert; [done..|]. cbn. by destruct (falsy _).
    + intros kv H. by left.
    + apply Hset.
  - destruct (bind_accessors _ "id") as [f'|] eqn:Hacc; [|discriminate].
    intros [= <-]. apply bind_accessors_fvalidators in Hacc.
    split_and!; cbn [bs_heap bs_attrs bs_rels].
    + eapply rebinds_insert; [done..|]. by rewrite Hacc.
    + intros kv H. by left.
    + intros kv H. by left.
Qed.

Lemma bind_members_binds (attrs : list (string * Member)) (cls : string)
    (items : list (string * Member)) :
  forall st st' : binding_state,
    (forall item, item ∈ items -> item ∈ attrs) ->
    bind_members cls st items = Some st' ->
    binds attrs st st'.
Proof.
  induction items as [|item rest IH]; intros st st' Hsub;
    cbn [bind_members].
  - intros [= <-]. apply binds_refl.
  - destruct (bind_member cls st item) as [st1|] eqn:H1; [|discriminate].
    intros H. apply (binds_trans attrs st st1 st').
    + eapply bind_member_binds; [|done]. apply Hsub. left.
    + apply IH; [|done]. intros it Hit. apply Hsub. by right.
Qed.

(** Reading a descriptor after a write elsewhere. *)
Lemma descriptor_insert_ne (h : heap) (p l : loc) (o : Obj) :
  p <> l ->
  (forall f, h !! l = Some (OField f) -> p <> _fvalidators f) ->
  descriptor (<[p := o]> h) l = descriptor h l.
Proof.
  intros Hne Hv. unfold descriptor. rewrite lookup_insert_ne by done.
  destruct (h !! l) as [[f|vs]|] eqn:Hl; [|done..].
  by rewrite lookup_insert_ne by (by apply Hv).
Qed.

Lemma descriptor_Some (h : heap) (l : loc) (f : FieldObj)
    (vs : list Fields.Validator) :
  descriptor h l = Some (f, vs) <->
  h !! l = Some (OField f) /\ h !! _fvalidators f = Some (OList vs).
Proof.
  unfold descriptor. split.
  - destruct (h !! l) as [[g|?]|]; [|done..].
    destruct (h !! _fvalidators g) as [[?|ws]|] eqn:E; [done| |done].
    intros [= <- <-]. by rewrite E.
  - intros [-> ->]. done.
Qed.

Lemma same_state_copy (f0 : FieldObj) (lv : loc) :
  same_state (set_fvalidators f0 lv) f0.
Proof. by destruct f0. Qed.

(** A field of a registered class, after another registration: the same
    object, with the same validator list. *)
Lemma old_descriptor (attrs : list (string * Member)) (h h2 h' : heap)
    (l : loc) :
  preserves h h2 ->
  rebinds attrs h2 h' ->
  is_Some (descriptor h l) ->
  exists f f' vs,
    h !! l = Some (OField f)
    /\ h !! _fvalidators f = Some (OList vs)
    /\ h' !! l = Some (OField f')
    /\ _fvalidators f' = _fvalidators f
    /\ h' !! _fvalidators f = Some (OList vs).
Proof.
  intros Hp (_ & Hlists & Hfields) [[f vs] [Hl Hv]%descriptor_Some].
  assert (Hl2 : h2 !! l = Some (OField f))
    by (rewrite (Hp l); [done|by eapply lookup_Some_dom]).
  assert (Hv2 : h2 !! _fvalidators f = Some (OList vs))
    by (rewrite (Hp (_fvalidators f)); [done|by eapply lookup_Some_dom]).
  destruct (Hfields l f Hl2) as (f' & Hl' & E).
  exists f, f', vs. split_and!; try done. by apply Hlists.
Qed.

(** What a registration does: it copies the inherited fields into new
    objects, and then binds the fields of the class body. *)
Lemma ResourceMeta_init_inv (h h' : heap) (classes : list (string * ClassObj))
    (cls : string) (bases : list string) (attrs : list (string * Member))
    (C : ClassObj) :
  heap_closed h classes ->
  ResourceMeta_init h classes cls bases attrs = Some (h', C) ->
  exists h2,
    preserves h h2
    /\ rebinds attrs h2 h'
    /\ forall n l, (n, l) ∈ fields_of C ->
         declared attrs l
         \/ exists base P l0 f0,
              base ∈ bases /\ dict_lookup classes base = Some P
              /\ (n, l0) ∈ fields_of P /\ h !! l0 = Some (OField f0)
              /\ field_copy h h2 f0 l.
Proof.
  intros Hclosed. unfold ResourceMeta_init.
  assert (Hal : forall proj,
             (forall P kv, kv ∈ proj P -> kv ∈ fields_of P) ->
             fields_allocated h (inherited classes bases proj)).
  { intros proj Hproj n l (base & P & Hb & HP & Hin)%elem_of_inherited.
    apply dict_lookup_Some_elem_of in HP.
    destruct (Hclosed base P n l HP (Hproj _ _ Hin))
      as [[f vs] [Hl Hv]%descriptor_Some].
    by exists f, vs. }
  assert (Hproj_a : forall P kv,
             kv ∈ _attrs_by_japi_name P -> kv ∈ fields_of P)
    by (intros P kv H; apply elem_of_app; by left).
  assert (Hproj_r : forall P kv,
             kv ∈ _rels_by_japi_name P -> kv ∈ fields_of P)
    by (intros P kv H; apply elem_of_app; by right).
  destruct (deepcopy_dict h (inherited classes bases _attrs_by_japi_name))
    as [[h1 A]|] eqn:HA; [|discriminate].
  destruct (deepcopy_dict h1 (inherited classes bases _rels_by_japi_name))
    as [[h2 R]|] eqn:HR; [|discriminate].
  destruct (bind_members cls _ attrs) as [st|] eqn:Hb; [|discriminate].
  intros [= <- <-].
  destruct (deepcopy_dict_spec h h h1 _ A (preserves_refl h)
              (Hal _ Hproj_a) HA) as [Hp1 HcA].
  destruct (deepcopy_dict_spec h h1 h2 _ R Hp1 (Hal _ Hproj_r) HR)
    as [Hp2 HcR].
  destruct (bind_members_binds attrs cls attrs _ st (fun _ H => H) Hb)
    as (Hh & Ha & Hr). cbn [bs_heap bs_attrs bs_rels] in Hh, Ha, Hr.
  exists h2. split_and!; [by eapply preserves_trans|done|].
  intros n l [Hin|Hin]%elem_of_app; cbn [_attrs_by_japi_name
                                           _rels_by_japi_name] in Hin.
  - destruct (Ha _ Hin) as [HinA|Hd]; [right|by left].
    destruct (HcA n l HinA) as (l0 & f0 & Hin0 & Hl0 & Hcopy).
    apply elem_of_inherited in Hin0 as (base & P & Hbase & HP & HinP).
    exists base, P, l0, f0. split_and!; try done; [by apply Hproj_a|].
    by apply (field_copy_preserved h h1 h2).
  - destruct (Hr _ Hin) as [HinR|Hd]; [right|by left].
    destruct (HcR n l HinR) as (l0 & f0 & Hin0 & Hl0 & Hcopy).
    apply elem_of_inherited in Hin0 as (base & P & Hbase & HP & HinP).
    exists base, P, l0, f0. split_and!; try done. by apply Hproj_r.
Qed.

(** Registration keeps the heap closed: the hypothesis of the theorems on a
    registration holds again for the next one. *)
Lemma ResourceMeta_init_closed (h h' : heap)
    (classes : list (string * ClassObj)) (cls : string)
    (bases : list string) (attrs : list (string * Member)) (C : ClassObj) :
  heap_closed h classes ->
  (forall l, declared attrs l -> is_Some (descriptor h l)) ->
  ResourceMeta_init h classes cls bases attrs = Some (h', C) ->
  heap_closed h' (classes ++ [(cls, C)]).
Proof.
  intros Hclosed Hdecl Hinit.
  destruct (ResourceMeta_init_inv _ _ _ _ _ _ _ Hclosed Hinit)
    as (h2 & Hp & Hh & Hfields).
  assert (Hold : forall l, is_Some (descriptor h l) ->
                           is_Some (descriptor h' l)).
  { intros l H.
    destruct (old_descriptor attrs h h2 h' l Hp Hh H)
      as (f & f' & vs & _ & _ & Hl' & E & Hv').
    exists (f', vs). apply descriptor_Some. by rewrite E. }
  intros cn Q n l [HQ|HQ%list_elem_of_singleton]%elem_of_app Hin.
  - apply Hold. by apply (Hclosed cn Q n l).
  - injection HQ as -> ->.
    destruct (Hfields n l Hin)
      as [Hd|(base & P & l0 & f0 & _ & _ & _ & _ & Hcopy)];
      [by apply Hold, Hdecl|].
    destruct Hcopy as (lv' & vs & Hl & _ & _ & _ & Hlv).
    destruct Hh as (_ & Hlists & Hflds).
    destruct (Hflds l _ Hl) as (f' & Hl' & E).
    exists (f', vs). apply descriptor_Some. split; [done|].
    rewrite E. cbn. by apply Hlists.
Qed.

End MetaFacts.

(** A field that a class built by the metaclass holds in its field maps
    without declaring it in its own body is a copy of a field of one of its
    bases under the same name: a new object with the state of the base's
    field and a new validator list with the same elements. A write to the
    copy or to its validator list changes no field map and no descriptor of
    any class registered before (the parents and the siblings), and a write
    to an object that such a class reaches does not change the copy. The
    heap is closed for the registered classes, and the fields of the class
    body exist when the class is built. *)
Theorem inherited_fields_are_independent_copies
    (h h' : Meta.heap) (classes : list (string * Meta.ClassObj))
    (cls : string) (bases : list string)
    (attrs : list (string * Meta.Member)) (C : Meta.ClassObj)
    (n : string) (l : Meta.loc) :
  Meta.heap_closed h classes ->
  (forall p, Meta.declared attrs p -> p ∈ dom h) ->
  Meta.ResourceMeta_init h classes cls bases attrs = Some (h', C) ->
  (n, l) ∈ Meta.fields_of C ->
  ~ Meta.declared attrs l ->
  exists f vs,
    Meta.descriptor h' l = Some (f, vs)
    /\ (l ∉ dom h)
    /\ (Meta._fvalidators f ∉ dom h)
    /\ (exists base P l0 f0,
          base ∈ bases
          /\ Py.dict_lookup classes base = Some P
          /\ (n, l0) ∈ Meta.fields_of P
          /\ Meta.descriptor h l0 = Some (f0, vs)
          /\ Meta.same_state f f0)
    /\ (forall cn Q p o,
          (cn, Q) ∈ classes ->
          p = l \/ p = Meta._fvalidators f ->
          Meta.class_view (<[p := o]> h') Q = Meta.class_view h' Q)
    /\ (forall cn Q p o,
          (cn, Q) ∈ classes ->
          Meta.reaches h' Q p ->
          Meta.descriptor (<[p := o]> h') l = Meta.descriptor h' l).
Proof.
  intros Hclosed Hdom Hinit Hin Hnd.
  destruct (ResourceMeta_init_inv _ _ _ _ _ _ _ Hclosed Hinit)
    as (h2 & Hp & Hh & Hfields).
  destruct (Hfields n l Hin)
    as [Hd|(base & P & l0 & f0 & Hbase & HP & HinP & Hl0 & Hcopy)];
    [done|].
  destruct Hcopy as (lv & vs & Hl & Hlfresh & Hlvfresh & Hv0 & Hlv).
  assert (Hlv_nd : ~ Meta.declared attrs lv)
    by (intros Hd; by apply Hlvfresh, Hdom).
  pose proof Hh as (Hsame & _ & _).
  assert (Hl' : h' !! l = Some (Meta.OField (Meta.set_fvalidators f0 lv)))
    by (by rewrite (Hsame l Hnd)).
  assert (Hlv' : h' !! lv = Some (Meta.OList vs))
    by (by rewrite (Hsame lv Hlv_nd)).
  assert (Hold : forall cn Q n1 l1,
             (cn, Q) ∈ classes -> (n1, l1) ∈ Meta.fields_of Q ->
             l1 ∈ dom h
             /\ forall g, h' !! l1 = Some (Meta.OField g) ->
                          Meta._fvalidators g ∈ dom h).
  { intros cn Q n1 l1 HQ H1.
    destruct (old_descriptor attrs h h2 h' l1 Hp Hh
                (Hclosed cn Q n1 l1 HQ H1))
      as (f1 & f1' & ws & Hf1 & Hw & Hf1' & E & _).
    split; [by eapply lookup_Some_dom|].
    intros g Hg. rewrite Hf1' in Hg. injection Hg as <-. rewrite E.
    by eapply lookup_Some_dom. }
  exists (Meta.set_fvalidators f0 lv), vs. split_and!.
  - apply descriptor_Some. by split.
  - done.
  - done.
  - exists base, P, l0, f0. split_and!; try done.
    + by apply descriptor_Some.
    + apply same_state_copy.
  - intros cn Q p o HQ Hpl. unfold Meta.class_view.
    apply map_ext_in. intros [n1 l1] H1%list_elem_of_In.
    destruct (Hold cn Q n1 l1 HQ H1) as [Hl1 Hg].
    assert (Hfresh : p ∉ dom h) by (by destruct Hpl as [->| ->]).
    rewrite descriptor_insert_ne; [done| |].
    + intros ->. by apply Hfresh.
    + intros g Hgl ->. by apply Hfresh, Hg.
  - intros cn Q p o HQ (n1 & l1 & H1 & Hreach).
    destruct (Hold cn Q n1 l1 HQ H1) as [Hl1 Hg].
    assert (Hpdom : p ∈ dom h).
    { destruct Hreach as [->|(g & Hgl & ->)]; [done|by apply Hg]. }
    apply descriptor_insert_ne.
    + intros ->. by apply Hlfresh.
    + intros g Hgl ->. rewrite Hl' in Hgl. injection Hgl as <-.
      by apply Hlvfresh.
Qed.

(** The title of [Child] is a copy of the title of [Parent], and a write to
    it leaves [Parent] as it is. *)
Lemma inherited_fields_are_independent_copies_witness :
  exists f vs,
    Meta.descriptor MetaExamples.child_heap 6%positive = Some (f, vs)
    /\ (6%positive ∉ dom MetaExamples.parent_heap)
    /\ Meta.descriptor MetaExamples.parent_heap 2%positive
       = Some (Meta.set_fvalidators f 1%positive, vs)
    /\ forall o,
         Meta.class_view (<[6%positive := o]> MetaExamples.child_heap)
                         MetaExamples.Parent
         = Meta.class_view MetaExamples.child_heap MetaExamples.Parent.
Proof.
  destruct (inherited_fields_are_independent_copies
              MetaExamples.parent_heap MetaExamples.child_heap
              [("Parent", MetaExamples.Parent)] "Child" ["Parent"]
              MetaExamples.child_body MetaExamples.Child
              "title" 6%positive)
    as (f & vs & Hd & Hfresh & _ & _ & Hview & _).
  - intros cn Q n l HQ%list_elem_of_singleton. injection HQ as -> ->.
    intros Hin. vm_compute in Hin. apply list_elem_of_In in Hin.
    destruct Hin as [[= <- <-]|[[= <- <-]|[]]]; vm_compute; by eexists.
  - intros p [n Hn%list_elem_of_singleton]. injection Hn as -> ->.
    by vm_compute.
  - vm_compute. reflexivity.
  - vm_compute. apply list_elem_of_In. left. reflexivity.
  - intros [n Hn%list_elem_of_singleton]. discriminate.
  - exists f, vs. split_and!; [done..| |].
    + vm_compute in Hd. injection Hd as <- <-. by vm_compute.
    + intros o. apply (Hview "Parent" MetaExamples.Parent); by left.
Defined.

(** C9 fails on the code. [Child] inherits [title] from [Parent] and
    declares [summary]. Attribute lookup on [Child] finds [title] in the
    namespace of [Parent]: it is the field object of [Parent], not the copy
    that the field map of [Child] holds, so [Child.title.nullable = True]
    changes the descriptor of [Parent] and leaves the field map of [Child]
    as it was. And [summary] keeps the default list of [fvalidators], as the
    [title] of [Parent] does: a validator appended to the validators of
    [Child.summary] is a validator of the [title] of [Parent]. *)
Theorem inherited_attribute_is_the_parents_object :
  Meta.class_field MetaExamples.classes "Child" "title" = Some 2%positive
  /\ Py.dict_lookup (Meta._attrs_by_japi_name MetaExamples.Parent) "title"
     = Some 2%positive
  /\ Py.dict_lookup (Meta._attrs_by_japi_name MetaExamples.Child) "title"
     = Some 6%positive
  /\ Meta.assign_nullable MetaExamples.child_heap MetaExamples.classes
                          "Child" "title" true
     = Some MetaExamples.child_heap_title_nullable
  /\ option_map (fun d => Meta.nullable (fst d))
                (Meta.descriptor MetaExamples.child_heap 2%positive)
     = Some false
  /\ option_map (fun d => Meta.nullable (fst d))
                (Meta.descriptor MetaExamples.child_heap_title_nullable
                                 2%positive)
     = Some true
  /\ Meta.class_view MetaExamples.child_heap_title_nullable
                     MetaExamples.Parent
     <> Meta.class_view MetaExamples.child_heap MetaExamples.Parent
  /\ Meta.class_view MetaExamples.child_heap_title_nullable
                     MetaExamples.Child
     = Meta.class_view MetaExamples.child_heap MetaExamples.Child
  /\ Py.dict_lookup (Meta._attrs_by_japi_name MetaExamples.Child) "summary"
     = Some 5%positive
  /\ Meta.append_validator MetaExamples.child_heap 5%positive
                           Examples.title_not_empty
     = Some MetaExamples.child_heap_summary_validated
  /\ option_map snd (Meta.descriptor MetaExamples.child_heap 2%positive)
     = Some []
  /\ option_map snd
       (Meta.descriptor MetaExamples.child_heap_summary_validated 2%positive)
     = Some [Examples.title_not_empty]
  /\ Meta.class_view MetaExamples.child_heap_summary_validated
                     MetaExamples.Parent
     <> Meta.class_view MetaExamples.child_heap MetaExamples.Parent.
Proof.
  split_and!; try (vm_compute; reflexivity).
  - intros H.
    apply (f_equal (map (fun x => option_map (fun d => Meta.nullable (fst d))
                                             (snd x)))) in H.
    vm_compute in H. discriminate.
  - intros H.
    apply (f_equal (map (fun x => option_map (fun d => length (snd d))
                                             (snd x)))) in H.
    vm_compute in H. discriminate.
Qed.

(** * More properties of the code *)

(** ** More on the splitter *)

Section SplitterJoin.
Import Splitter.

(** A character that is neither the separator nor the escape. *)
Lemma scan_plain (keep : bool) (t : list ascii) :
  forall cs tok acc,
    Forall (fun c => c <> comma /\ c <> backslash) t ->
    scan keep (t ++ cs) false tok acc = scan keep cs false (tok ++ t) acc.
Proof.
  induction t as [|c t IH]; intros cs tok acc Ht.
  - by rewrite app_nil_r.
  - apply Forall_cons in Ht as [[Hc Hb] Ht]. cbn [app scan].
    apply Ascii.eqb_neq in Hc, Hb. rewrite Hb, Hc.
    rewrite IH by done. by rewrite <- app_assoc.
Qed.

Lemma scan_join (ts : list string) :
  forall acc,
    Forall (fun t => Forall (fun c => c <> comma /\ c <> backslash)
                            (list_ascii_of_string t)) ts ->
    scan true (list_ascii_of_string (String.concat "," ts)) false [] acc
    = acc ++ filter (fun t => t <> [])  (map list_ascii_of_string ts).
Proof.
  induction ts as [|t ts IH]; intros acc Hts.
  - cbn. by rewrite app_nil_r.
  - apply Forall_cons in Hts as [Ht Hts]. destruct ts as [|t' ts].
    + cbn [String.concat map]. rewrite <- (app_nil_r (list_ascii_of_string t)).
      rewrite scan_plain by done. cbn [scan andb app].
      rewrite filter_cons. rewrite app_nil_r.
      destruct (list_ascii_of_string t) as [|c cs] eqn:E.
      * rewrite decide_False by (intros H; by apply H). cbn.
        by rewrite app_nil_r.
      * rewrite decide_True by done. reflexivity.
    + change (String.concat "," (t :: t' :: ts))
        with (t +:+ "," +:+ String.concat "," (t' :: ts)).
      rewrite !list_ascii_of_string_app. rewrite scan_plain by done.
      cbn [list_ascii_of_string app scan].
      change (Ascii.eqb "," backslash) with false.
      change (Ascii.eqb "," comma) with true. cbn iota.
      rewrite IH by done. cbn [map]. rewrite (filter_cons _ (list_ascii_of_string t)).
      destruct (list_ascii_of_string t) as [|c cs] eqn:E.
      * rewrite decide_False by (intros H; by apply H). reflexivity.
      * rewrite decide_True by done. cbn [append_if_nonempty app].
        by rewrite <- app_assoc.
Qed.

End SplitterJoin.

(** Joining tokens that hold neither a comma nor a backslash with commas and
    splitting the result gives the tokens back, the empty ones dropped. *)
Theorem split_str_on_comma_join (ts : list string) :
  Forall (fun t => Forall (fun c => c <> Splitter.comma
                                    /\ c <> Splitter.backslash)
                          (list_ascii_of_string t)) ts ->
  Splitter.split_str_on_comma (String.concat "," ts)
  = filter (fun t => t <> "") ts.
Proof.
  intros Hts. unfold Splitter.split_str_on_comma.
  rewrite split_chars_scan, scan_join by done. cbn [app].
  clear Hts. induction ts as [|t ts IH]; [done|].
  cbn [map]. rewrite !filter_cons.
  destruct (decide (t <> "")) as [Hne|He].
  - rewrite decide_True.
    + cbn [map]. rewrite string_of_list_ascii_of_string. by f_equal.
    + intros H. apply Hne. by destruct t.
  - rewrite decide_False; [done|].
    intros H. apply H. apply dec_stable in He. by subst t.
Qed.

Lemma split_str_on_comma_join_witness :
  Splitter.split_str_on_comma "title,,-date added"
  = ["title"; "-date added"].
Proof.
  apply (split_str_on_comma_join ["title"; ""; "-date added"]).
  repeat constructor; discriminate.
Defined.

(** ** More on pagination *)

Section PaginationMore.
Import Py Errors PyOps Utilities Pagination.

(** What [check_number] returns for a value of the query string. *)
Lemma check_number_query (o : option string) (name : string) (w : pyval) :
  check_number (of_opt_str o) name = Ok w ->
  (o = None /\ w = PNone)
  \/ (o = Some "" /\ w = PStr "")
  \/ (exists s n, o = Some s /\ parse_int s = Some n /\ (1 <= n)%Z
                  /\ w = PInt n).
Proof.
  destruct o as [s|]; cbn [of_opt_str]; unfold check_number; cbn [truthy].
  - destruct (String.eqb s "") eqn:E; cbn [negb].
    + apply String.eqb_eq in E. subst s. intros [= <-]. right; left. done.
    + cbn [py_int]. destruct (parse_int s) as [n|] eqn:Hp; [|done].
      destruct (n <? 1)%Z eqn:Hn; [done|]. intros [= <-].
      apply Z.ltb_ge in Hn. right; right. exists s, n. by split_and!.
  - intros [= <-]. by left.
Qed.

Lemma check_number_absent (args : list (string * string)) (key : string) :
  dict_lookup args key = None \/ dict_lookup args key = Some "" ->
  exists w,
    check_number (of_opt_str (dict_lookup args key)) key = Ok w
    /\ eq_zero w = false
    /\ assert_positive w = Raise TypeError.
Proof.
  intros [-> | ->]; [exists PNone|exists (PStr "")]; done.
Qed.

Lemma check_number_not_bad (args : list (string * string)) (key : string) :
  (forall s, dict_lookup args key = Some s -> bad_number s = false) ->
  (exists n, check_number (of_opt_str (dict_lookup args key)) key
             = Ok (PInt n) /\ (1 <= n)%Z)
  \/ (dict_lookup args key = None \/ dict_lookup args key = Some "").
Proof.
  intros Hnb. destruct (dict_lookup args key) as [s|]; [|right; by left].
  specialize (Hnb s eq_refl). unfold bad_number, nonempty in Hnb.
  destruct (String.eqb s "") eqn:E.
  - apply String.eqb_eq in E. subst s. right; by right.
  - cbn [negb andb] in Hnb. left. unfold check_number.
    cbn [of_opt_str truthy py_int]. rewrite E. cbn [negb].
    destruct (parse_int s) as [n|]; [|done]. rewrite Hnb.
    exists n. split; [done|]. by apply Z.ltb_ge.
Qed.

End PaginationMore.

(** A paginator is returned only when the request gives both [page[number]]
    and [page[size]] as integers of at least 1: its number and size are the
    two integers, the default size is not used, and its offset is not
    negative. *)
Theorem from_request_returns_request_values
    (request : Pagination.Request) (component : string)
    (total_resources default_size : Z) (p : Pagination.NumberSize) :
  Pagination.from_request request component total_resources default_size
  = Ok p ->
  exists sn ss,
    Py.dict_lookup (Pagination.query_args request) "page[number]" = Some sn
    /\ Py.parse_int sn = Some (Pagination.number p)
    /\ Py.dict_lookup (Pagination.query_args request) "page[size]" = Some ss
    /\ Py.parse_int ss = Some (Pagination.size p)
    /\ (1 <= Pagination.number p)%Z
    /\ (1 <= Pagination.limit p)%Z
    /\ (0 <= Pagination.offset p)%Z
    /\ Pagination.total_resources p = total_resources
    /\ (0 <= total_resources)%Z.
Proof.
  unfold Pagination.from_request, Pagination.multidict_get.
  destruct (Utilities.check_number
              (Py.of_opt_str (Py.dict_lookup (Pagination.query_args request)
                                             "page[number]")) "page[number]")
    as [wn|] eqn:Hn; [|done].
  cbn [bind].
  destruct (Utilities.check_number
              (Py.of_opt_str (Py.dict_lookup (Pagination.query_args request)
                                             "page[size]")) "page[size]")
    as [ws|] eqn:Hs; [|done].
  cbn [bind]. unfold Pagination.NumberSize_init.
  apply check_number_query in Hn, Hs.
  destruct Hn as [[_ ->]|[[_ ->]|(sn & n & Hsn & Hpn & Hn1 & ->)]];
    [done..|].
  cbn [Pagination.assert_positive].
  destruct (n >? 0)%Z; [|done]. cbn [bind].
  destruct Hs as [[_ ->]|[[_ ->]|(ss & k & Hss & Hpk & Hk1 & ->)]];
    [done..|].
  cbn [Pagination.eq_zero].
  destruct (k =? 0)%Z eqn:Hk0; [apply Z.eqb_eq in Hk0; lia|].
  cbn [Pagination.assert_positive].
  destruct (k >? 0)%Z; [|done]. cbn [bind].
  destruct (total_resources >=? 0)%Z eqn:Ht; [|done].
  intros [= <-]. exists sn, ss.
  unfold Pagination.limit, Pagination.offset.
  cbn [Pagination.number Pagination.size Pagination.total_resources].
  apply Z.geb_le in Ht. split_and!; try done; nia.
Qed.

Lemma from_request_returns_request_values_witness :
  exists sn ss,
    Py.dict_lookup [("page[size]", " 5"); ("page[number]", "3")]
                   "page[number]" = Some sn
    /\ Py.parse_int sn = Some 3%Z
    /\ Py.dict_lookup [("page[size]", " 5"); ("page[number]", "3")]
                      "page[size]" = Some ss
    /\ Py.parse_int ss = Some 5%Z.
Proof.
  destruct (from_request_returns_request_values
              {| Pagination.query_args :=
                   [("page[size]", " 5"); ("page[number]", "3")];
                 Pagination.link_prefix := "/api" |} "articles" 12 25
              {| Pagination._link_prefix := "/api";
                 Pagination._japi_resource_url_component := "articles";
                 Pagination._query :=
                   [("page[size]", " 5"); ("page[number]", "3")];
                 Pagination.number := 3; Pagination.size := 5;
                 Pagination.total_resources := 12 |} eq_refl)
    as (sn & ss & H1 & H2 & H3 & H4 & _).
  exists sn, ss. by split_and!.
Defined.

(** A request that leaves out [page[size]] or [page[number]], or gives it
    as the empty string, gets no paginator and no [BadRequest]: the
    constructor compares [None] or the empty string with 0 and raises
    [TypeError]. The other parameter is absent, empty or a valid number. *)
Theorem from_request_missing_parameter_raises_TypeError
    (request : Pagination.Request) (component : string)
    (total_resources default_size : Z) :
  (Py.dict_lookup (Pagination.query_args request) "page[size]" = None
   \/ Py.dict_lookup (Pagination.query_args request) "page[size]" = Some ""
   ->
   (forall s,
       Py.dict_lookup (Pagination.query_args request) "page[number]" = Some s ->
       Pagination.bad_number s = false) ->
   Pagination.from_request request component total_resources default_size
   = Raise TypeError)
  /\ (Py.dict_lookup (Pagination.query_args request) "page[number]" = None
      \/ Py.dict_lookup (Pagination.query_args request) "page[number]"
         = Some "" ->
      (forall s,
          Py.dict_lookup (Pagination.query_args request) "page[size]" = Some s ->
          Pagination.bad_number s = false) ->
      Pagination.from_request request component total_resources default_size
      = Raise TypeError).
Proof.
  unfold Pagination.from_request, Pagination.multidict_get,
    Pagination.NumberSize_init.
  split; intros Habs Hnb.
  - destruct (check_number_absent _ _ Habs) as (ws & -> & Hz & Hp).
    destruct (check_number_not_bad _ _ Hnb) as [(n & -> & Hn)|Hno].
    + cbn [bind]. rewrite Hz. cbn [Pagination.assert_positive].
      destruct (n >? 0)%Z eqn:E; [|lia]. cbn [bind]. by rewrite Hp.
    + destruct (check_number_absent _ _ Hno) as (wn & -> & _ & Hpn).
      cbn [bind]. by rewrite Hpn.
  - destruct (check_number_absent _ _ Habs) as (wn & -> & _ & Hpn).
    destruct (check_number_not_bad _ _ Hnb) as [(k & -> & Hk)|Hno].
    + cbn [bind]. by rewrite Hpn.
    + destruct (check_number_absent _ _ Hno) as (ws & -> & _ & _).
      cbn [bind]. by rewrite Hpn.
Qed.

Lemma from_request_missing_parameter_raises_TypeError_witness :
  Pagination.from_request
    {| Pagination.query_args := [("page[number]", "2")];
       Pagination.link_prefix := "/api" |} "articles" 12 25
  = Raise TypeError.
Proof.
  refine (proj1 (from_request_missing_parameter_raises_TypeError
                   {| Pagination.query_args := [("page[number]", "2")];
                      Pagination.link_prefix := "/api" |} "articles" 12 25)
                _ _).
  - by left.
  - intros s [= <-]. reflexivity.
Defined.

(** ** Lists of errors *)

(** The status of an [ErrorList]. It is [None] for the empty list only.
    Otherwise it is the status that all the errors share, or 400 when the
    statuses differ and one of them is a client error, or 500 when they
    differ and none is; so a list of client errors has a client status, and
    a list of server errors a server status. *)
Theorem ErrorList_http_status_classes (errors : Errors.ErrorList) :
  (Errors.ErrorList_http_status errors = None <-> errors = [])
  /\ forall s,
       Errors.ErrorList_http_status errors = Some s ->
       ((forall e, e ∈ errors -> Errors.http_status e = s)
        \/ (s = 400
            /\ (exists e, e ∈ errors /\ Errors.is_client_error e = true)
            /\ exists e e', e ∈ errors /\ e' ∈ errors
                            /\ Errors.http_status e <> Errors.http_status e')
        \/ (s = 500
            /\ (forall e, e ∈ errors -> Errors.is_client_error e = false)
            /\ exists e e', e ∈ errors /\ e' ∈ errors
                            /\ Errors.http_status e <> Errors.http_status e'))
       /\ ((forall e, e ∈ errors -> 400 <= Errors.http_status e < 500) ->
           400 <= s < 500)
       /\ ((forall e, e ∈ errors -> 500 <= Errors.http_status e < 600) ->
           500 <= s < 600).
Proof.
  split.
  - destruct errors as [|first rest]; [done|]. cbn.
    split; [|done]. rewrite Z.eqb_refl. cbn [andb].
    by repeat destruct (_ : bool).
  - intros s. destruct errors as [|first rest]; [done|].
    unfold Errors.ErrorList_http_status.
    destruct (forallb _ (first :: rest)) eqn:Hall.
    + intros [= <-].
      assert (Hsame : forall e, e ∈ first :: rest ->
                        Errors.http_status e = Errors.http_status first).
      { intros e He. rewrite forallb_forall in Hall.
        apply Z.eqb_eq, Hall. by apply list_elem_of_In. }
      split_and!; [by left|intros H; apply H; left..].
    + assert (Hdiff : exists e e', e ∈ first :: rest /\ e' ∈ first :: rest
                        /\ Errors.http_status e <> Errors.http_status e').
      { apply not_true_iff_false in Hall.
        destruct (decide (Forall (fun e => Errors.http_status e
                                           = Errors.http_status first)
                                 (first :: rest))) as [Hf|Hf].
        - destruct Hall. apply forallb_forall. intros e He.
          apply Z.eqb_eq. rewrite Forall_forall in Hf. apply Hf.
          by apply list_elem_of_In.
        - apply not_Forall_Exists in Hf; [|solve_decision].
          apply Exists_exists in Hf as (e & He & Hne).
          exists e, first. split_and!; [done|left|done]. }
      destruct (existsb Errors.is_client_error (first :: rest)) eqn:Hex.
      * intros [= <-]. split_and!; [|lia|].
        -- right; left. split_and!; [done| |done].
           apply existsb_exists in Hex as (e & He & Hc).
           exists e. split; [by apply list_elem_of_In|done].
        -- intros H. apply existsb_exists in Hex as (e & He & Hc).
           apply list_elem_of_In in He. specialize (H e He).
           unfold Errors.is_client_error in Hc. lia.
      * intros [= <-].
        assert (Hnone : forall e, e ∈ first :: rest ->
                          Errors.is_client_error e = false).
        { intros e He. apply not_true_iff_false. intros Hc.
          apply not_true_iff_false in Hex. apply Hex.
          apply existsb_exists. exists e.
          split; [by apply list_elem_of_In|done]. }
        split_and!; [|intros H|lia].
        -- right; right. by split_and!.
        -- specialize (H first (list_elem_of_here _ _)).
           specialize (Hnone first (list_elem_of_here _ _)).
           unfold Errors.is_client_error in Hnone. lia.
Qed.

Lemma ErrorList_http_status_classes_witness :
  Errors.ErrorList_http_status
    [Errors.NotFound Errors.no_kwargs; Errors.Error_new 503 Errors.no_kwargs]
  = Some 400
  /\ exists e, e ∈ [Errors.NotFound Errors.no_kwargs;
                    Errors.Error_new 503 Errors.no_kwargs]
               /\ Errors.is_client_error e = true.
Proof.
  split; [reflexivity|].
  destruct (ErrorList_http_status_classes
              [Errors.NotFound Errors.no_kwargs;
               Errors.Error_new 503 Errors.no_kwargs]) as [_ H].
  destruct (H 400 eq_refl) as [[Hall|[(_ & Hc & _)|(Hs & _)]] _].
  - specialize (Hall _ (list_elem_of_here _ _)). discriminate.
  - exact Hc.
  - discriminate.
Defined.

(** ** More on the document structure *)

Section ValidatorFacts.
Import Py Errors PyOps Validators.

Lemma prefix_refl (s : string) : String.prefix s s = true.
Proof.
  induction s as [|c s IH]; [reflexivity|]. simpl.
  by destruct (ascii_dec c c).
Qed.

Lemma prefix_app (s t : string) : String.prefix s (s +:+ t) = true.
Proof.
  induction s as [|c s IH]; [by destruct t|]. simpl.
  by destruct (ascii_dec c c).
Qed.

Lemma prefix_trans (s t u : string) :
  String.prefix s t = true -> String.prefix t u = true ->
  String.prefix s u = true.
Proof.
  revert t u. induction s as [|c s IH]; intros t u; [by destruct u|].
  destruct t as [|d t]; [intros H; by simpl in H|].
  destruct u as [|e u]; [intros _ H; by simpl in H|]. simpl.
  destruct (ascii_dec c d) as [->|]; [|done].
  destruct (ascii_dec d e) as [->|]; [|done]. apply IH.
Qed.

Lemma refuses_under_raise (sp sp' detail : string) :
  String.prefix sp sp' = true ->
  refuses_under sp (raise_BadRequest detail sp').
Proof. intros H. right. eexists. by split_and!. Qed.

Lemma refuses_under_weaken (sp sp' : string) (r : result unit) :
  String.prefix sp sp' = true ->
  refuses_under sp' r -> refuses_under sp r.
Proof.
  intros H [->|(e & -> & H1 & H2 & H3)]; [by left|].
  right. exists e. split_and!; try done. by eapply prefix_trans.
Qed.

Lemma refuses_under_bind (sp : string) (r k : result unit) :
  refuses_under sp r -> refuses_under sp k ->
  refuses_under sp (let* _ := r in k).
Proof. intros [->|(e & -> & H)] Hk; [done|]. right. by exists e. Qed.

Lemma refuses_under_for_each {A} (sp : string) (f : A -> result unit)
    (l : list A) :
  (forall x, x ∈ l -> refuses_under sp (f x)) ->
  refuses_under sp (for_each f l).
Proof.
  induction l as [|x l IH]; intros H; [by left|]. cbn [for_each].
  apply refuses_under_bind; [apply H; left|].
  apply IH. intros y Hy. apply H. by right.
Qed.

Lemma refuses_under_member (sp : string) (o : option pyval)
    (f : pyval -> result unit) :
  (forall x, refuses_under sp (f x)) ->
  refuses_under sp (match o with Some x => f x | None => Ok tt end).
Proof. intros H. destruct o; [apply H|by left]. Qed.

Lemma assert_meta_object_under (d : pyval) (sp : string) :
  refuses_under sp (assert_meta_object d sp).
Proof.
  destruct d; try (by left);
    apply refuses_under_raise, prefix_refl.
Qed.

Lemma assert_link_under (d : pyval) (sp : string) :
  refuses_under sp (assert_link d sp).
Proof.
  unfold assert_link.
  destruct d as [| | | | |m]; try (by left);
    try apply refuses_under_raise, prefix_refl.
  destruct m as [|kv m]; [apply refuses_under_raise, prefix_refl|].
  destruct (negb _); [apply refuses_under_raise, prefix_refl|].
  apply refuses_under_bind.
  - destruct (dict_lookup _ "href") as [h|]; [|by left].
    destruct (negb _); [|by left].
    apply refuses_under_raise, prefix_app.
  - apply refuses_under_member. intros x.
    eapply refuses_under_weaken; [apply prefix_app|].
    apply assert_meta_object_under.
Qed.

Lemma assert_links_object_under (d : pyval) (sp : string) :
  refuses_under sp (assert_links_object d sp).
Proof.
  unfold assert_links_object.
  destruct d as [| | | | |m];
    try apply refuses_under_raise, prefix_refl.
  apply refuses_under_for_each. intros [key value] _.
  eapply refuses_under_weaken; [apply prefix_app|].
  apply assert_link_under.
Qed.

Lemma assert_resource_identifier_object_under (d : pyval) (sp : string) :
  refuses_under sp (assert_resource_identifier_object d sp).
Proof.
  unfold assert_resource_identifier_object.
  destruct d as [| | | | |m];
    try apply refuses_under_raise, prefix_refl.
  destruct (negb _); [apply refuses_under_raise, prefix_refl|].
  repeat apply refuses_under_bind.
  - apply refuses_under_member. intros x.
    eapply refuses_under_weaken; [apply prefix_app|].
    apply assert_meta_object_under.
  - destruct (dict_lookup m "type") as [t|];
      [|apply refuses_under_raise, prefix_refl].
    destruct (negb _); [apply refuses_under_raise, prefix_app|by left].
  - destruct (dict_lookup m "id") as [t|];
      [|apply refuses_under_raise, prefix_refl].
    destruct (negb _); [apply refuses_under_raise, prefix_app|by left].
Qed.

Lemma assert_to_one_resource_linkage_under (d : pyval) (sp : string) :
  refuses_under sp (assert_to_one_resource_linkage d sp).
Proof.
  destruct d; try (by left);
    try apply refuses_under_raise, prefix_refl.
  apply assert_resource_identifier_object_under.
Qed.

Lemma assert_identifiers_from_under (items : list pyval) (sp : string) :
  forall i, refuses_under sp (assert_identifiers_from i items sp).
Proof.
  induction items as [|item items IH]; intros i; [by left|].
  cbn [assert_identifiers_from]. apply refuses_under_bind; [|apply IH].
  eapply refuses_under_weaken; [apply prefix_app|].
  apply assert_resource_identifier_object_under.
Qed.

Lemma assert_to_many_resource_linkage_under (d : pyval) (sp : string) :
  refuses_under sp (assert_to_many_resource_linkage d sp).
Proof.
  destruct d; try apply refuses_under_raise, prefix_refl.
  apply assert_identifiers_from_under.
Qed.

(** The clause [except BadRequest] catches what a linkage check raises. *)
Lemma except_BadRequest_under (sp : string) (body : result unit)
    (exception : option Error) :
  refuses_under sp body ->
  (forall b, exception = Some b -> refuses_under sp (Raise (ApiError b))) ->
  exists exception',
    except_BadRequest body exception = Ok exception'
    /\ (body = Ok tt -> exception' = exception)
    /\ (forall b, body = Raise (ApiError b) -> exception' = Some b)
    /\ forall b, exception' = Some b -> refuses_under sp (Raise (ApiError b)).
Proof.
  intros [->|(e & -> & H1 & H2 & H3)] Hex.
  - exists exception. by split_and!.
  - exists (Some e). cbn [except_BadRequest]. rewrite H2. cbn.
    split_and!; try done.
    + by intros b [= ->].
    + intros b [= <-]. right. by exists e.
Qed.

Lemma assert_relationship_object_under (d : pyval) (sp : string)
    (to_many to_one : bool) :
  refuses_under sp (assert_relationship_object d sp to_many to_one).
Proof.
  unfold assert_relationship_object.
  destruct d as [| | | | |m];
    try apply refuses_under_raise, prefix_refl.
  destruct m as [|kv m]; [apply refuses_under_raise, prefix_refl|].
  destruct (negb _); [apply refuses_under_raise, prefix_refl|].
  repeat apply refuses_under_bind.
  - apply refuses_under_member. intros x.
    eapply refuses_under_weaken; [apply prefix_app|].
    apply assert_links_object_under.
  - apply refuses_under_member. intros x.
    eapply refuses_under_weaken; [apply prefix_app|].
    apply assert_meta_object_under.
  - destruct (dict_lookup _ "data") as [data|];
      [|apply refuses_under_raise, prefix_refl].
    assert (H1 : exists e1,
               (if to_one
                then except_BadRequest
                       (assert_to_one_resource_linkage data (sp +:+ "data/"))
                       None
                else Ok None) = Ok e1
               /\ forall b, e1 = Some b ->
                            refuses_under sp (Raise (ApiError b))).
    { destruct to_one; [|by exists None].
      destruct (except_BadRequest_under sp
                  (assert_to_one_resource_linkage data (sp +:+ "data/")) None)
        as (e1 & He1 & _ & _ & H); [|done|by exists e1].
      eapply refuses_under_weaken; [apply prefix_app|].
      apply assert_to_one_resource_linkage_under. }
    destruct H1 as (e1 & -> & He1). cbn [bind].
    assert (H2 : exists e2,
               (if to_many
                then except_BadRequest
                       (assert_to_many_resource_linkage data (sp +:+ "data/"))
                       e1
                else Ok e1) = Ok e2
               /\ forall b, e2 = Some b ->
                            refuses_under sp (Raise (ApiError b))).
    { destruct to_many; [|by exists e1].
      destruct (except_BadRequest_under sp
                  (assert_to_many_resource_linkage data (sp +:+ "data/")) e1)
        as (e2 & He2 & _ & _ & H); [|done|by exists e2].
      eapply refuses_under_weaken; [apply prefix_app|].
      apply assert_to_many_resource_linkage_under. }
    destruct H2 as (e2 & -> & He2). cbn [bind].
    destruct e2 as [b|]; [by apply He2|by left].
Qed.

Lemma assert_relationships_object_under (d : pyval) (sp : string) :
  refuses_under sp (assert_relationships_object d sp).
Proof.
  unfold assert_relationships_object.
  destruct d as [| | | | |m];
    try apply refuses_under_raise, prefix_refl.
  apply refuses_under_for_each. intros [key value] _.
  eapply refuses_under_weaken; [apply prefix_app|].
  apply assert_relationship_object_under.
Qed.

Lemma assert_resource_object_under (d : pyval) (id_required : bool)
    (sp : string) :
  refuses_under sp (assert_resource_object d id_required sp).
Proof.
  unfold assert_resource_object.
  destruct d as [| | | | |m];
    try apply refuses_under_raise, prefix_refl.
  destruct (negb _); [apply refuses_under_raise, prefix_refl|].
  repeat apply refuses_under_bind.
  - destruct (dict_lookup m "type") as [t|];
      [|apply refuses_under_raise, prefix_refl].
    destruct (negb _); [apply refuses_under_raise, prefix_app|by left].
  - destruct (dict_lookup m "id") as [t|].
    + destruct (negb _); [apply refuses_under_raise, prefix_app|by left].
    + destruct id_required; [apply refuses_under_raise, prefix_refl|by left].
  - apply refuses_under_member. intros x.
    eapply refuses_under_weaken; [apply prefix_app|].
    destruct x; try (by left); apply refuses_under_raise, prefix_refl.
  - apply refuses_under_member. intros x.
    eapply refuses_under_weaken; [apply prefix_app|].
    apply assert_relationships_object_under.
  - apply refuses_under_member. intros x.
    eapply refuses_under_weaken; [apply prefix_app|].
    apply assert_links_object_under.
  - apply refuses_under_member. intros x.
    eapply refuses_under_weaken; [apply prefix_app|].
    apply assert_meta_object_under.
Qed.

(** What a relationship object that passed the to-many check holds. *)
Lemma relationship_object_to_many_inv (d : pyval) (sp : string) :
  assert_relationship_object d sp true false = Ok tt ->
  exists data,
    getitem d "data" = Ok data
    /\ assert_to_many_resource_linkage data (sp +:+ "data/") = Ok tt.
Proof.
  unfold assert_relationship_object.
  destruct d as [| | | | |m]; try discriminate.
  destruct m as [|kv m]; [discriminate|].
  destruct (negb _); [discriminate|].
  destruct (match dict_lookup (kv :: m) "links" with
            | Some _ => _ | None => _ end); [|discriminate].
  cbn [bind].
  destruct (match dict_lookup (kv :: m) "meta" with
            | Some _ => _ | None => _ end); [|discriminate].
  cbn [bind getitem].
  destruct (dict_lookup (kv :: m) "data") as [data|]; [|discriminate].
  cbn [bind].
  destruct (assert_to_many_resource_linkage data (sp +:+ "data/"))
    as [[]|e] eqn:E.
  - intros _. by exists data.
  - destruct e as [b| | | | |]; try discriminate.
    cbn [except_BadRequest]. destruct (str_in _ _); discriminate.
Qed.

Lemma assert_to_many_relationship_object_eq (d : pyval) (sp : string) :
  assert_to_many_relationship_object d sp
  = assert_relationship_object d sp true false.
Proof.
  unfold assert_to_many_relationship_object.
  destruct (assert_relationship_object d sp true false) as [[]|e] eqn:E;
    [|done].
  destruct (relationship_object_to_many_inv d sp E) as (data & Hg & Hl).
  cbn [bind]. rewrite Hg. cbn [bind]. exact Hl.
Qed.

End ValidatorFacts.

(** Whatever value they are given, the validators of a resource object and
    of a to-one or to-many relationship object return or raise a
    [BadRequest] (status 400) whose source pointer extends the pointer they
    were called with: they raise no other exception. *)
Theorem validators_raise_BadRequest_under_pointer (d : Py.pyval)
    (id_required : bool) (source_pointer : string) :
  Validators.refuses_under source_pointer
    (Validators.assert_resource_object d id_required source_pointer)
  /\ Validators.refuses_under source_pointer
       (Validators.assert_to_one_relationship_object d source_pointer)
  /\ Validators.refuses_under source_pointer
       (Validators.assert_to_many_relationship_object d source_pointer).
Proof.
  split_and!.
  - apply assert_resource_object_under.
  - apply assert_relationship_object_under.
  - rewrite assert_to_many_relationship_object_eq.
    apply assert_relationship_object_under.
Qed.

Lemma validators_raise_BadRequest_under_pointer_witness :
  exists e,
    Validators.assert_resource_object
      (Py.PDict [("type", Py.PStr "article");
                 ("relationships",
                  Py.PDict [("author",
                             Py.PDict [("links", Py.PInt 3);
                                       ("data", Py.PNone)])])])
      false "/data/"
    = Raise (ApiError e)
    /\ Errors.source_pointer e = "/data/relationships/author/links/".
Proof.
  destruct (proj1 (validators_raise_BadRequest_under_pointer
                     (Py.PDict [("type", Py.PStr "article");
                                ("relationships",
                                 Py.PDict [("author",
                                            Py.PDict [("links", Py.PInt 3);
                                                      ("data", Py.PNone)])])])
                     false "/data/"))
    as [H|(e & He & _)]; [discriminate|].
  exists e. split; [exact He|].
  vm_compute in He. by injection He as <-.
Defined.

(** The second linkage check of [assert_to_many_relationship_object] never
    fails: the function returns and raises exactly as the check of the
    relationship object with [to_many] set does. *)
Theorem assert_to_many_relationship_object_second_check_redundant
    (d : Py.pyval) (source_pointer : string) :
  Validators.assert_to_many_relationship_object d source_pointer
  = Validators.assert_relationship_object d source_pointer true false
  /\ (Validators.assert_relationship_object d source_pointer true false
      = Ok tt ->
      exists data,
        PyOps.getitem d "data" = Ok data
        /\ Validators.assert_to_many_resource_linkage
             data (source_pointer +:+ "data/") = Ok tt).
Proof.
  split.
  - apply assert_to_many_relationship_object_eq.
  - apply relationship_object_to_many_inv.
Qed.

Lemma assert_to_many_relationship_object_second_check_redundant_witness :
  exists data,
    PyOps.getitem (Py.PDict [("data", Py.PList [])]) "data" = Ok data
    /\ Validators.assert_to_many_resource_linkage data "/data/" = Ok tt.
Proof.
  exact (proj2 (assert_to_many_relationship_object_second_check_redundant
                  (Py.PDict [("data", Py.PList [])]) "/")
               eq_refl).
Defined.

(** ** Linkage *)

Section LinkageFacts.
Import Py Errors PyOps Validators Fields.

Lemma dict_lookup_dict_set_ne {A} (d : list (string * A)) (k k' : string)
    (v : A) :
  k <> k' -> dict_lookup (dict_set d k v) k' = dict_lookup d k'.
Proof.
  intros Hne. induction d as [|[k0 v0] d IH]; cbn [dict_set dict_lookup].
  - apply String.eqb_neq in Hne. by rewrite Hne.
  - destruct (String.eqb k0 k) eqn:E; cbn [dict_lookup].
    + apply String.eqb_eq in E. subst k0.
      apply String.eqb_neq in Hne. by rewrite Hne.
    + by rewrite IH.
Qed.

Lemma dict_lookup_dict_set_eq {A} (d : list (string * A)) (k : string)
    (v : A) :
  dict_lookup (dict_set d k v) k = Some v.
Proof.
  induction d as [|[k0 v0] d IH]; cbn [dict_set dict_lookup].
  - by rewrite String.eqb_refl.
  - destruct (String.eqb k0 k) eqn:E; cbn [dict_lookup]; by rewrite E.
Qed.

Lemma map_fst_dict_set_mem {A} (d : list (string * A)) (k : string) (v : A) :
  dict_mem d k = true -> map fst (dict_set d k v) = map fst d.
Proof.
  unfold dict_mem. induction d as [|[k0 v0] d IH];
    cbn [dict_set dict_lookup map fst]; [done|].
  destruct (String.eqb k0 k) eqn:E; [done|].
  intros H. cbn [map fst]. by rewrite IH.
Qed.

(** The relationship object that passed the to-one check. *)
Lemma relationship_object_to_one_inv (d : pyval) (sp : string) :
  assert_relationship_object d sp false true = Ok tt ->
  exists data,
    getitem d "data" = Ok data
    /\ assert_to_one_resource_linkage data (sp +:+ "data/") = Ok tt.
Proof.
  unfold assert_relationship_object.
  destruct d as [| | | | |m]; try discriminate.
  destruct m as [|kv m]; [discriminate|].
  destruct (negb _); [discriminate|].
  destruct (match dict_lookup (kv :: m) "links" with
            | Some _ => _ | None => _ end); [|discriminate].
  cbn [bind].
  destruct (match dict_lookup (kv :: m) "meta" with
            | Some _ => _ | None => _ end); [|discriminate].
  cbn [bind getitem].
  destruct (dict_lookup (kv :: m) "data") as [data|]; [|discriminate].
  cbn [bind].
  destruct (assert_to_one_resource_linkage data (sp +:+ "data/"))
    as [[]|e] eqn:E.
  - intros _. by exists data.
  - destruct e as [b| | | | |]; try discriminate.
    cbn [except_BadRequest]. destruct (str_in _ _); discriminate.
Qed.

Lemma resource_identifier_object_inv (d : pyval) (sp : string) :
  assert_resource_identifier_object d sp = Ok tt ->
  exists m t i,
    d = PDict m
    /\ dict_lookup m "type" = Some (PStr t)
    /\ dict_lookup m "id" = Some (PStr i).
Proof.
  unfold assert_resource_identifier_object.
  destruct d as [| | | | |m]; try discriminate.
  destruct (negb _); [discriminate|].
  destruct (match dict_lookup m "meta" with
            | Some _ => _ | None => _ end); [|discriminate].
  cbn [bind].
  destruct (dict_lookup m "type") as [t|] eqn:Ht; [|discriminate].
  destruct t; try discriminate. cbn [is_str negb bind].
  destruct (dict_lookup m "id") as [i|] eqn:Hi; [|discriminate].
  destruct i; try discriminate. intros _. eexists _, _, _. by split_and!.
Qed.

End LinkageFacts.

(** With no discipline, which is how the check of a resource object calls
    it, [assert_relationship_object] does not look at the value of [data]:
    the result is the same whatever value the member holds. *)
Theorem assert_relationship_object_ignores_data (m : Py.dict) (v : Py.pyval)
    (source_pointer : string) :
  Py.dict_mem m "data" = true ->
  Validators.assert_relationship_object (Py.PDict (Py.dict_set m "data" v))
                                        source_pointer false false
  = Validators.assert_relationship_object (Py.PDict m)
                                          source_pointer false false.
Proof.
  intros Hmem.
  assert (Hkeys : Py.dict_keys (Py.dict_set m "data" v) = Py.dict_keys m)
    by (unfold Py.dict_keys; by rewrite map_fst_dict_set_mem).
  assert (Hlinks : Py.dict_lookup (Py.dict_set m "data" v) "links"
                   = Py.dict_lookup m "links")
    by (by apply dict_lookup_dict_set_ne).
  assert (Hmeta : Py.dict_lookup (Py.dict_set m "data" v) "meta"
                  = Py.dict_lookup m "meta")
    by (by apply dict_lookup_dict_set_ne).
  pose proof (dict_lookup_dict_set_eq m "data" v) as Hdata.
  unfold Py.dict_mem in Hmem.
  destruct (Py.dict_lookup m "data") as [x|] eqn:Hx; [|done].
  unfold Validators.assert_relationship_object.
  destruct m as [|kv m]; [done|].
  destruct (Py.dict_set (kv :: m) "data" v) as [|kv' m'] eqn:Hset.
  { destruct kv as [k0 v0]. cbn in Hset. by destruct (String.eqb k0 "data"). }
  rewrite Hkeys, Hlinks, Hmeta, Hdata, Hx. reflexivity.
Qed.

Lemma assert_relationship_object_ignores_data_witness :
  Validators.assert_relationship_object
    (Py.PDict [("data", Py.PStr "anything")]) "/" false false
  = Ok tt.
Proof.
  exact (assert_relationship_object_ignores_data
           [("data", Py.PNone)] (Py.PStr "anything") "/" eq_refl).
Defined.

(** A relationship object that passed [assert_to_one_relationship_object]
    is read by [ToOneRelationship.deserialize] without a [KeyError] or a
    [TypeError]: a null linkage gives [None]; an identifier of another type
    gives a [BadRequest]; otherwise the id is converted by [int], which
    gives the key or raises [ValueError] for an id that is not an integer
    literal. *)
Theorem validated_linkage_deserializes (r : Fields.Relationship)
    (d : Py.pyval) (source_pointer : string) :
  Validators.assert_to_one_relationship_object d source_pointer = Ok tt ->
  exists data,
    PyOps.getitem d "data" = Ok data
    /\ (data = Py.PNone /\ Fields.ToOne_deserialize r d = Ok Py.PNone
        \/ exists m t i,
             data = Py.PDict m
             /\ Py.dict_lookup m "type" = Some (Py.PStr t)
             /\ Py.dict_lookup m "id" = Some (Py.PStr i)
             /\ Fields.ToOne_deserialize r d
                = if negb (String.eqb t (Fields.related_type r))
                  then Fields.raise_BadRequest
                         "Relationship type doesn't match definition"
                  else match Py.parse_int i with
                       | Some k => Ok (Py.PInt k)
                       | None => Raise ValueError
                       end).
Proof.
  intros H. apply relationship_object_to_one_inv in H as (data & Hg & Hl).
  exists data. split; [done|]. unfold Fields.ToOne_deserialize.
  rewrite Hg. cbn [bind].
  destruct data as [| | | | |m]; try discriminate.
  - left. by split.
  - right. cbn [Validators.assert_to_one_resource_linkage] in Hl.
    apply resource_identifier_object_inv in Hl
      as (m' & t & i & [= <-] & Ht & Hi).
    exists m, t, i. split_and!; try done.
    cbn [Py.is_none PyOps.getitem]. rewrite Ht. cbn [bind Py.eq_str].
    destruct (negb _); [done|]. rewrite Hi. cbn [bind PyOps.py_int].
    by destruct (Py.parse_int i).
Qed.

Lemma validated_linkage_deserializes_witness :
  Fields.ToOne_deserialize Examples.author
    (Py.PDict [("data", Py.PDict [("type", Py.PStr "person");
                                  ("id", Py.PStr "nine")])])
  = Raise ValueError.
Proof.
  destruct (validated_linkage_deserializes Examples.author
              (Py.PDict [("data", Py.PDict [("type", Py.PStr "person");
                                            ("id", Py.PStr "nine")])])
              "/" eq_refl)
    as (data & Hg & [[-> _]|(m & t & i & -> & Ht & Hi & ->)]).
  - discriminate.
  - injection Hg as <-. injection Ht as <-. injection Hi as <-.
    reflexivity.
Defined.

(** ** Fields *)

(** The id that a resource serializes is read back as the same key: for a
    record whose key is an integer, [Id.deserialize] of [Id.serialize] is
    that integer. *)
Theorem Id_serialize_deserialize (i : Fields.Id) (model : Fields.Model)
    (z : Z) :
  Fields._fget (Fields.id_base i) model = Ok (Py.PInt z) ->
  exists s,
    Fields.Id_serialize i model = Ok s
    /\ Fields.Id_deserialize (Py.PStr s) = Ok z.
Proof.
  intros Hget. unfold Fields.Id_serialize. rewrite Hget. cbn [bind].
  eexists. split; [reflexivity|]. unfold Fields.Id_deserialize.
  by rewrite py_int_py_str.
Qed.

Lemma Id_serialize_deserialize_witness :
  exists s,
    Fields.Id_serialize (Examples.mapped_id "id") Examples.stored_article
    = Ok s
    /\ Fields.Id_deserialize (Py.PStr s) = Ok 1%Z.
Proof.
  exact (Id_serialize_deserialize (Examples.mapped_id "id")
           Examples.stored_article 1 eq_refl).
Defined.

(** [Id.deserialize] never raises [ValueError]: a string that [int] refuses
    gives a [BadRequest] (status 400) that quotes the string, and a string
    that [int] accepts gives its value. What is not a string, an integer or
    a boolean gives [TypeError]. *)
Theorem Id_deserialize_outcomes (value : Py.pyval) :
  Fields.Id_deserialize value <> Raise ValueError
  /\ (forall s,
        value = Py.PStr s ->
        Fields.Id_deserialize value
        = match Py.parse_int s with
          | Some z => Ok z
          | None =>
              Fields.raise_BadRequest
                ("Could not parse " +:+ s +:+ " as integer.")
          end)
  /\ (forall e,
        Fields.Id_deserialize value = Raise (ApiError e) ->
        Errors.http_status e = 400
        /\ exists s, value = Py.PStr s /\ Py.parse_int s = None)
  /\ (Fields.Id_deserialize value = Raise TypeError <->
      match value with
      | Py.PNone | Py.PList _ | Py.PDict _ => True
      | _ => False
      end).
Proof.
  unfold Fields.Id_deserialize.
  destruct value as [|b|z|s|l|d]; cbn [PyOps.py_int Py.py_str];
    try (split_and!; [done|by intros s [=]|by intros e [=]|done]).
  destruct (Py.parse_int s) as [z|] eqn:Hp.
  - split_and!; [done|by intros s' [= <-]; rewrite Hp|by intros e [=]|done].
  - split_and!; [done|by intros s' [= <-]; rewrite Hp| |done].
    intros e [= <-]. split; [done|]. by exists s.
Qed.

Lemma Id_deserialize_outcomes_witness :
  Fields.Id_deserialize (Py.PStr "4x")
  = Fields.raise_BadRequest "Could not parse 4x as integer.".
Proof.
  exact (proj1 (proj2 (Id_deserialize_outcomes (Py.PStr "4x")))
               "4x" eq_refl).
Defined.

(** What [ToOneRelationship.serialize] returns for a foreign key that is
    [None] or an integer passes [assert_to_one_relationship_object], and
    [ToOneRelationship.deserialize] reads the foreign key back from it. *)
Theorem ToOne_serialize_deserialize (r : Fields.Relationship)
    (model : Fields.Model) (resource_id : Py.pyval)
    (link_prefix source_pointer : string) (v : Py.pyval) :
  Fields._fget (Fields.rel_base r) model = Ok v ->
  v = Py.PNone \/ (exists k, v = Py.PInt k) ->
  exists doc,
    Fields.ToOne_serialize r model resource_id link_prefix = Ok doc
    /\ Validators.assert_to_one_relationship_object doc source_pointer = Ok tt
    /\ Fields.ToOne_deserialize r doc = Ok v.
Proof.
  intros Hget Hv. unfold Fields.ToOne_serialize. rewrite Hget. cbn [bind].
  eexists. split; [reflexivity|].
  destruct Hv as [->|[k ->]].
  - split; reflexivity.
  - split; [reflexivity|]. unfold Fields.ToOne_deserialize.
    cbn [Py.is_none PyOps.getitem Py.dict_lookup String.eqb Ascii.eqb
         Bool.eqb bind Py.eq_str].
    rewrite String.eqb_refl. cbn [negb]. rewrite py_int_py_str. reflexivity.
Qed.

Lemma ToOne_serialize_deserialize_witness :
  exists doc,
    Fields.ToOne_serialize Examples.author Examples.stored_article
                           (Py.PStr "1") "/api" = Ok doc
    /\ Fields.ToOne_deserialize Examples.author doc = Ok (Py.PInt 4).
Proof.
  destruct (ToOne_serialize_deserialize Examples.author
              Examples.stored_article (Py.PStr "1") "/api" "/" (Py.PInt 4)
              eq_refl (or_intror (ex_intro _ 4%Z eq_refl)))
    as (doc & H1 & _ & H2).
  by exists doc.
Defined.

(** ** Validation and serialization of a resource *)

Section ResourceMore.
Import Py Errors PyOps Fields Resource.

Lemma for_each_Ok_iff {A} (f : A -> result unit) (l : list A) :
  for_each f l = Ok tt <-> forall x, x ∈ l -> f x = Ok tt.
Proof.
  induction l as [|x l IH]; cbn [for_each].
  - split; [|done]. intros _ y Hy. by apply elem_of_nil in Hy.
  - destruct (f x) as [[]|e] eqn:Hx; cbn [bind].
    + rewrite IH. split.
      * intros H y [->|Hy]%elem_of_cons; [done|by apply H].
      * intros H y Hy. apply H. by right.
    + split; [done|]. intros H. specialize (H x (list_elem_of_here _ _)).
      congruence.
Qed.

(** The loop that builds the attributes or the relationships object of a
    serialized resource. *)
Lemma serialize_loop {X} (g : X -> result pyval) (wanted : string -> bool)
    (l : list (string * X)) :
  forall acc out : dict,
    NoDup (map fst l) ->
    (forall n, n ∈ map fst l -> dict_lookup acc n = None) ->
    foldM (fun (acc : dict) '(n, x) =>
             if wanted n then let* v := g x in Ok (dict_set acc n v)
             else Ok acc) l acc = Ok out ->
    forall n v,
      dict_lookup out n = Some v <->
      dict_lookup acc n = Some v
      \/ (wanted n = true
          /\ exists x, dict_lookup l n = Some x /\ g x = Ok v).
Proof.
  induction l as [|[n0 x0] l IH]; intros acc out Hnd Hacc; cbn [foldM].
  - intros [= <-] n v. split; [by left|]. by intros [?|(_ & x & [=] & _)].
  - cbn [map fst] in Hnd. apply NoDup_cons in Hnd as [Hn0 Hnd].
    assert (Hrest : forall n, n ∈ map fst l -> n <> n0)
      by (intros n Hn ->; by apply Hn0).
    assert (Hlook0 : dict_lookup l n0 = None) by (by apply dict_lookup_None).
    destruct (wanted n0) eqn:Hw.
    + destruct (g x0) as [v0|e] eqn:Hg; [|done]. cbn [bind].
      intros Hout n v.
      rewrite (IH (dict_set acc n0 v0) out Hnd); [|
        intros k Hk; rewrite dict_lookup_dict_set_ne
          by (intros ->; by apply (Hrest k)); apply Hacc; by right |done].
      cbn [dict_lookup]. destruct (String.eqb n0 n) eqn:E.
      * apply String.eqb_eq in E. subst n.
        rewrite dict_lookup_dict_set_eq, Hlook0.
        rewrite (Hacc n0) by left. split.
        -- intros [[= <-]|(_ & x & [=] & _)]. right. split; [done|].
           by exists x0.
        -- intros [[=]|(_ & x & [= <-] & Hx)]. left. congruence.
      * assert (n0 <> n) by (intros ->; by rewrite String.eqb_refl in E).
        by rewrite dict_lookup_dict_set_ne.
    + intros Hout n v.
      rewrite (IH acc out Hnd); [| intros k Hk; apply Hacc; by right|done].
      cbn [dict_lookup]. destruct (String.eqb n0 n) eqn:E; [|done].
      apply String.eqb_eq in E. subst n. rewrite Hlook0, Hw.
      split; intros [?|(? & x & ? & ?)]; try done; by left.
Qed.

End ResourceMore.

(** [Resource.serialize] emits the fields that were asked for, and only
    fields of the schema: with a sparse field list, an attribute or a
    relationship is in the document exactly when its name is in the list
    and in the schema, with the value its getter gives; a name of the list
    that the schema does not have is ignored. The document always holds the
    id and the type, and the members [attributes] and [relationships] are
    left out when they would be empty. The names of the schema are
    distinct, as the keys of a dictionary are. *)
Theorem serialize_emits_requested_fields (cls : Resource.ResourceClass)
    (model : Fields.Model) (link_prefix : string)
    (fields : option (list string)) (doc : Py.pyval) :
  NoDup (map fst (Resource._attrs_by_japi_name cls)) ->
  NoDup (map fst (Resource._rels_by_japi_name cls)) ->
  Resource.serialize cls model link_prefix fields = Ok doc ->
  exists i,
    Fields.Id_serialize (Resource.id cls) model = Ok i
    /\ PyOps.getitem doc "id" = Ok (Py.PStr i)
    /\ PyOps.getitem doc "type" = Ok (Py.PStr (Resource.japi_resource_type cls))
    /\ (forall n v,
          Py.dict_lookup (Resource.document_attributes doc) n = Some v <->
          Resource.requested fields n = true
          /\ exists a,
               Py.dict_lookup (Resource._attrs_by_japi_name cls) n = Some a
               /\ Fields._fget (Fields.attr_base a) model = Ok v)
    /\ (forall n v,
          Py.dict_lookup (Resource.document_relationships doc) n = Some v <->
          Resource.requested fields n = true
          /\ exists r,
               Py.dict_lookup (Resource._rels_by_japi_name cls) n = Some r
               /\ Fields.is_ToOne r = true
               /\ Fields.ToOne_serialize r model (Py.PStr i) link_prefix
                  = Ok v)
    /\ (Validators.has_member doc "attributes" = true <->
        Resource.document_attributes doc <> [])
    /\ (Validators.has_member doc "relationships" = true <->
        Resource.document_relationships doc <> []).
Proof.
  intros Hna Hnr. unfold Resource.serialize.
  destruct (Fields.Id_serialize (Resource.id cls) model) as [i|] eqn:Hi;
    [|done].
  cbn [bind].
  destruct (Fields._fget (Fields.id_base (Resource.id cls)) model)
    as [self_id|]; [|done].
  cbn [bind].
  match goal with
  | |- context [foldM ?f (Resource._attrs_by_japi_name cls) []] =>
      destruct (foldM f (Resource._attrs_by_japi_name cls) [])
        as [A|] eqn:HA; [|done]
  end.
  cbn [bind].
  match goal with
  | |- context [foldM ?f (Resource._rels_by_japi_name cls) []] =>
      destruct (foldM f (Resource._rels_by_japi_name cls) [])
        as [R|] eqn:HR; [|done]
  end.
  cbn [bind].
  match goal with
  | |- Ok (Py.PDict ?r) = Ok doc -> _ => set (ret := r)
  end.
  assert (Hret :
    Py.dict_lookup ret "id" = Some (Py.PStr i)
    /\ Py.dict_lookup ret "type"
       = Some (Py.PStr (Resource.japi_resource_type cls))
    /\ Py.dict_lookup ret "attributes"
       = match A with [] => None | _ => Some (Py.PDict A) end
    /\ Py.dict_lookup ret "relationships"
       = match R with [] => None | _ => Some (Py.PDict R) end).
  { subst ret. destruct R as [|r0 R], A as [|a0 A]; by split_and!. }
  destruct Hret as (Hid & Hty & Hat & Hre). clearbody ret.
  intros [= <-]. exists i.
  pose proof (serialize_loop
                (fun a : Fields.Attribute => Fields.Attribute_serialize a model)
                (Resource.requested fields)
                (Resource._attrs_by_japi_name cls) [] A Hna
                (fun _ _ => eq_refl) HA) as HAspec.
  pose proof (serialize_loop
                (fun r : Fields.Relationship =>
                   if Fields.is_ToOne r
                   then Fields.ToOne_serialize r model (Py.PStr i) link_prefix
                   else Raise TypeError)
                (Resource.requested fields)
                (Resource._rels_by_japi_name cls) [] R Hnr
                (fun _ _ => eq_refl) HR) as HRspec.
  assert (HdA : Resource.document_attributes (Py.PDict ret) = A).
  { cbn [Resource.document_attributes]. rewrite Hat. by destruct A. }
  assert (HdR : Resource.document_relationships (Py.PDict ret) = R).
  { cbn [Resource.document_relationships]. rewrite Hre. by destruct R. }
  rewrite HdA, HdR. cbn [PyOps.getitem Validators.has_member].
  unfold Py.dict_mem. rewrite Hid, Hty, Hat, Hre.
  split_and!; try done.
  - intros n v. rewrite HAspec. cbn [Py.dict_lookup].
    split; [intros [[=]|H]; exact H|by right].
  - intros n v. rewrite HRspec. cbn [Py.dict_lookup]. split.
    + intros [[=]|(Hw & r & Hr & Hg)]. split; [done|]. exists r.
      destruct (Fields.is_ToOne r); [done|discriminate].
    + intros (Hw & r & Hr & Ht & Hg). right. split; [done|].
      exists r. by rewrite Ht.
  - by destruct A.
  - by destruct R.
Qed.

Lemma serialize_emits_requested_fields_witness :
  Resource.serialize Examples.note Examples.stored_article "/api"
                     (Some ["title"; "colour"])
  = Ok (Py.PDict [("id", Py.PStr "1"); ("type", Py.PStr "note");
                  ("links", Py.PDict [("self", Py.PStr "/api/notes/1")]);
                  ("attributes", Py.PDict [("title", Py.PStr "T")])])
  /\ exists i,
       PyOps.getitem
         (Py.PDict [("id", Py.PStr "1"); ("type", Py.PStr "note");
                    ("links", Py.PDict [("self", Py.PStr "/api/notes/1")]);
                    ("attributes", Py.PDict [("title", Py.PStr "T")])])
         "id" = Ok (Py.PStr i).
Proof.
  split; [reflexivity|].
  destruct (serialize_emits_requested_fields Examples.note
              Examples.stored_article "/api" (Some ["title"; "colour"])
              (Py.PDict [("id", Py.PStr "1"); ("type", Py.PStr "note");
                         ("links",
                          Py.PDict [("self", Py.PStr "/api/notes/1")]);
                         ("attributes", Py.PDict [("title", Py.PStr "T")])]))
    as (i & _ & Hid & _).
  - cbn. distinct_strings.
  - cbn. distinct_strings.
  - reflexivity.
  - by exists i.
Defined.

(** [Resource.validate] passes exactly when every validator of every
    attribute and of every relationship whose contexts hold the given
    context passes on the record; the validators of other contexts are not
    run. *)
Theorem validate_passes_iff (cls : Resource.ResourceClass)
    (model : Fields.Model) (context : Fields.Context) :
  Resource.validate cls model context = Ok tt <->
  (forall n (a : Fields.Attribute) v,
      (n, a) ∈ Resource._attrs_by_japi_name cls ->
      v ∈ Fields._fvalidators (Fields.attr_base a) ->
      Fields.ctx_in context (Fields.contexts v) = true ->
      Fields.run v model = Ok tt)
  /\ (forall n (r : Fields.Relationship) v,
        (n, r) ∈ Resource._rels_by_japi_name cls ->
        v ∈ Fields._fvalidators (Fields.rel_base r) ->
        Fields.ctx_in context (Fields.contexts v) = true ->
        Fields.run v model = Ok tt).
Proof.
  unfold Resource.validate. rewrite for_each_Ok_iff.
  assert (Hfield : forall f : Fields.BaseField,
             Fields.validate_field f model context = Ok tt <->
             forall v, v ∈ Fields._fvalidators f ->
                       Fields.ctx_in context (Fields.contexts v) = true ->
                       Fields.run v model = Ok tt).
  { intros f. unfold Fields.validate_field. rewrite for_each_Ok_iff.
    split; intros H v Hv.
    - intros Hc. specialize (H v Hv). unfold when in H. by rewrite Hc in H.
    - unfold when. destruct (Fields.ctx_in _ _) eqn:Hc; [by apply H|done]. }
  split.
  - intros H. split; intros n x v Hx Hv Hc.
    + apply (proj1 (Hfield (Fields.attr_base x))); [|done..].
      apply H, elem_of_app. left. apply list_elem_of_fmap. by exists (n, x).
    + apply (proj1 (Hfield (Fields.rel_base x))); [|done..].
      apply H, elem_of_app. right. apply list_elem_of_fmap. by exists (n, x).
  - intros [Ha Hr] f [Hf|Hf]%elem_of_app;
      apply list_elem_of_fmap in Hf as ([n x] & -> & Hx); apply Hfield;
      intros v Hv Hc; eauto.
Qed.

Lemma validate_passes_iff_witness :
  Resource.validate Examples.titled Examples.stored_article Fields.UPDATE
  = Ok tt.
Proof.
  apply validate_passes_iff. split.
  - intros n a v Ha Hv Hc. cbn in Ha.
    apply list_elem_of_singleton in Ha. injection Ha as -> ->.
    cbn in Hv. apply list_elem_of_singleton in Hv. subst v. reflexivity.
  - intros n r v Hr Hv Hc. cbn in Hr.
    apply list_elem_of_singleton in Hr. injection Hr as -> ->.
    cbn in Hv. apply list_elem_of_singleton in Hv. subst v. discriminate.
Defined.

(** ** Patching *)

Section PatchFacts.
Import Py Errors PyOps Fields Resource.

(** A loop that sets one key of a dictionary for each name. *)
Lemma foldM_build (f : string -> result pyval)
    (step : dict -> string -> result dict) :
  (forall ret n, step ret n = let* v := f n in Ok (dict_set ret n v)) ->
  forall names acc out,
    foldM step names acc = Ok out ->
    (forall n, n ∈ names -> exists v, f n = Ok v)
    /\ forall n v,
         dict_lookup out n = Some v <->
         (n ∈ names /\ f n = Ok v)
         \/ ((n ∉ names) /\ dict_lookup acc n = Some v).
Proof.
  intros Hstep. induction names as [|n0 names IH]; intros acc out;
    cbn [foldM].
  - intros [= <-]. split; [intros n Hn; by apply elem_of_nil in Hn|].
    intros n v. split.
    + intros H. right. split; [apply not_elem_of_nil|done].
    + intros [[Hn _]|[_ H]]; [by apply elem_of_nil in Hn|done].
  - rewrite Hstep. destruct (f n0) as [v0|e] eqn:Hf; [|done]. cbn [bind].
    intros Hout. destruct (IH _ _ Hout) as [Hall Hlook]. split.
    + intros n [->|Hn]%elem_of_cons; [by exists v0|by apply Hall].
    + intros n v. rewrite Hlook.
      destruct (decide (n = n0)) as [->|Hne].
      * rewrite dict_lookup_dict_set_eq. split.
        -- intros [[_ H]|[_ [= <-]]]; left; (split; [left|done]).
        -- intros [[_ H]|[Hn _]]; [|destruct Hn; left].
           destruct (decide (n0 ∈ names)); [left; by split|right].
           split; [done|congruence].
      * rewrite dict_lookup_dict_set_ne by done. split.
        -- intros [[Hn H]|[Hn H]]; [left; split; [by right|done]|right].
           split; [|done]. by intros [He|Hc]%elem_of_cons.
        -- intros [[[He|Hn]%elem_of_cons H]|[Hn H]];
             [done|left; by split|right].
           split; [|done]. intros Hc. apply Hn. by right.
Qed.

Lemma foldM_build_ok (f : string -> result pyval)
    (step : dict -> string -> result dict) :
  (forall ret n, step ret n = let* v := f n in Ok (dict_set ret n v)) ->
  forall names acc,
    (forall n, n ∈ names -> exists v, f n = Ok v) ->
    exists out, foldM step names acc = Ok out.
Proof.
  intros Hstep. induction names as [|n0 names IH]; intros acc Hall;
    cbn [foldM]; [by eexists|].
  rewrite Hstep. destruct (Hall n0) as [v0 ->]; [left|]. cbn [bind].
  apply IH. intros n Hn. apply Hall. by right.
Qed.

Lemma NoDup_dict_set {A} (d : list (string * A)) (k : string) (v : A) :
  NoDup (map fst d) -> NoDup (map fst (dict_set d k v)).
Proof.
  induction d as [|[k0 v0] d IH]; cbn [dict_set map fst].
  - intros _. apply NoDup_singleton.
  - intros [Hk0 Hnd]%NoDup_cons. destruct (String.eqb k0 k) eqn:E;
      cbn [map fst]; apply NoDup_cons; split; try done; [|by apply IH].
    intros Hin. apply list_elem_of_fmap in Hin as ([k1 v1] & Hk & Hin).
    cbn in Hk. subst k1. apply elem_of_dict_set in Hin as [[= -> ->]|Hin].
    + by rewrite String.eqb_refl in E.
    + apply Hk0. apply list_elem_of_fmap. by exists (k0, v1).
Qed.

Lemma foldM_build_NoDup (f : string -> result pyval)
    (step : dict -> string -> result dict) :
  (forall ret n, step ret n = let* v := f n in Ok (dict_set ret n v)) ->
  forall names acc out,
    NoDup (map fst acc) ->
    foldM step names acc = Ok out -> NoDup (map fst out).
Proof.
  intros Hstep. induction names as [|n0 names IH]; intros acc out Hnd;
    cbn [foldM]; [by intros [= <-]|].
  rewrite Hstep. destruct (f n0) as [v0|e]; [|done]. cbn [bind].
  apply IH. by apply NoDup_dict_set.
Qed.

Lemma foldM_ext {A S} (f g : S -> A -> result S) (l : list A) (s : S) :
  (forall s x, f s x = g s x) -> foldM f l s = foldM g l s.
Proof.
  intros H. revert s. induction l as [|x l IH]; intros s; cbn [foldM];
    [done|].
  rewrite H. destruct (g s x); cbn [bind]; [apply IH|done].
Qed.

End PatchFacts.

Section PatchDict.
Import Py Errors PyOps Fields Resource.

Variable set_iter : list string -> list string.
Hypothesis set_iter_permutation : forall l, Permutation (set_iter l) l.

Lemma patch_attribute_step (cls : ResourceClass) (attributes_dict : dict)
    (ret_attrs : dict) (attribute_name : string) :
  (let* field :=
     lookup_or_KeyError (_attrs_by_japi_name cls) attribute_name in
   if negb (ctx_in UPDATE (writable_during field)) then
     raise_Forbidden "Cannot update attribute"
   else
     let* value := lookup_or_KeyError attributes_dict attribute_name in
     Ok (dict_set ret_attrs attribute_name (Attribute_deserialize value)))
  = (let* v := patch_attribute cls attributes_dict attribute_name in
     Ok (dict_set ret_attrs attribute_name v)).
Proof using Type.
  unfold patch_attribute.
  destruct (lookup_or_KeyError (_attrs_by_japi_name cls) attribute_name)
    as [field|]; [|done].
  cbn [bind]. destruct (negb _); [done|].
  by destruct (lookup_or_KeyError attributes_dict attribute_name).
Qed.

Lemma patch_relationship_step (cls : ResourceClass) (relationships_dict : dict)
    (ret_rels : dict) (relationship_name : string) :
  (let* value :=
     lookup_or_KeyError relationships_dict relationship_name in
   let* field :=
     lookup_or_KeyError (_rels_by_japi_name cls) relationship_name in
   let* _ := check_relationship UPDATE "Cannot update relationship"
                                field value in
   let* v := ToOne_deserialize field value in
   Ok (dict_set ret_rels relationship_name v))
  = (let* v := patch_relationship cls relationships_dict relationship_name in
     Ok (dict_set ret_rels relationship_name v)).
Proof using Type.
  unfold patch_relationship.
  destruct (lookup_or_KeyError relationships_dict relationship_name)
    as [value|]; [|done].
  cbn [bind].
  destruct (lookup_or_KeyError (_rels_by_japi_name cls) relationship_name)
    as [field|]; [|done].
  cbn [bind]. by destruct (check_relationship _ _ _ _).
Qed.

(** The steps of [create_patch_dict] on a document that it accepts. *)
Lemma create_patch_dict_Ok_inv (cls : ResourceClass) (doc : pyval)
    (pd : PatchDict) :
  create_patch_dict set_iter cls doc = Ok pd ->
  getitem doc "type" = Ok (PStr (japi_resource_type cls))
  /\ keys_diff (dict_keys (document_attributes doc))
               (dict_keys (_attrs_by_japi_name cls)) = []
  /\ foldM (fun (ret : dict) n =>
              let* v := patch_attribute cls (document_attributes doc) n in
              Ok (dict_set ret n v))
           (set_iter (keys_inter (dict_keys (document_attributes doc))
                                 (dict_keys (_attrs_by_japi_name cls)))) []
     = Ok (pd_attributes pd)
  /\ keys_diff (dict_keys (document_relationships doc))
               (dict_keys (_rels_by_japi_name cls)) = []
  /\ foldM (fun (ret : dict) n =>
              let* v :=
                patch_relationship cls (document_relationships doc) n in
              Ok (dict_set ret n v))
           (set_iter (keys_inter (dict_keys (document_relationships doc))
                                 (dict_keys (_rels_by_japi_name cls)))) []
     = Ok (pd_relationships pd).
Proof using Type.
  unfold create_patch_dict.
  destruct (getitem doc "type") as [t|] eqn:Ht; [|done]. cbn [bind].
  destruct (eq_str t (japi_resource_type cls)) eqn:Heq; [|done].
  cbn [negb].
  assert (t = PStr (japi_resource_type cls)) as ->.
  { destruct t; try discriminate. cbn in Heq.
    apply String.eqb_eq in Heq. by subst. }
  destruct doc as [| | | | |d]; try discriminate. cbn [get bind].
  destruct (as_dict (or_empty_dict (default PNone (dict_lookup d "attributes"))))
    as [A|] eqn:HA; [|done].
  apply as_dict_or_empty in HA.
  assert (HA' : A = document_attributes (PDict d)) by exact HA.
  clear HA. rewrite HA'. clear HA' A. cbn [bind].
  destruct (keys_diff (dict_keys (document_attributes (PDict d)))
                      (dict_keys (_attrs_by_japi_name cls))) eqn:Hextra;
    [|done].
  match goal with
  | |- context [foldM ?s ?l []] =>
      rewrite (foldM_ext s
                 (fun (ret : dict) n =>
                    let* v := patch_attribute cls
                                (document_attributes (PDict d)) n in
                    Ok (dict_set ret n v)) l [])
        by (intros; apply patch_attribute_step)
  end.
  match goal with
  | |- context [foldM ?s ?l []] =>
      destruct (foldM s l []) as [ret_attrs|] eqn:Hattrs; [|done]
  end.
  cbn [bind].
  destruct (as_dict (or_empty_dict
                       (default PNone (dict_lookup d "relationships"))))
    as [R|] eqn:HR; [|done].
  apply as_dict_or_empty in HR.
  assert (HR' : R = document_relationships (PDict d)) by exact HR.
  clear HR. rewrite HR'. clear HR' R. cbn [bind].
  destruct (keys_diff (dict_keys (document_relationships (PDict d)))
                      (dict_keys (_rels_by_japi_name cls))) eqn:Hextra';
    [|done].
  match goal with
  | |- context [foldM ?s ?l []] =>
      rewrite (foldM_ext s
                 (fun (ret : dict) n =>
                    let* v := patch_relationship cls
                                (document_relationships (PDict d)) n in
                    Ok (dict_set ret n v)) l [])
        by (intros; apply patch_relationship_step)
  end.
  match goal with
  | |- context [foldM ?s ?l []] =>
      destruct (foldM s l []) as [ret_rels|] eqn:Hrels; [|done]
  end.
  cbn [bind]. intros [= <-]. by split_and!.
Qed.

End PatchDict.

(** The patch of an accepted document. *)
Lemma create_patch_dict_facts (set_iter : list string -> list string)
    (cls : Resource.ResourceClass) (doc : Py.pyval)
    (pd : Resource.PatchDict) :
  (forall l, Permutation (set_iter l) l) ->
  Resource.create_patch_dict set_iter cls doc = Ok pd ->
  PyOps.getitem doc "type" = Ok (Py.PStr (Resource.japi_resource_type cls))
  /\ (forall n v,
        Py.dict_lookup (Resource.pd_attributes pd) n = Some v <->
        Py.dict_lookup (Resource.document_attributes doc) n = Some v)
  /\ (forall n v,
        Py.dict_lookup (Resource.document_attributes doc) n = Some v ->
        exists a,
          Py.dict_lookup (Resource._attrs_by_japi_name cls) n = Some a
          /\ Fields.ctx_in Fields.UPDATE
               (Fields.writable_during (Fields.attr_base a)) = true)
  /\ (forall n v,
        Py.dict_lookup (Resource.pd_relationships pd) n = Some v <->
        exists linkage r,
          Py.dict_lookup (Resource.document_relationships doc) n
          = Some linkage
          /\ Py.dict_lookup (Resource._rels_by_japi_name cls) n = Some r
          /\ Fields.ToOne_deserialize r linkage = Ok v)
  /\ (forall n linkage,
        Py.dict_lookup (Resource.document_relationships doc) n
        = Some linkage ->
        exists r k,
          Py.dict_lookup (Resource._rels_by_japi_name cls) n = Some r
          /\ Fields.is_ToOne r = true
          /\ Fields.ctx_in Fields.UPDATE
               (Fields.writable_during (Fields.rel_base r)) = true
          /\ Fields.ToOne_deserialize r linkage = Ok (Py.PInt k)).
Proof.
  intros Hperm Hpd.
  apply create_patch_dict_Ok_inv in Hpd as (Hty & Hxa & Ha & Hxr & Hr).
  apply (foldM_build
           (Resource.patch_attribute cls (Resource.document_attributes doc)))
    in Ha as [Haall Halook]; [|done].
  apply (foldM_build
           (Resource.patch_relationship cls
              (Resource.document_relationships doc)))
    in Hr as [Hrall Hrlook]; [|done].
  assert (Hnames_a : forall n v,
             Py.dict_lookup (Resource.document_attributes doc) n = Some v ->
             n ∈ set_iter
                   (Py.keys_inter
                      (Py.dict_keys (Resource.document_attributes doc))
                      (Py.dict_keys (Resource._attrs_by_japi_name cls)))).
  { intros n v Hv. apply (elem_of_iter_inter set_iter Hperm).
    apply elem_of_keys_lookup in Hv. split; [done|].
    by apply (keys_diff_nil_inv _ _ n Hxa). }
  assert (Hnames_r : forall n v,
             Py.dict_lookup (Resource.document_relationships doc) n = Some v ->
             n ∈ set_iter
                   (Py.keys_inter
                      (Py.dict_keys (Resource.document_relationships doc))
                      (Py.dict_keys (Resource._rels_by_japi_name cls)))).
  { intros n v Hv. apply (elem_of_iter_inter set_iter Hperm).
    apply elem_of_keys_lookup in Hv. split; [done|].
    by apply (keys_diff_nil_inv _ _ n Hxr). }
  assert (Hpa : forall n v,
             Resource.patch_attribute cls (Resource.document_attributes doc) n
             = Ok v ->
             Py.dict_lookup (Resource.document_attributes doc) n = Some v
             /\ exists a,
                  Py.dict_lookup (Resource._attrs_by_japi_name cls) n = Some a
                  /\ Fields.ctx_in Fields.UPDATE
                       (Fields.writable_during (Fields.attr_base a)) = true).
  { intros n v. unfold Resource.patch_attribute, Resource.lookup_or_KeyError.
    destruct (Py.dict_lookup (Resource._attrs_by_japi_name cls) n)
      as [a|]; [|done].
    cbn [bind]. destruct (Fields.ctx_in _ _) eqn:Hw; [|done]. cbn [negb].
    destruct (Py.dict_lookup (Resource.document_attributes doc) n)
      as [x|]; [|done].
    cbn [bind]. intros [= <-]. split; [done|]. by exists a. }
  assert (Hpr : forall n v,
             Resource.patch_relationship cls
               (Resource.document_relationships doc) n = Ok v ->
             exists linkage r k,
               Py.dict_lookup (Resource.document_relationships doc) n
               = Some linkage
               /\ Py.dict_lookup (Resource._rels_by_japi_name cls) n = Some r
               /\ Fields.is_ToOne r = true
               /\ Fields.ctx_in Fields.UPDATE
                    (Fields.writable_during (Fields.rel_base r)) = true
               /\ Fields.ToOne_deserialize r linkage = Ok v
               /\ v = Py.PInt k).
  { intros n v. unfold Resource.patch_relationship, Resource.lookup_or_KeyError.
    destruct (Py.dict_lookup (Resource.document_relationships doc) n)
      as [linkage|]; [|done].
    cbn [bind].
    destruct (Py.dict_lookup (Resource._rels_by_japi_name cls) n)
      as [r|]; [|done].
    cbn [bind].
    destruct (Resource.check_relationship _ _ r linkage) as [[]|] eqn:Hc;
      [|done].
    cbn [bind]. intros Hd.
    destruct (check_relationship_inv _ _ _ _ Hc) as (Ht & Hw & Hk).
    destruct (Hk v Hd) as [k ->]. by exists linkage, r, k. }
  split_and!.
  - done.
  - intros n v. rewrite Halook. split.
    + intros [[_ Hf]|[_ [=]]]. by apply Hpa.
    + intros Hv. left. split; [by eapply Hnames_a|].
      destruct (Haall n (Hnames_a n v Hv)) as [v' Hv'].
      destruct (Hpa n v' Hv') as [Hl _]. congruence.
  - intros n v Hv.
    destruct (Haall n (Hnames_a n v Hv)) as [v' Hv'].
    by destruct (Hpa n v' Hv') as [_ H].
  - intros n v. rewrite Hrlook. split.
    + intros [[_ Hf]|[_ [=]]].
      destruct (Hpr n v Hf) as (linkage & r & k & H1 & H2 & _ & _ & H3 & _).
      by exists linkage, r.
    + intros (linkage & r & H1 & H2 & H3). left.
      split; [by eapply Hnames_r|].
      destruct (Hrall n (Hnames_r n linkage H1)) as [v' Hv'].
      destruct (Hpr n v' Hv') as (l' & r' & k & H1' & H2' & _ & _ & H3' & _).
      congruence.
  - intros n linkage Hl.
    destruct (Hrall n (Hnames_r n linkage Hl)) as [v' Hv'].
    destruct (Hpr n v' Hv') as (l' & r & k & H1 & H2 & H3 & H4 & H5 & ->).
    exists r, k. split_and!; try done. congruence.
Qed.

(** What [create_patch_dict] accepts, and the patch it makes. The document
    has the type of the class. The patch holds every attribute of the
    document with its value, and nothing else; each of them is declared by
    the schema and writable on update, but a null value for an attribute
    that is not nullable is accepted, and no attribute is required. The
    patch holds every relationship of the document with the key that the
    field's [deserialize] reads from its linkage; each is a to-one
    relationship of the schema, writable on update, and its key is an
    integer, never [None]. *)
Theorem create_patch_dict_sound (set_iter : list string -> list string)
    (cls : Resource.ResourceClass) (doc : Py.pyval)
    (pd : Resource.PatchDict) :
  (forall l, Permutation (set_iter l) l) ->
  Resource.create_patch_dict set_iter cls doc = Ok pd ->
  PyOps.getitem doc "type" = Ok (Py.PStr (Resource.japi_resource_type cls))
  /\ (forall n v,
        Py.dict_lookup (Resource.pd_attributes pd) n = Some v <->
        Py.dict_lookup (Resource.document_attributes doc) n = Some v)
  /\ (forall n v,
        Py.dict_lookup (Resource.document_attributes doc) n = Some v ->
        exists a,
          Py.dict_lookup (Resource._attrs_by_japi_name cls) n = Some a
          /\ Fields.ctx_in Fields.UPDATE
               (Fields.writable_during (Fields.attr_base a)) = true)
  /\ (forall n v,
        Py.dict_lookup (Resource.pd_relationships pd) n = Some v <->
        exists linkage r,
          Py.dict_lookup (Resource.document_relationships doc) n
          = Some linkage
          /\ Py.dict_lookup (Resource._rels_by_japi_name cls) n = Some r
          /\ Fields.ToOne_deserialize r linkage = Ok v)
  /\ (forall n linkage,
        Py.dict_lookup (Resource.document_relationships doc) n
        = Some linkage ->
        exists r k,
          Py.dict_lookup (Resource._rels_by_japi_name cls) n = Some r
          /\ Fields.is_ToOne r = true
          /\ Fields.ctx_in Fields.UPDATE
               (Fields.writable_during (Fields.rel_base r)) = true
          /\ Fields.ToOne_deserialize r linkage = Ok (Py.PInt k)).
Proof. apply create_patch_dict_facts. Qed.

Lemma create_patch_dict_sound_witness :
  Py.dict_lookup [("title", Py.PStr "U")] "title" = Some (Py.PStr "U")
  /\ exists a,
       Py.dict_lookup (Resource._attrs_by_japi_name Examples.article) "title"
       = Some a
       /\ Fields.ctx_in Fields.UPDATE
            (Fields.writable_during (Fields.attr_base a)) = true.
Proof.
  destruct (create_patch_dict_sound Examples.in_order Examples.article
              Examples.patch_doc
              {| Resource.pd_attributes := [("title", Py.PStr "U")];
                 Resource.pd_relationships := [("author", Py.PInt 9)] |}
              (fun l => Permutation_refl l) eq_refl)
    as (_ & Hlook & Hupd & _).
  split; [reflexivity|].
  exact (Hupd "title" (Py.PStr "U") eq_refl).
Defined.

Section ApplyPatch.
Import Py Errors PyOps Fields Resource.

Lemma update_each_inserts (f : Model -> string -> pyval -> result Model)
    (col : string -> string) (items : dict) :
  NoDup (map fst items) ->
  (forall k v m, (k, v) ∈ items -> f m k v = Ok (<[col k := v]> m)) ->
  (forall k k', k ∈ map fst items -> k' ∈ map fst items ->
                col k = col k' -> k = k') ->
  forall model,
    exists model',
      update_each f items model = Done model'
      /\ (forall k v, (k, v) ∈ items -> model' !! col k = Some v)
      /\ (forall c, (forall k, k ∈ map fst items -> col k <> c) ->
                    model' !! c = model !! c).
Proof.
  induction items as [|[k0 v0] items IH]; intros Hnd Hf Hinj model.
  - exists model. split_and!; [done| |done].
    intros k v H. by apply elem_of_nil in H.
  - cbn [map fst] in Hnd. apply NoDup_cons in Hnd as [Hk0 Hnd].
    cbn [update_each]. rewrite (Hf k0 v0 model) by left.
    destruct (IH Hnd) with (model := <[col k0 := v0]> model)
      as (model' & Hrun & Hset & Hkeep).
    { intros k v m Hkv. apply Hf. by right. }
    { intros k k' Hk Hk'. apply Hinj; by right. }
    exists model'. split_and!; [done| |].
    + intros k v [[= -> ->]|Hkv]%elem_of_cons; [|by apply Hset].
      rewrite Hkeep; [apply lookup_insert_eq|].
      intros k Hk Hc. apply Hk0.
      assert (k = k0) as <-; [|done].
      apply Hinj; [by right|left|done].
    + intros c Hc. rewrite Hkeep.
      * apply lookup_insert_ne. apply Hc. left.
      * intros k Hk. apply Hc. by right.
Qed.

End ApplyPatch.

(** A patch without relationships is applied in full. For a schema whose
    fields have the accessors derived from their mapped names, each on a
    column of its own, and a patch that [create_patch_dict] made from a
    document without relationships, [apply_patch_dict] returns, every
    attribute of the document is in its column afterwards, and the other
    columns of the record are as they were. *)
Theorem apply_patch_dict_writes_attributes
    (set_iter : list string -> list string) (cls : Resource.ResourceClass)
    (doc : Py.pyval) (pd : Resource.PatchDict) (model : Fields.Model) :
  (forall l, Permutation (set_iter l) l) ->
  Resource.mapped_schema cls ->
  Resource.create_patch_dict set_iter cls doc = Ok pd ->
  Resource.document_relationships doc = [] ->
  exists model',
    Resource.apply_patch_dict cls model pd = Resource.Done model'
    /\ (forall n v,
          Py.dict_lookup (Resource.document_attributes doc) n = Some v ->
          model' !! Resource.attribute_column_of cls n = Some v)
    /\ (forall c,
          (forall n, n ∈ Py.dict_keys (Resource.document_attributes doc) ->
                     Resource.attribute_column_of cls n <> c) ->
          model' !! c = model !! c).
Proof.
  intros Hperm Hschema Hpd Hnorel.
  pose proof (create_patch_dict_facts _ _ _ _ Hperm Hpd)
    as (_ & Hlook & Hupd & Hrels & _).
  pose proof Hpd as Hinv.
  apply create_patch_dict_Ok_inv in Hinv as (_ & _ & Ha & _ & _).
  apply (foldM_build_NoDup
           (Resource.patch_attribute cls (Resource.document_attributes doc)))
    in Ha; [|done|apply NoDup_nil_2].
  assert (Hr : Resource.pd_relationships pd = []).
  { destruct (Resource.pd_relationships pd) as [|[n v] rest] eqn:E; [done|].
    assert (Hl : Py.dict_lookup ((n, v) :: rest) n = Some v)
      by (cbn; by rewrite String.eqb_refl).
    apply Hrels in Hl as (linkage & r & Hl & _). by rewrite Hnorel in Hl. }
  assert (Hkeys : forall k,
             k ∈ map fst (Resource.pd_attributes pd) ->
             k ∈ Py.dict_keys (Resource.document_attributes doc)
             /\ k ∈ Py.dict_keys (Resource._attrs_by_japi_name cls)).
  { intros k Hk. apply list_elem_of_fmap in Hk as ([k' v] & -> & Hkv).
    apply dict_lookup_elem_of in Hkv; [|done]. cbn [fst].
    apply Hlook in Hkv. split; [by eapply elem_of_keys_lookup|].
    destruct (Hupd _ _ Hkv) as (a & Ha' & _).
    by eapply elem_of_keys_lookup. }
  destruct (update_each_inserts
              (fun model attribute_name value =>
                 let* field :=
                   Resource.lookup_or_KeyError
                     (Resource._attrs_by_japi_name cls) attribute_name in
                 Fields._fset (Fields.attr_base field) model value)
              (Resource.attribute_column_of cls)
              (Resource.pd_attributes pd) Ha) with (model := model)
    as (model' & Hrun & Hset & Hkeep).
  { intros k v m Hkv. apply dict_lookup_elem_of in Hkv; [|done].
    apply Hlook in Hkv. destruct (Hupd _ _ Hkv) as (a & Ha' & Hw).
    unfold Resource.lookup_or_KeyError. rewrite Ha'. cbn [bind].
    destruct (attribute_lookup cls Hschema k a Ha') as [_ ->].
    by rewrite (derived_fset_writable _ _ _ Hw). }
  { intros k k' Hk Hk'. apply (attribute_column_inj cls Hschema).
    - by apply Hkeys.
    - by apply Hkeys. }
  exists model'. unfold Resource.apply_patch_dict. rewrite Hrun, Hr.
  cbn [Resource.update_each]. split_and!; [done| |].
  - intros n v Hv. apply Hset. apply dict_lookup_Some_elem_of.
    by apply Hlook.
  - intros c Hc. apply Hkeep. intros k Hk. apply Hc. by apply Hkeys.
Qed.

Lemma apply_patch_dict_writes_attributes_witness :
  exists model',
    Resource.apply_patch_dict Examples.note Examples.stored_article
      {| Resource.pd_attributes := [("title", Py.PStr "U")];
         Resource.pd_relationships := [] |}
    = Resource.Done model'
    /\ model' !! "title" = Some (Py.PStr "U")
    /\ model' !! "author_id" = Some (Py.PInt 4).
Proof.
  destruct (apply_patch_dict_writes_attributes Examples.in_order
              Examples.note
              (Py.PDict [("type", Py.PStr "note"); ("id", Py.PStr "1");
                         ("attributes", Py.PDict [("title", Py.PStr "U")])])
              {| Resource.pd_attributes := [("title", Py.PStr "U")];
                 Resource.pd_relationships := [] |}
              Examples.stored_article
              (fun l => Permutation_refl l) note_mapped_schema
              eq_refl eq_refl)
    as (model' & Hrun & Hset & Hkeep).
  exists model'. split_and!; [done| |].
  - exact (Hset "title" (Py.PStr "U") eq_refl).
  - rewrite (Hkeep "author_id"); [reflexivity|].
    intros n Hn. cbn in Hn. apply list_elem_of_singleton in Hn. by subst n.
Defined.

(** ** What a create document must satisfy *)

Section AcceptFacts.
Import Py Errors PyOps Fields Resource.

Lemma foldM_steps {A S} (f : S -> A -> result S) (l : list A) :
  forall s s',
    foldM f l s = Ok s' ->
    forall x, x ∈ l -> exists s1 s2, f s1 x = Ok s2.
Proof.
  induction l as [|y l IH]; intros s s'; cbn [foldM].
  - intros _ x Hx. by apply elem_of_nil in Hx.
  - destruct (f s y) as [s1|] eqn:Hy; [|done]. cbn [bind].
    intros H x [->|Hx]%elem_of_cons; [by exists s, s1|by eapply IH].
Qed.

Lemma write_attribute_Ok (cls : ResourceClass) (attributes : dict)
    (m m' : Model) (n : string) :
  write_attribute cls attributes m n = Ok m' ->
  exists v a,
    dict_lookup attributes n = Some v
    /\ dict_lookup (_attrs_by_japi_name cls) n = Some a
    /\ (v <> PNone \/ nullable a = true)
    /\ ctx_in CREATE (writable_during a) = true.
Proof.
  unfold write_attribute, lookup_or_KeyError.
  destruct (dict_lookup attributes n) as [v|]; [|done]. cbn [bind].
  destruct (dict_lookup (_attrs_by_japi_name cls) n) as [a|]; [|done].
  cbn [bind].
  destruct (is_none v && negb (nullable a)) eqn:Hnull; [done|].
  destruct (ctx_in CREATE (writable_during a)) eqn:Hw; [|done].
  intros _. exists v, a. split_and!; try done.
  destruct v; try (left; discriminate).
  right. cbn in Hnull. by destruct (nullable a).
Qed.

Lemma write_relationship_Ok (cls : ResourceClass) (relationships : dict)
    (m m' : Model) (n : string) :
  write_relationship cls relationships m n = Ok m' ->
  exists v r k,
    dict_lookup relationships n = Some v
    /\ dict_lookup (_rels_by_japi_name cls) n = Some r
    /\ is_ToOne r = true
    /\ ctx_in CREATE (writable_during r) = true
    /\ ToOne_deserialize r v = Ok (PInt k).
Proof.
  unfold write_relationship, lookup_or_KeyError.
  destruct (dict_lookup relationships n) as [v|]; [|done]. cbn [bind].
  destruct (dict_lookup (_rels_by_japi_name cls) n) as [r|]; [|done].
  cbn [bind].
  destruct (check_relationship CREATE _ r v) as [[]|] eqn:Hc; [|done].
  cbn [bind]. unfold ToOne_deserialize_into_obj.
  destruct (ToOne_deserialize r v) as [x|] eqn:Hd; [|done].
  intros _. destruct (check_relationship_inv _ _ _ _ Hc) as (Ht & Hw & Hk).
  destruct (Hk x Hd) as [k ->]. by exists v, r, k.
Qed.

End AcceptFacts.

(** What [Resource.deserialize] accepts. The class is instantiable and the
    document has its type. Every attribute of the document is declared by
    the schema, writable on create, and not null unless the attribute is
    nullable; every attribute of the schema that the document leaves out
    has a default or is nullable. Every relationship of the document is a
    to-one relationship of the schema, writable on create, with a linkage
    from which the field reads an integer key (a null linkage is not
    accepted); every relationship that the document leaves out is nullable
    or has a default. *)
Theorem deserialize_accepts_only_conforming
    (set_iter : list string -> list string) (cls : Resource.ResourceClass)
    (doc : Py.pyval) (model : Fields.Model) :
  (forall l, Permutation (set_iter l) l) ->
  Resource.deserialize set_iter cls doc = Ok model ->
  Resource._instantiable cls = true
  /\ PyOps.getitem doc "type" = Ok (Py.PStr (Resource.japi_resource_type cls))
  /\ (forall n v,
        Py.dict_lookup (Resource.document_attributes doc) n = Some v ->
        exists a,
          Py.dict_lookup (Resource._attrs_by_japi_name cls) n = Some a
          /\ (v <> Py.PNone \/ Fields.nullable (Fields.attr_base a) = true)
          /\ Fields.ctx_in Fields.CREATE
               (Fields.writable_during (Fields.attr_base a)) = true)
  /\ (forall n a,
        Py.dict_lookup (Resource._attrs_by_japi_name cls) n = Some a ->
        Py.dict_mem (Resource.document_attributes doc) n = false ->
        Fields.has_default (Fields.attr_base a) = true
        \/ Fields.nullable (Fields.attr_base a) = true)
  /\ (forall n linkage,
        Py.dict_lookup (Resource.document_relationships doc) n
        = Some linkage ->
        exists r k,
          Py.dict_lookup (Resource._rels_by_japi_name cls) n = Some r
          /\ Fields.is_ToOne r = true
          /\ Fields.ctx_in Fields.CREATE
               (Fields.writable_during (Fields.rel_base r)) = true
          /\ Fields.ToOne_deserialize r linkage = Ok (Py.PInt k))
  /\ (forall n r,
        Py.dict_lookup (Resource._rels_by_japi_name cls) n = Some r ->
        Py.dict_mem (Resource.document_relationships doc) n = false ->
        Fields.nullable (Fields.rel_base r) = true
        \/ Fields.has_default (Fields.rel_base r) = true).
Proof.
  intros Hperm Hdes.
  pose proof (deserialize_Ok_inv set_iter cls doc model Hdes)
    as (m1 & Hca & Hwa & Hcr & Hwr).
  assert (Hhead : Resource._instantiable cls = true
                  /\ PyOps.getitem doc "type"
                     = Ok (Py.PStr (Resource.japi_resource_type cls))).
  { revert Hdes. unfold Resource.deserialize, Resource.Resource_init.
    destruct (Resource._instantiable cls); [|done]. cbn [bind].
    destruct (PyOps.getitem doc "type") as [t|]; [|done]. cbn [bind].
    destruct t; try done. cbn [Py.eq_str].
    destruct (String.eqb s (Resource.japi_resource_type cls)) eqn:E; [|done].
    apply String.eqb_eq in E. by subst s. }
  destruct Hhead as [Hinst Htype].
  assert (Hmem : forall {A} (d : list (string * A)) n,
             Py.dict_mem d n = false -> n ∉ Py.dict_keys d).
  { intros A d n Hm Hin. apply elem_of_dict_keys, dict_mem_elem_of in Hin.
    congruence. }
  split_and!; try done.
  - intros n v Hv.
    assert (Hn : n ∈ set_iter
                       (Py.keys_inter
                          (Py.dict_keys (Resource.document_attributes doc))
                          (Py.dict_keys (Resource._attrs_by_japi_name cls)))).
    { apply (elem_of_iter_inter set_iter Hperm).
      pose proof (elem_of_keys_lookup _ _ _ Hv) as Hk. split; [done|].
      by eapply check_attribute_keys_no_extra. }
    destruct (foldM_steps _ _ _ _ Hwa n Hn) as (s1 & s2 & Hstep).
    apply write_attribute_Ok in Hstep as (v' & a & Hv' & Ha & Hnull & Hw).
    exists a. rewrite Hv in Hv'. injection Hv' as <-. by split_and!.
  - intros n a Ha Hm. revert Hca. unfold Resource.check_attribute_keys.
    destruct (Py.keys_diff (Py.dict_keys (Resource.document_attributes doc))
                           (Py.dict_keys (Resource._attrs_by_japi_name cls)));
      [|done].
    rewrite for_each_Ok_iff. intros Hall.
    specialize (Hall n). unfold Resource.lookup_or_KeyError in Hall.
    rewrite Ha in Hall. cbn [bind] in Hall.
    destruct (Fields.has_default (Fields.attr_base a)) eqn:Hd; [by left|].
    destruct (Fields.nullable (Fields.attr_base a)) eqn:Hn; [by right|].
    cbn in Hall. discriminate Hall.
    apply (elem_of_set_iter set_iter Hperm), elem_of_keys_diff.
    split; [by eapply elem_of_keys_lookup|by apply Hmem].
  - intros n linkage Hl.
    assert (Hn : n ∈ set_iter
                       (Py.keys_inter
                          (Py.dict_keys (Resource.document_relationships doc))
                          (Py.dict_keys (Resource._rels_by_japi_name cls)))).
    { apply (elem_of_iter_inter set_iter Hperm).
      pose proof (elem_of_keys_lookup _ _ _ Hl) as Hk. split; [done|].
      by eapply check_relationship_keys_no_extra. }
    destruct (foldM_steps _ _ _ _ Hwr n Hn) as (s1 & s2 & Hstep).
    apply write_relationship_Ok in Hstep
      as (v' & r & k & Hv' & Hr & Ht & Hw & Hd).
    exists r, k. rewrite Hl in Hv'. injection Hv' as <-. by split_and!.
  - intros n r Hr Hm. revert Hcr. unfold Resource.check_relationship_keys.
    destruct (Py.keys_diff
                (Py.dict_keys (Resource.document_relationships doc))
                (Py.dict_keys (Resource._rels_by_japi_name cls)));
      [|done].
    rewrite for_each_Ok_iff. intros Hall.
    specialize (Hall n). unfold Resource.lookup_or_KeyError in Hall.
    rewrite Hr in Hall. cbn [bind] in Hall.
    destruct (Fields.nullable (Fields.rel_base r)) eqn:Hn; [by left|].
    destruct (Fields.has_default (Fields.rel_base r)) eqn:Hd; [by right|].
    cbn in Hall. discriminate Hall.
    apply (elem_of_set_iter set_iter Hperm), elem_of_keys_diff.
    split; [by eapply elem_of_keys_lookup|by apply Hmem].
Qed.

Lemma deserialize_accepts_only_conforming_witness :
  exists r k,
    Py.dict_lookup (Resource._rels_by_japi_name Examples.article) "author"
    = Some r
    /\ Fields.ToOne_deserialize r Examples.person_9 = Ok (Py.PInt k).
Proof.
  destruct (deserialize_accepts_only_conforming Examples.in_order
              Examples.article Examples.article_doc
              {[ "title" := Py.PStr "T"; "author_id" := Py.PInt 9 ]}
              (fun l => Permutation_refl l) eq_refl)
    as (_ & _ & _ & _ & Hrel & _).
  destruct (Hrel "author" Examples.person_9 eq_refl)
    as (r & k & Hr & _ & _ & Hd).
  by exists r, k.
Defined.

(** ** Sorting and filtering parameters *)

Section OrderByFacts.
Import Py Errors PyOps Fields Resource Utilities.

Lemma split_str_on_comma_nonempty (s : string) :
  Forall (fun t => t <> "") (Splitter.split_str_on_comma s).
Proof.
  unfold Splitter.split_str_on_comma. rewrite split_chars_scan.
  apply Forall_fmap.
  eapply Forall_impl;
    [apply (scan_no_empty true (list_ascii_of_string s) false [] []);
     apply List.Forall_nil|].
  intros t Ht Hs. cbn in Hs. by apply string_of_list_ascii_nil in Hs.
Qed.

Lemma sort_entries_nonempty (args : list (string * string)) :
  Forall (fun t => t <> "") (sort_entries args).
Proof.
  unfold sort_entries. destruct (dict_lookup args "sort") as [s|];
    [|apply List.Forall_nil].
  destruct (nonempty s); [apply split_str_on_comma_nonempty|].
  apply List.Forall_nil.
Qed.

Lemma starts_with_refl (cs : list ascii) : starts_with cs cs = true.
Proof.
  induction cs as [|c cs IH]; [done|]. cbn. by rewrite Ascii.eqb_refl.
Qed.

Lemma replace_chars_skip (old new cs : list ascii) :
  forall skip, (length cs <= skip)%nat -> replace_chars old new cs skip = [].
Proof.
  induction cs as [|c cs IH]; intros skip Hs; [done|]. cbn in Hs.
  destruct skip as [|k]; [lia|]. cbn. apply IH. lia.
Qed.

(** Replacing the name in the name with a dash before it. *)
Lemma str_replace_dash (c : ascii) (name fk : string) :
  c <> "-"%char ->
  str_replace (String "-" (String c name)) (String c name) fk
  = String "-" fk.
Proof.
  intros Hc. unfold str_replace. cbn [list_ascii_of_string replace_chars].
  cbn [starts_with]. apply Ascii.eqb_neq in Hc. rewrite Hc. cbn [andb].
  rewrite Ascii.eqb_refl, starts_with_refl. cbn [andb length].
  rewrite replace_chars_skip by lia.
  rewrite app_nil_r. cbn [string_of_list_ascii].
  by rewrite string_of_list_ascii_of_string.
Qed.

Lemma starts_with_shifted (name : list ascii) :
  forall c, starts_with name (c :: name) = true -> Forall (eq c) name.
Proof.
  induction name as [|a name IH]; intros c; [constructor|].
  cbn [starts_with]. intros [Ha Hs]%andb_true_iff.
  apply Ascii.eqb_eq in Ha. subst a. constructor; [done|]. by apply IH.
Qed.

(** Replacing a name that is not made of dashes in the name with a dash
    before it. *)
Lemma str_replace_dash_name (name fk : string) :
  (exists c, c ∈ list_ascii_of_string name /\ c <> "-"%char) ->
  str_replace (String "-" name) name fk = String "-" fk.
Proof.
  intros (c & Hin & Hc). unfold str_replace.
  cbn [list_ascii_of_string].
  destruct (list_ascii_of_string name) as [|a cs] eqn:Hname;
    [by apply elem_of_nil in Hin|].
  cbn [replace_chars].
  destruct (starts_with (a :: cs) ("-"%char :: a :: cs)) eqn:Hs.
  { apply starts_with_shifted in Hs. rewrite Forall_forall in Hs.
    destruct Hc. symmetry. by apply Hs. }
  rewrite starts_with_refl. cbn [length].
  rewrite replace_chars_skip by lia.
  rewrite app_nil_r. cbn [string_of_list_ascii].
  by rewrite string_of_list_ascii_of_string.
Qed.

End OrderByFacts.

(** [get_order_by_fields] never raises [IndexError]: the entries of the
    sort value are not empty. When attribute lookup finds each relationship
    of the class with a foreign key, it returns one entry for each entry of
    the sort value, in order: the foreign key for the name of a
    relationship; for a dash and the name of a relationship, the entry with
    the occurrences of the name replaced by the foreign key, which is a dash
    and the foreign key unless the name is made of dashes only; and the
    entry itself otherwise. *)
Theorem get_order_by_fields_entries (cls : Resource.ResourceClass)
    (args : list (string * string)) :
  Utilities.get_order_by_fields args cls <> Utilities.RaisesIndexError
  /\ ((forall name r,
          Py.dict_lookup (Resource._rels_by_japi_name cls) name = Some r ->
          exists fk,
            Utilities.fk_of r = Some fk
            /\ Resource.getattr_mapped_fk_name cls name = Ok (Some fk)) ->
      exists out,
        Utilities.get_order_by_fields args cls = Utilities.Returns out
        /\ Forall2
             (fun value entry =>
                (forall r,
                    Py.dict_lookup (Resource._rels_by_japi_name cls) value
                    = Some r ->
                    entry = Utilities.fk_of r)
                /\ (Py.dict_lookup (Resource._rels_by_japi_name cls) value
                    = None ->
                    forall name r,
                      value = String "-" name ->
                      Py.dict_lookup (Resource._rels_by_japi_name cls) name
                      = Some r ->
                      exists fk,
                        Utilities.fk_of r = Some fk
                        /\ entry = Some (Py.str_replace value name fk)
                        /\ ((exists c, c ∈ list_ascii_of_string name
                                       /\ c <> "-"%char) ->
                            entry = Some (String "-" fk)))
                /\ (Py.dict_lookup (Resource._rels_by_japi_name cls) value
                    = None ->
                    (forall name,
                        value = String "-" name ->
                        Py.dict_lookup (Resource._rels_by_japi_name cls) name
                        = None) ->
                    entry = Some value))
             (Utilities.sort_entries args) out).
Proof.
  unfold Utilities.get_order_by_fields.
  pose proof (sort_entries_nonempty args) as Hne.
  split.
  - induction Hne as [|value values Hv Hvs IH]; [done|].
    cbn [Utilities.order_entries].
    destruct (Utilities.order_entry cls value) as [entry|e|] eqn:He.
    + by destruct (Utilities.order_entries cls values).
    + done.
    + unfold Utilities.order_entry in He.
      destruct (negb _).
      * destruct value as [|c name]; [done|].
        destruct (Ascii.eqb c "-"); [|done].
        destruct (Py.dict_mem _ name); [|done].
        by destruct (Resource.getattr_mapped_fk_name cls name) as [[fk|]|].
      * by destruct (Resource.getattr_mapped_fk_name cls value).
  - intros Hrel.
    induction Hne as [|value values Hv Hvs IH].
    + exists []. split; [done|constructor].
    + destruct IH as (out & Hout & Hall).
      cbn [Utilities.order_entries]. rewrite Hout.
      assert (Hentry : exists entry,
                 Utilities.order_entry cls value = Utilities.Returns entry
                 /\ (forall r,
                        Py.dict_lookup (Resource._rels_by_japi_name cls) value
                        = Some r ->
                        entry = Utilities.fk_of r)
                 /\ (Py.dict_lookup (Resource._rels_by_japi_name cls) value
                     = None ->
                     forall name r,
                       value = String "-" name ->
                       Py.dict_lookup (Resource._rels_by_japi_name cls) name
                       = Some r ->
                       exists fk,
                         Utilities.fk_of r = Some fk
                         /\ entry = Some (Py.str_replace value name fk)
                         /\ ((exists c, c ∈ list_ascii_of_string name
                                        /\ c <> "-"%char) ->
                             entry = Some (String "-" fk)))
                 /\ (Py.dict_lookup (Resource._rels_by_japi_name cls) value
                     = None ->
                     (forall name,
                         value = String "-" name ->
                         Py.dict_lookup (Resource._rels_by_japi_name cls) name
                         = None) ->
                     entry = Some value)).
      { unfold Utilities.order_entry, Py.dict_mem.
        destruct (Py.dict_lookup (Resource._rels_by_japi_name cls) value)
          as [r|] eqn:Hr; cbn [negb].
        - destruct (Hrel value r Hr) as (fk & Hfk & ->).
          exists (Some fk). split_and!; [done| |done..].
          intros r' [= <-]. done.
        - destruct value as [|c name]; [done|].
          destruct (Ascii.eqb c "-") eqn:Hc.
          + apply Ascii.eqb_eq in Hc. subst c.
            destruct (Py.dict_lookup (Resource._rels_by_japi_name cls) name)
              as [r|] eqn:Hn.
            * destruct (Hrel name r Hn) as (fk & Hfk & ->).
              eexists. split_and!; [done|done| |].
              -- intros _ name' r' [= <-] Hr'.
                 rewrite Hn in Hr'. injection Hr' as <-.
                 exists fk. split_and!; [done..|].
                 intros Hc. by rewrite str_replace_dash_name.
              -- intros _ Hnone. specialize (Hnone name eq_refl).
                 congruence.
            * eexists. split_and!; [done|done| |done].
              intros _ name' r' [= <-] Hr'. congruence.
          + eexists. split_and!; [done|done| |done].
            intros _ name' r' [= -> _]. by rewrite Ascii.eqb_refl in Hc. }
      destruct Hentry as (entry & -> & Hentry).
      exists (entry :: out). split; [done|]. by constructor.
Qed.

Lemma get_order_by_fields_entries_witness :
  exists out,
    Utilities.get_order_by_fields [("sort", "title,-author,author")]
                                  Examples.article
    = Utilities.Returns out
    /\ length out = 3%nat.
Proof.
  destruct (proj2 (get_order_by_fields_entries Examples.article
                     [("sort", "title,-author,author")]))
    as (out & Hout & Hall).
  - intros name r H.
    cbn [Py.dict_lookup Resource._rels_by_japi_name Examples.article] in H.
    destruct (String.eqb "author" name) eqn:E; [|discriminate].
    apply String.eqb_eq in E. subst name. injection H as <-.
    by exists "author_id".
  - exists out. split; [done|].
    apply Forall2_length in Hall. by rewrite <- Hall.
Defined.

Section FilterFacts.
Import Py Errors PyOps Fields Resource Utilities.

Variable cls : ResourceClass.

Hypothesis relationships_by_name :
  forall name r,
    dict_lookup (_rels_by_japi_name cls) name = Some r ->
    getattr_mapped_fk_name cls name = Ok (fk_of r).




End FilterFacts.



(** ** More on the metaclass *)

Section MetaMore.
Import Py Meta.

Lemma dict_set_keeps_keys {A} (d : list (string * A)) (k k' : string)
    (v : A) :
  k' ∈ map fst d \/ k' = k -> k' ∈ map fst (dict_set d k v).
Proof.
  induction d as [|[k0 v0] d IH]; cbn [dict_set map fst].
  - intros [H| ->]; [by apply elem_of_nil in H|left].
  - destruct (String.eqb k0 k) eqn:E; cbn [map fst].
    + apply String.eqb_eq in E. subst k0.
      intros [H| ->]; [done|left].
    + intros [[->|H]%elem_of_cons| ->]; [left|right; apply IH; by left|].
      right. apply IH. by right.
Qed.

Lemma dict_update_keeps_keys {A} (e : list (string * A)) :
  forall (d : list (string * A)) (k : string),
    k ∈ map fst d \/ k ∈ map fst e -> k ∈ map fst (dict_update d e).
Proof.
  unfold dict_update.
  induction e as [|[k0 v0] e IH]; intros d k; cbn [fold_left map fst].
  - intros [H|H]; [done|by apply elem_of_nil in H].
  - intros [H|[->|H]%elem_of_cons]; apply IH.
    + left. apply dict_set_keeps_keys. by left.
    + left. apply dict_set_keeps_keys. by right.
    + by right.
Qed.

Lemma inherited_keeps_keys (classes : list (string * ClassObj))
    (bases : list string) (proj : ClassObj -> list (string * loc))
    (base : string) (P : ClassObj) (n : string) :
  base ∈ bases ->
  dict_lookup classes base = Some P ->
  n ∈ map fst (proj P) ->
  n ∈ map fst (inherited classes bases proj).
Proof.
  intros Hbase HP Hn. unfold inherited.
  assert (Hgen : forall (bs : list string) (acc : list (string * loc)),
             n ∈ map fst acc \/ base ∈ bs ->
             n ∈ map fst
                   (fold_left
                      (fun acc base =>
                         match dict_lookup classes base with
                         | Some c => dict_update acc (proj c)
                         | None => acc
                         end) bs acc)).
  { induction bs as [|b bs IH]; intros acc; cbn [fold_left].
    - intros [H|H]; [done|by apply elem_of_nil in H].
    - intros [H|[<-|H]%elem_of_cons]; apply IH.
      + left. destruct (dict_lookup classes b); [|done].
        apply dict_update_keeps_keys. by left.
      + left. rewrite HP. apply dict_update_keeps_keys. by right.
      + by right. }
  apply Hgen. right. apply list_elem_of_In, in_rev in Hbase.
  by apply list_elem_of_In.
Qed.

Lemma deepcopy_items_keys (items : list (string * loc)) :
  forall h memo h1 items',
    deepcopy_items h memo items = Some (h1, items') ->
    map fst items' = map fst items.
Proof.
  induction items as [|[k l] items IH]; intros h memo h1 items';
    cbn [deepcopy_items].
  - by intros [= <- <-].
  - destruct (deepcopy_field h memo l) as [[[ha memoa] la]|]; [|done].
    destruct (deepcopy_items ha memoa items) as [[hb rest']|] eqn:Hr;
      [|done].
    intros [= <- <-]. cbn [map fst]. f_equal. by eapply IH.
Qed.

Lemma bind_member_keeps_keys (cls : string) (st st' : binding_state)
    (item : string * Member) :
  bind_member cls st item = Some st' ->
  (forall n, n ∈ map fst (bs_attrs st) -> n ∈ map fst (bs_attrs st'))
  /\ (forall n, n ∈ map fst (bs_rels st) -> n ∈ map fst (bs_rels st')).
Proof.
  destruct item as [python_name [l| |s|]]; cbn [bind_member];
    try (by intros [= <-]).
  destruct (bs_heap st !! l) as [[f|vs]|]; [|done..].
  destruct (field_class (set_python_name f python_name)).
  - destruct (bind_accessors _ python_name) as [f'|]; [|done].
    intros [= <-]. cbn [bs_attrs bs_rels]. split; [|done].
    intros n Hn. apply dict_set_keeps_keys. by left.
  - intros [= <-]. cbn [bs_attrs bs_rels]. split; [done|].
    intros n Hn. apply dict_set_keeps_keys. by left.
  - intros [= <-]. cbn [bs_attrs bs_rels]. split; [done|].
    intros n Hn. apply dict_set_keeps_keys. by left.
  - destruct (bind_accessors _ "id") as [f'|]; [|done].
    by intros [= <-].
Qed.

Lemma bind_members_keeps_keys (cls : string)
    (items : list (string * Member)) :
  forall st st',
    bind_members cls st items = Some st' ->
    (forall n, n ∈ map fst (bs_attrs st) -> n ∈ map fst (bs_attrs st'))
    /\ (forall n, n ∈ map fst (bs_rels st) -> n ∈ map fst (bs_rels st')).
Proof.
  induction items as [|item items IH]; intros st st'; cbn [bind_members].
  - by intros [= <-].
  - destruct (bind_member cls st item) as [st1|] eqn:H1; [|done].
    intros H. destruct (bind_member_keeps_keys _ _ _ _ H1) as [Ha Hr].
    destruct (IH _ _ H) as [Ha' Hr']. split; eauto.
Qed.

End MetaMore.

(** Inheritance loses no field: a class built by the metaclass has every
    wire name of the attributes and of the relationships of each of its
    bases, inherited or declared again in its own body. *)
Theorem subclass_keeps_inherited_names (h h' : Meta.heap)
    (classes : list (string * Meta.ClassObj)) (cls : string)
    (bases : list string) (attrs : list (string * Meta.Member))
    (C : Meta.ClassObj) (base : string) (P : Meta.ClassObj) :
  Meta.ResourceMeta_init h classes cls bases attrs = Some (h', C) ->
  base ∈ bases ->
  Py.dict_lookup classes base = Some P ->
  (forall n, n ∈ map fst (Meta._attrs_by_japi_name P) ->
             n ∈ map fst (Meta._attrs_by_japi_name C))
  /\ (forall n, n ∈ map fst (Meta._rels_by_japi_name P) ->
                n ∈ map fst (Meta._rels_by_japi_name C)).
Proof.
  unfold Meta.ResourceMeta_init, Meta.deepcopy_dict.
  destruct (Meta.deepcopy_items h ∅ _) as [[h1 A]|] eqn:HA; [|done].
  destruct (Meta.deepcopy_items h1 ∅ _) as [[h2 R]|] eqn:HR; [|done].
  destruct (Meta.bind_members cls _ attrs) as [st|] eqn:Hb; [|done].
  intros [= <- <-] Hbase HP.
  apply deepcopy_items_keys in HA, HR.
  apply bind_members_keeps_keys in Hb as [Ha Hr].
  cbn [Meta.bs_attrs Meta.bs_rels Meta._attrs_by_japi_name
       Meta._rels_by_japi_name] in *.
  split; intros n Hn.
  - apply Ha. rewrite HA. by eapply inherited_keeps_keys.
  - apply Hr. rewrite HR. by eapply inherited_keeps_keys.
Qed.

Lemma subclass_keeps_inherited_names_witness :
  "title" ∈ map fst (Meta._attrs_by_japi_name MetaExamples.Child)
  /\ "author" ∈ map fst (Meta._rels_by_japi_name MetaExamples.Child).
Proof.
  destruct (subclass_keeps_inherited_names
              MetaExamples.parent_heap MetaExamples.child_heap
              [("Parent", MetaExamples.Parent)] "Child" ["Parent"]
              MetaExamples.child_body MetaExamples.Child
              "Parent" MetaExamples.Parent)
    as [Ha Hr].
  - vm_compute. reflexivity.
  - left.
  - reflexivity.
  - split; [apply Ha|apply Hr]; vm_compute; left.
Defined.

(** Building a class does not change the classes built before it, unless
    its body holds one of their field objects: when no object that a
    registered class reaches is a field of the new class body, the field
    maps and the descriptors of that class are the same before and after. *)
Theorem registration_leaves_registered_classes (h h' : Meta.heap)
    (classes : list (string * Meta.ClassObj)) (cls : string)
    (bases : list string) (attrs : list (string * Meta.Member))
    (C : Meta.ClassObj) (cn : string) (Q : Meta.ClassObj) :
  Meta.heap_closed h classes ->
  Meta.ResourceMeta_init h classes cls bases attrs = Some (h', C) ->
  (cn, Q) ∈ classes ->
  (forall p, Meta.reaches h Q p -> ~ Meta.declared attrs p) ->
  Meta.class_view h' Q = Meta.class_view h Q.
Proof.
  intros Hclosed Hinit HQ Hfresh.
  destruct (ResourceMeta_init_inv _ _ _ _ _ _ _ Hclosed Hinit)
    as (h2 & Hp & (Hsame & _ & _) & _).
  unfold Meta.class_view. apply map_ext_in.
  intros [n l] Hin%list_elem_of_In.
  destruct (Hclosed cn Q n l HQ Hin) as [[f vs] Hd].
  pose proof Hd as [Hl Hv]%descriptor_Some.
  assert (Hl' : h' !! l = Some (Meta.OField f)).
  { rewrite Hsame, (Hp l); [done|by eapply lookup_Some_dom|].
    apply Hfresh. exists n, l. split; [done|by left]. }
  assert (Hv' : h' !! Meta._fvalidators f = Some (Meta.OList vs)).
  { rewrite Hsame, (Hp (Meta._fvalidators f));
      [done|by eapply lookup_Some_dom|].
    apply Hfresh. exists n, l. split; [done|]. right. by exists f. }
  f_equal. rewrite Hd. by apply descriptor_Some.
Qed.

Lemma registration_leaves_registered_classes_witness :
  Meta.class_view MetaExamples.child_heap MetaExamples.Parent
  = Meta.class_view MetaExamples.parent_heap MetaExamples.Parent.
Proof.
  apply (registration_leaves_registered_classes
           MetaExamples.parent_heap MetaExamples.child_heap
           [("Parent", MetaExamples.Parent)] "Child" ["Parent"]
           MetaExamples.child_body MetaExamples.Child "Parent").
  - intros cn Q n l HQ%list_elem_of_singleton. injection HQ as -> ->.
    intros Hin. vm_compute in Hin. apply list_elem_of_In in Hin.
    destruct Hin as [[= <- <-]|[[= <- <-]|[]]]; vm_compute; by eexists.
  - vm_compute. reflexivity.
  - left.
  - intros p (n & l & Hin & Hp) [pn Hd%list_elem_of_singleton].
    injection Hd as -> ->. vm_compute in Hin. apply list_elem_of_In in Hin.
    destruct Hin as [[= <- <-]|[[= <- <-]|[]]].
    + destruct Hp as [Hp|(f & Hf & Hp)]; [discriminate|].
      vm_compute in Hf. injection Hf as <-. discriminate.
    + destruct Hp as [Hp|(f & Hf & Hp)]; [discriminate|].
      vm_compute in Hf. injection Hf as <-. discriminate.
Defined.


